(** * libfwupd/fwupd-device.c : the device record and its key-value codec

    A shallow embedding of [FwupdDevice]: the private struct, its accessors,
    the serializer [fwupd_device_to_variant_builder], the deserializer
    [fwupd_device_from_key_value] / [fwupd_device_new_from_data] and the
    text formatter [fwupd_device_to_string].

    Conventions.
    - A [gchar *] that may be NULL is an [option string]; a C string that the
      code never receives as NULL is a [string].
    - [guint64] and [guint32] values are [N]; the range of a field is stated
      where a property needs it ([flags_in_range]).
    - [g_return_if_fail (FWUPD_IS_DEVICE (device))] and
      [g_return_if_fail (checksum != NULL)] are precondition checks; the
      embedding only speaks about calls that satisfy them. *)

From Stdlib Require Import List String Ascii Bool NArith ZArith Lia DecimalString
  Permutation.
Import ListNotations.
Local Open Scope list_scope.
Local Open Scope string_scope.

(** ** GLib primitives *)

(** [g_string_truncate (str, len)]: keeps the first [MIN (len, str->len)]
    characters. *)
Definition g_string_truncate (str : string) (len : nat) : string :=
  substring 0 (Nat.min len (length str)) str.

(** [g_string_append (str, val)]: a NULL [val] fails the function's
    [g_return_val_if_fail] and leaves the buffer as it is. *)
Definition g_string_append (str : string) (val : option string) : string :=
  match val with
  | Some v => str ++ v
  | None => str
  end.

(** What [printf] writes for a ["%s"] argument; glibc prints a NULL pointer
    as ["(null)"]. *)
Definition printf_s (arg : option string) : string :=
  match arg with
  | Some s => s
  | None => "(null)"
  end.

(** ["%" G_GUINT32_FORMAT]: the decimal digits of the value. *)
Definition printf_u (value : N) : string :=
  NilZero.string_of_uint (N.to_uint value).

Definition G_MAXINT : Z := 2147483647.

(** The token loop of [g_strsplit] for a one-character delimiter:
    [while (--max_tokens && s)] cuts a token at each delimiter as long as the
    decremented budget is not zero; what is left is the last token. *)
Fixpoint strsplit_tokens (delimiter : ascii) (max_tokens : Z) (remainder : string)
  : list string :=
  match remainder with
  | EmptyString => [EmptyString]
  | String c rest =>
      if (Ascii.eqb c delimiter && negb (max_tokens - 1 =? 0)%Z)%bool
      then EmptyString :: strsplit_tokens delimiter (max_tokens - 1) rest
      else match strsplit_tokens delimiter max_tokens rest with
           | tok :: toks => String c tok :: toks
           | [] => [String c EmptyString]
           end
  end.

(** [g_strsplit (string, delimiter, max_tokens)]: [max_tokens < 1] means
    [G_MAXINT]; the last token is only added [if ( *string)], so the empty
    string splits into the empty vector. *)
Definition g_strsplit (string_ : string) (delimiter : ascii) (max_tokens : Z)
  : list string :=
  let max_tokens := if (max_tokens <? 1)%Z then G_MAXINT else max_tokens in
  match string_ with
  | EmptyString => []
  | _ => strsplit_tokens delimiter max_tokens string_
  end.

(** ** Variants *)

(** The payload of an [{sv}] entry: the three scalar kinds the codec uses. *)
Inductive GVariant : Type :=
| GVString (s : string)
| GVUint64 (n : N)
| GVUint32 (n : N).

Definition g_variant_new_string (s : string) : GVariant := GVString s.
Definition g_variant_new_uint64 (n : N) : GVariant := GVUint64 n.
Definition g_variant_new_uint32 (n : N) : GVariant := GVUint32 n.

(** The typed getters. GLib documents a call on a value of another type as an
    error; [None] stands for that undefined outcome. *)
Definition g_variant_get_string (value : GVariant) : option string :=
  match value with GVString s => Some s | _ => None end.
Definition g_variant_get_uint64 (value : GVariant) : option N :=
  match value with GVUint64 n => Some n | _ => None end.
Definition g_variant_get_uint32 (value : GVariant) : option N :=
  match value with GVUint32 n => Some n | _ => None end.

(** An [a{sv}] array, in iteration order; also the content of a
    [GVariantBuilder] of array type. *)
Definition GVariantDict : Type := list (string * GVariant).

Definition g_variant_builder_add (builder : GVariantDict) (key : string)
  (value : GVariant) : GVariantDict :=
  (builder ++ [(key, value)])%list.

(** The [data] argument of [fwupd_device_new_from_data]: the three envelope
    shapes the function unpacks, and any other variant, of which only the
    type string is looked at. *)
Inductive GVariantData : Type :=
| GVTupleDict (dict : GVariantDict)
| GVDict (dict : GVariantDict)
| GVIdDict (id_key : string) (dict : GVariantDict)
| GVUnknown (type_string : string).

Definition g_variant_get_type_string (data : GVariantData) : string :=
  match data with
  | GVTupleDict _ => "(a{sv})"
  | GVDict _ => "a{sv}"
  | GVIdDict _ _ => "{sa{sv}}"
  | GVUnknown type_string => type_string
  end.

(** ** Result keys *)

(** The [FWUPD_RESULT_KEY_*] string constants. They are declared in
    fwupd-enums-private.h, which is not part of the sources at hand, so the
    codec is parameterised by them. *)
Record FwupdResultKeys : Type := {
  FWUPD_RESULT_KEY_GUID : string;
  FWUPD_RESULT_KEY_DEVICE_ID : string;
  FWUPD_RESULT_KEY_DEVICE_NAME : string;
  FWUPD_RESULT_KEY_DEVICE_VENDOR : string;
  FWUPD_RESULT_KEY_DEVICE_FLAGS : string;
  FWUPD_RESULT_KEY_DEVICE_CREATED : string;
  FWUPD_RESULT_KEY_DEVICE_MODIFIED : string;
  FWUPD_RESULT_KEY_DEVICE_DESCRIPTION : string;
  FWUPD_RESULT_KEY_DEVICE_CHECKSUM : string;
  FWUPD_RESULT_KEY_DEVICE_PLUGIN : string;
  FWUPD_RESULT_KEY_DEVICE_VERSION : string;
  FWUPD_RESULT_KEY_DEVICE_VERSION_LOWEST : string;
  FWUPD_RESULT_KEY_DEVICE_VERSION_BOOTLOADER : string;
  FWUPD_RESULT_KEY_DEVICE_FLASHES_LEFT : string
}.

(** The keys the serializer writes and the deserializer dispatches on, in
    the serializer's order. *)
Definition codec_keys (K : FwupdResultKeys) : list string :=
  [ FWUPD_RESULT_KEY_GUID K;
    FWUPD_RESULT_KEY_DEVICE_NAME K;
    FWUPD_RESULT_KEY_DEVICE_VENDOR K;
    FWUPD_RESULT_KEY_DEVICE_FLAGS K;
    FWUPD_RESULT_KEY_DEVICE_CREATED K;
    FWUPD_RESULT_KEY_DEVICE_MODIFIED K;
    FWUPD_RESULT_KEY_DEVICE_DESCRIPTION K;
    FWUPD_RESULT_KEY_DEVICE_CHECKSUM K;
    FWUPD_RESULT_KEY_DEVICE_PLUGIN K;
    FWUPD_RESULT_KEY_DEVICE_VERSION K;
    FWUPD_RESULT_KEY_DEVICE_VERSION_LOWEST K;
    FWUPD_RESULT_KEY_DEVICE_VERSION_BOOTLOADER K;
    FWUPD_RESULT_KEY_DEVICE_FLASHES_LEFT K ].

(** Every key constant names a different string. *)
Definition keys_distinct (K : FwupdResultKeys) : Prop :=
  NoDup (FWUPD_RESULT_KEY_DEVICE_ID K :: codec_keys K).

(** Modelled from the spec: the values of the key constants. The header that
    defines them is missing; the spec only fixes that there is one constant
    per field and spells the name key ["Name"]. The other spellings are
    sample values, used where a statement is run on a concrete table. *)
Definition fwupd_result_keys : FwupdResultKeys := {|
  FWUPD_RESULT_KEY_GUID := "Guid";
  FWUPD_RESULT_KEY_DEVICE_ID := "DeviceID";
  FWUPD_RESULT_KEY_DEVICE_NAME := "Name";
  FWUPD_RESULT_KEY_DEVICE_VENDOR := "Vendor";
  FWUPD_RESULT_KEY_DEVICE_FLAGS := "Flags";
  FWUPD_RESULT_KEY_DEVICE_CREATED := "Created";
  FWUPD_RESULT_KEY_DEVICE_MODIFIED := "Modified";
  FWUPD_RESULT_KEY_DEVICE_DESCRIPTION := "Description";
  FWUPD_RESULT_KEY_DEVICE_CHECKSUM := "Checksum";
  FWUPD_RESULT_KEY_DEVICE_PLUGIN := "Plugin";
  FWUPD_RESULT_KEY_DEVICE_VERSION := "Version";
  FWUPD_RESULT_KEY_DEVICE_VERSION_LOWEST := "VersionLowest";
  FWUPD_RESULT_KEY_DEVICE_VERSION_BOOTLOADER := "VersionBootloader";
  FWUPD_RESULT_KEY_DEVICE_FLASHES_LEFT := "FlashesLeft"
|}.

(** Modelled from the spec: a sample of the external flag-name lookup
    [fwupd_device_flag_to_string] (fwupd-enums.c is missing); it names the
    flag value 0 and the single bits 0 to 3 and returns NULL otherwise. *)
Definition sample_flag_to_string (flag : N) : option string :=
  match flag with
  | 0%N => Some "none"
  | 1%N => Some "internal"
  | 2%N => Some "allow-online"
  | 4%N => Some "allow-offline"
  | 8%N => Some "require-ac"
  | _ => None
  end.

(** ** The device record *)

(** [FwupdDevicePrivate]. *)
Record FwupdDevice : Type := mkFwupdDevice {
  id : option string;
  created : N;
  modified : N;
  flags : N;
  appstream_id : option string;
  guids : list string;
  name : option string;
  summary : option string;
  description : option string;
  vendor : option string;
  homepage : option string;
  provider : option string;
  version : option string;
  version_lowest : option string;
  version_bootloader : option string;
  checksums : list string;
  flashes_left : N
}.

(** [fwupd_device_new]: [g_object_new] zero-fills the private struct and
    [fwupd_device_init] allocates the two empty arrays. *)
Definition fwupd_device_new : FwupdDevice :=
  mkFwupdDevice None 0 0 0 None [] None None None None None None None None None [] 0.

(** The range of the [guint64 flags] field. *)
Definition flags_in_range (device : FwupdDevice) : Prop :=
  (flags device < 2 ^ 64)%N.

(** ** Field accessors

    A setter frees the old value and stores a copy of the new one
    ([g_strdup (NULL)] is NULL); it changes its own field only. *)

Definition fwupd_device_set_summary (device : FwupdDevice) (summary_ : option string)
  : FwupdDevice :=
  mkFwupdDevice (id device) (created device) (modified device) (flags device)
    (appstream_id device) (guids device) (name device) summary_
    (description device) (vendor device) (homepage device) (provider device)
    (version device) (version_lowest device) (version_bootloader device)
    (checksums device) (flashes_left device).

Definition fwupd_device_set_id (device : FwupdDevice) (id_ : option string)
  : FwupdDevice :=
  mkFwupdDevice id_ (created device) (modified device) (flags device)
    (appstream_id device) (guids device) (name device) (summary device)
    (description device) (vendor device) (homepage device) (provider device)
    (version device) (version_lowest device) (version_bootloader device)
    (checksums device) (flashes_left device).

Definition fwupd_device_set_name (device : FwupdDevice) (name_ : option string)
  : FwupdDevice :=
  mkFwupdDevice (id device) (created device) (modified device) (flags device)
    (appstream_id device) (guids device) name_ (summary device)
    (description device) (vendor device) (homepage device) (provider device)
    (version device) (version_lowest device) (version_bootloader device)
    (checksums device) (flashes_left device).

Definition fwupd_device_set_vendor (device : FwupdDevice) (vendor_ : option string)
  : FwupdDevice :=
  mkFwupdDevice (id device) (created device) (modified device) (flags device)
    (appstream_id device) (guids device) (name device) (summary device)
    (description device) vendor_ (homepage device) (provider device)
    (version device) (version_lowest device) (version_bootloader device)
    (checksums device) (flashes_left device).

Definition fwupd_device_set_description (device : FwupdDevice) (description_ : option string)
  : FwupdDevice :=
  mkFwupdDevice (id device) (created device) (modified device) (flags device)
    (appstream_id device) (guids device) (name device) (summary device)
    description_ (vendor device) (homepage device) (provider device)
    (version device) (version_lowest device) (version_bootloader device)
    (checksums device) (flashes_left device).

Definition fwupd_device_set_version (device : FwupdDevice) (version_ : option string)
  : FwupdDevice :=
  mkFwupdDevice (id device) (created device) (modified device) (flags device)
    (appstream_id device) (guids device) (name device) (summary device)
    (description device) (vendor device) (homepage device) (provider device)
    version_ (version_lowest device) (version_bootloader device)
    (checksums device) (flashes_left device).

Definition fwupd_device_set_version_lowest (device : FwupdDevice) (version_lowest_ : option string)
  : FwupdDevice :=
  mkFwupdDevice (id device) (created device) (modified device) (flags device)
    (appstream_id device) (guids device) (name device) (summary device)
    (description device) (vendor device) (homepage device) (provider device)
    (version device) version_lowest_ (version_bootloader device)
    (checksums device) (flashes_left device).

Definition fwupd_device_set_version_bootloader (device : FwupdDevice) (version_bootloader_ : option string)
  : FwupdDevice :=
  mkFwupdDevice (id device) (created device) (modified device) (flags device)
    (appstream_id device) (guids device) (name device) (summary device)
    (description device) (vendor device) (homepage device) (provider device)
    (version device) (version_lowest device) version_bootloader_
    (checksums device) (flashes_left device).

Definition fwupd_device_set_flashes_left (device : FwupdDevice) (flashes_left_ : N)
  : FwupdDevice :=
  mkFwupdDevice (id device) (created device) (modified device) (flags device)
    (appstream_id device) (guids device) (name device) (summary device)
    (description device) (vendor device) (homepage device) (provider device)
    (version device) (version_lowest device) (version_bootloader device)
    (checksums device) flashes_left_.

Definition fwupd_device_set_provider (device : FwupdDevice) (provider_ : option string)
  : FwupdDevice :=
  mkFwupdDevice (id device) (created device) (modified device) (flags device)
    (appstream_id device) (guids device) (name device) (summary device)
    (description device) (vendor device) (homepage device) provider_
    (version device) (version_lowest device) (version_bootloader device)
    (checksums device) (flashes_left device).

Definition fwupd_device_set_flags (device : FwupdDevice) (flags_ : N)
  : FwupdDevice :=
  mkFwupdDevice (id device) (created device) (modified device) flags_
    (appstream_id device) (guids device) (name device) (summary device)
    (description device) (vendor device) (homepage device) (provider device)
    (version device) (version_lowest device) (version_bootloader device)
    (checksums device) (flashes_left device).

Definition fwupd_device_set_created (device : FwupdDevice) (created_ : N)
  : FwupdDevice :=
  mkFwupdDevice (id device) created_ (modified device) (flags device)
    (appstream_id device) (guids device) (name device) (summary device)
    (description device) (vendor device) (homepage device) (provider device)
    (version device) (version_lowest device) (version_bootloader device)
    (checksums device) (flashes_left device).

Definition fwupd_device_set_modified (device : FwupdDevice) (modified_ : N)
  : FwupdDevice :=
  mkFwupdDevice (id device) (created device) modified_ (flags device)
    (appstream_id device) (guids device) (name device) (summary device)
    (description device) (vendor device) (homepage device) (provider device)
    (version device) (version_lowest device) (version_bootloader device)
    (checksums device) (flashes_left device).

(** [g_ptr_array_add (priv->guids, ...)] and
    [g_ptr_array_add (priv->checksums, ...)]: the element goes to the end. *)
Definition guids_ptr_array_add (device : FwupdDevice) (guid : string)
  : FwupdDevice :=
  mkFwupdDevice (id device) (created device) (modified device) (flags device)
    (appstream_id device) (guids device ++ [guid])%list (name device)
    (summary device) (description device) (vendor device) (homepage device)
    (provider device) (version device) (version_lowest device)
    (version_bootloader device) (checksums device) (flashes_left device).

Definition checksums_ptr_array_add (device : FwupdDevice) (checksum : string)
  : FwupdDevice :=
  mkFwupdDevice (id device) (created device) (modified device) (flags device)
    (appstream_id device) (guids device) (name device) (summary device)
    (description device) (vendor device) (homepage device) (provider device)
    (version device) (version_lowest device) (version_bootloader device)
    (checksums device ++ [checksum])%list (flashes_left device).

(** [fwupd_device_has_guid]: the linear scan with [g_strcmp0]. *)
Definition fwupd_device_has_guid (device : FwupdDevice) (guid : string) : bool :=
  existsb (fun guid_tmp => String.eqb guid guid_tmp) (guids device).

(** [fwupd_device_add_guid]. *)
Definition fwupd_device_add_guid (device : FwupdDevice) (guid : string)
  : FwupdDevice :=
  if fwupd_device_has_guid device guid then device
  else guids_ptr_array_add device guid.

(** [fwupd_device_add_checksum]: its own scan of the array, then the add. *)
Definition fwupd_device_add_checksum (device : FwupdDevice) (checksum : string)
  : FwupdDevice :=
  if existsb (fun checksum_tmp => String.eqb checksum_tmp checksum)
       (checksums device)
  then device
  else checksums_ptr_array_add device checksum.

(** [fwupd_device_get_guid_default]. *)
Definition fwupd_device_get_guid_default (device : FwupdDevice) : option string :=
  match guids device with
  | [] => None
  | guid :: _ => Some guid
  end.

(** [priv->flags |= flag]. *)
Definition fwupd_device_add_flag (device : FwupdDevice) (flag : N) : FwupdDevice :=
  fwupd_device_set_flags device (N.lor (flags device) flag).

(** [priv->flags &= ~flag], the complement taken on 64 bits. *)
Definition fwupd_device_remove_flag (device : FwupdDevice) (flag : N)
  : FwupdDevice :=
  fwupd_device_set_flags device (N.land (flags device) (N.lnot flag 64)).

(** [(priv->flags & flag) > 0]. *)
Definition fwupd_device_has_flag (device : FwupdDevice) (flag : N) : bool :=
  (0 <? N.land (flags device) flag)%N.

Section Codec.

(** The key constants in force. *)
Variable K : FwupdResultKeys.

(** ** Serializer *)

(** The loop [g_string_append_printf (str, "%s,", ...)] over an array. *)
Fixpoint append_printf_comma (str : string) (array : list string) : string :=
  match array with
  | [] => str
  | element :: array' =>
      append_printf_comma (str ++ element ++ ",") array'
  end.

(** The string built for a list field: every element followed by a comma,
    then [g_string_truncate (str, str->len - 1)] when [str->len > 0]. *)
Definition comma_joined (array : list string) : string :=
  let str := append_printf_comma "" array in
  if (0 <? length str)%nat then g_string_truncate str (length str - 1)
  else str.

(** [fwupd_device_to_variant_builder]. *)
Definition fwupd_device_to_variant_builder (device : FwupdDevice)
  (builder : GVariantDict) : GVariantDict :=
  let builder :=
    if (0 <? List.length (guids device))%nat
    then g_variant_builder_add builder (FWUPD_RESULT_KEY_GUID K)
           (g_variant_new_string (comma_joined (guids device)))
    else builder in
  let builder :=
    match name device with
    | Some s => g_variant_builder_add builder (FWUPD_RESULT_KEY_DEVICE_NAME K)
                  (g_variant_new_string s)
    | None => builder
    end in
  let builder :=
    match vendor device with
    | Some s => g_variant_builder_add builder (FWUPD_RESULT_KEY_DEVICE_VENDOR K)
                  (g_variant_new_string s)
    | None => builder
    end in
  let builder :=
    if (0 <? flags device)%N
    then g_variant_builder_add builder (FWUPD_RESULT_KEY_DEVICE_FLAGS K)
           (g_variant_new_uint64 (flags device))
    else builder in
  let builder :=
    if (0 <? created device)%N
    then g_variant_builder_add builder (FWUPD_RESULT_KEY_DEVICE_CREATED K)
           (g_variant_new_uint64 (created device))
    else builder in
  let builder :=
    if (0 <? modified device)%N
    then g_variant_builder_add builder (FWUPD_RESULT_KEY_DEVICE_MODIFIED K)
           (g_variant_new_uint64 (modified device))
    else builder in
  let builder :=
    match description device with
    | Some s =>
        g_variant_builder_add builder (FWUPD_RESULT_KEY_DEVICE_DESCRIPTION K)
          (g_variant_new_string s)
    | None => builder
    end in
  let builder :=
    if (0 <? List.length (checksums device))%nat
    then g_variant_builder_add builder (FWUPD_RESULT_KEY_DEVICE_CHECKSUM K)
           (g_variant_new_string (comma_joined (checksums device)))
    else builder in
  let builder :=
    match provider device with
    | Some s => g_variant_builder_add builder (FWUPD_RESULT_KEY_DEVICE_PLUGIN K)
                  (g_variant_new_string s)
    | None => builder
    end in
  let builder :=
    match version device with
    | Some s => g_variant_builder_add builder (FWUPD_RESULT_KEY_DEVICE_VERSION K)
                  (g_variant_new_string s)
    | None => builder
    end in
  let builder :=
    match version_lowest device with
    | Some s =>
        g_variant_builder_add builder (FWUPD_RESULT_KEY_DEVICE_VERSION_LOWEST K)
          (g_variant_new_string s)
    | None => builder
    end in
  let builder :=
    match version_bootloader device with
    | Some s =>
        g_variant_builder_add builder
          (FWUPD_RESULT_KEY_DEVICE_VERSION_BOOTLOADER K)
          (g_variant_new_string s)
    | None => builder
    end in
  if (0 <? flashes_left device)%N
  then g_variant_builder_add builder (FWUPD_RESULT_KEY_DEVICE_FLASHES_LEFT K)
         (g_variant_new_uint32 (flashes_left device))
  else builder.

(** The key-value sequence of a device: the builder of [fwupd_device_to_data]
    after [g_variant_builder_init] and the call above. *)
Definition serialize (device : FwupdDevice) : GVariantDict :=
  fwupd_device_to_variant_builder device [].

(** [fwupd_device_to_data]: the builder wrapped in a variant of the asked
    type, NULL ([None]) for any other type string. *)
Definition fwupd_device_to_data (device : FwupdDevice) (type_string : string)
  : option GVariantData :=
  let builder := fwupd_device_to_variant_builder device [] in
  if type_string =? "a{sv}" then Some (GVDict builder)
  else if type_string =? "(a{sv})" then Some (GVTupleDict builder)
  else None.

(** ** Deserializer *)

(** [fwupd_device_from_key_value]: the chain of [g_strcmp0] tests, each with
    its early [return]; a key that matches none falls off the end. The result
    is [None] when a typed getter is applied to a value of another type. *)
Definition fwupd_device_from_key_value (device : FwupdDevice) (key : string)
  (value : GVariant) : option FwupdDevice :=
  if key =? FWUPD_RESULT_KEY_DEVICE_FLAGS K then
    option_map (fwupd_device_set_flags device) (g_variant_get_uint64 value)
  else if key =? FWUPD_RESULT_KEY_DEVICE_CREATED K then
    option_map (fwupd_device_set_created device) (g_variant_get_uint64 value)
  else if key =? FWUPD_RESULT_KEY_DEVICE_MODIFIED K then
    option_map (fwupd_device_set_modified device) (g_variant_get_uint64 value)
  else if key =? FWUPD_RESULT_KEY_GUID K then
    option_map
      (fun guids_ =>
         fold_left fwupd_device_add_guid (g_strsplit guids_ "," (-1)) device)
      (g_variant_get_string value)
  else if key =? FWUPD_RESULT_KEY_DEVICE_NAME K then
    option_map (fun s => fwupd_device_set_name device (Some s))
      (g_variant_get_string value)
  else if key =? FWUPD_RESULT_KEY_DEVICE_VENDOR K then
    option_map (fun s => fwupd_device_set_vendor device (Some s))
      (g_variant_get_string value)
  else if key =? FWUPD_RESULT_KEY_DEVICE_DESCRIPTION K then
    option_map (fun s => fwupd_device_set_description device (Some s))
      (g_variant_get_string value)
  else if key =? FWUPD_RESULT_KEY_DEVICE_CHECKSUM K then
    option_map
      (fun checksums_ =>
         fold_left fwupd_device_add_checksum (g_strsplit checksums_ "," (-1))
           device)
      (g_variant_get_string value)
  else if key =? FWUPD_RESULT_KEY_DEVICE_PLUGIN K then
    option_map (fun s => fwupd_device_set_provider device (Some s))
      (g_variant_get_string value)
  else if key =? FWUPD_RESULT_KEY_DEVICE_VERSION K then
    option_map (fun s => fwupd_device_set_version device (Some s))
      (g_variant_get_string value)
  else if key =? FWUPD_RESULT_KEY_DEVICE_VERSION_LOWEST K then
    option_map (fun s => fwupd_device_set_version_lowest device (Some s))
      (g_variant_get_string value)
  else if key =? FWUPD_RESULT_KEY_DEVICE_VERSION_BOOTLOADER K then
    option_map (fun s => fwupd_device_set_version_bootloader device (Some s))
      (g_variant_get_string value)
  else if key =? FWUPD_RESULT_KEY_DEVICE_FLASHES_LEFT K then
    option_map (fwupd_device_set_flashes_left device)
      (g_variant_get_uint32 value)
  else Some device.

(** [fwupd_device_set_from_variant_iter]: the [while (g_variant_iter_next ...)]
    loop over the entries. *)
Fixpoint fwupd_device_set_from_variant_iter (device : FwupdDevice)
  (iter : GVariantDict) : option FwupdDevice :=
  match iter with
  | [] => Some device
  | (key, value) :: iter' =>
      match fwupd_device_from_key_value device key value with
      | Some device' => fwupd_device_set_from_variant_iter device' iter'
      | None => None
      end
  end.

(** What a call of [fwupd_device_new_from_data] leaves behind: the returned
    pointer ([None] is NULL) and the messages given to [g_warning]. *)
Record FromDataResult : Type := {
  returned_device : option FwupdDevice;
  warnings : list string
}.

(** [g_variant_get (data, "(a{sv})", &iter)] and the like: the iterator over
    the entries of a variant of that shape. *)
Definition tuple_dict_iter (data : GVariantData) : option GVariantDict :=
  match data with GVTupleDict dict => Some dict | _ => None end.
Definition dict_iter (data : GVariantData) : option GVariantDict :=
  match data with GVDict dict => Some dict | _ => None end.
Definition id_dict_iter (data : GVariantData) : option (string * GVariantDict) :=
  match data with GVIdDict id_key dict => Some (id_key, dict) | _ => None end.

(** [fwupd_device_new_from_data]. The outer [None] is the undefined outcome
    of a typed getter, as in [fwupd_device_from_key_value]. *)
Definition fwupd_device_new_from_data (data : GVariantData)
  : option FromDataResult :=
  let type_string := g_variant_get_type_string data in
  if type_string =? "(a{sv})" then
    match tuple_dict_iter data with
    | Some iter =>
        option_map (fun dev => {| returned_device := Some dev; warnings := [] |})
          (fwupd_device_set_from_variant_iter fwupd_device_new iter)
    | None => None
    end
  else if type_string =? "a{sv}" then
    match dict_iter data with
    | Some iter =>
        option_map (fun dev => {| returned_device := Some dev; warnings := [] |})
          (fwupd_device_set_from_variant_iter fwupd_device_new iter)
    | None => None
    end
  else if type_string =? "{sa{sv}}" then
    match id_dict_iter data with
    | Some (id_, iter) =>
        let dev := fwupd_device_set_id fwupd_device_new (Some id_) in
        option_map (fun dev => {| returned_device := Some dev; warnings := [] |})
          (fwupd_device_set_from_variant_iter dev iter)
    | None => None
    end
  else
    Some {| returned_device := None;
            warnings := ["type " ++ type_string ++ " not known"] |}.

(** Deserializing a key-value sequence into a fresh record. *)
Definition deserialize (dict : GVariantDict) : option FwupdDevice :=
  fwupd_device_set_from_variant_iter fwupd_device_new dict.

(** ** Formatter *)

Section Formatter.

(** [fwupd_device_flag_to_string] (fwupd-enums.c), the name of a flag value,
    NULL when it has none. *)
Variable fwupd_device_flag_to_string : N -> option string.

(** [fwupd_checksum_format_for_display] (fwupd-common.c). *)
Variable fwupd_checksum_format_for_display : string -> option string.

(** [g_date_time_format (g_date_time_new_from_unix_utc ((gint64) value), "%F")]:
    the calendar date of a unix time, NULL when GLib cannot represent it. *)
Variable unix_utc_date : N -> option string.

(** One line written by [fwupd_pad_kv_str]. *)
Record PadLine : Type := {
  line_key : string;
  line_value : string
}.

(** The padding loop [for (gsize i = strlen (key); i < 20; i++)]: one space
    per iteration. *)
Fixpoint pad_spaces (count : nat) : string :=
  match count with
  | O => ""
  | S count' => " " ++ pad_spaces count'
  end.

(** The characters [fwupd_pad_kv_str] appends for a key and a value: the
    ["  %s: "] of the key, the padding, and the ["%s\n"] of the value. *)
Definition pad_line_text (line : PadLine) : string :=
  "  " ++ line_key line ++ ": "
  ++ pad_spaces (20 - length (line_key line))
  ++ line_value line ++ String (ascii_of_nat 10) "".

(** The [GString] under construction, kept as the lines appended so far. *)
Definition GStringLines : Type := list PadLine.

(** [g_string_free (str, FALSE)]: the text of the buffer. *)
Definition g_string_free (str : GStringLines) : string :=
  String.concat "" (map pad_line_text str).

(** [fwupd_pad_kv_str]. *)
Definition fwupd_pad_kv_str (str : GStringLines) (key value : option string)
  : GStringLines :=
  match key, value with
  | Some k, Some v => (str ++ [{| line_key := k; line_value := v |}])%list
  | _, _ => str
  end.

(** [fwupd_pad_kv_unx]. *)
Definition fwupd_pad_kv_unx (str : GStringLines) (key : option string)
  (value : N) : GStringLines :=
  if (value =? 0)%N then str
  else fwupd_pad_kv_str str key (unix_utc_date value).

(** The bit positions visited by [for (i = 0; i < 64; i++)]. *)
Definition flag_bit_positions : list N := map N.of_nat (seq 0 64).

(** [fwupd_pad_kv_dfl]. *)
Definition fwupd_pad_kv_dfl (str : GStringLines) (key : option string)
  (device_flags : N) : GStringLines :=
  let tmp :=
    fold_left
      (fun tmp i =>
         if (N.land device_flags (N.shiftl 1 i) =? 0)%N then tmp
         else tmp ++ printf_s (fwupd_device_flag_to_string (N.shiftl 1 i))
                  ++ "|")
      flag_bit_positions "" in
  let tmp :=
    if (length tmp =? 0)%nat
    then g_string_append tmp (fwupd_device_flag_to_string 0)
    else g_string_truncate tmp (length tmp - 1) in
  fwupd_pad_kv_str str key (Some tmp).

(** [fwupd_pad_kv_int]. *)
Definition fwupd_pad_kv_int (str : GStringLines) (key : option string)
  (value : N) : GStringLines :=
  if (value =? 0)%N then str
  else fwupd_pad_kv_str str key (Some (printf_u value)).

(** The buffer of [fwupd_device_to_string] before it is returned. *)
Definition fwupd_device_to_string_lines (device : FwupdDevice) : GStringLines :=
  let str : GStringLines := [] in
  let str :=
    fold_left
      (fun str guid =>
         fwupd_pad_kv_str str (Some (FWUPD_RESULT_KEY_GUID K)) (Some guid))
      (guids device) str in
  let str := fwupd_pad_kv_str str (Some (FWUPD_RESULT_KEY_DEVICE_ID K))
               (id device) in
  let str := fwupd_pad_kv_str str (Some (FWUPD_RESULT_KEY_DEVICE_DESCRIPTION K))
               (description device) in
  let str := fwupd_pad_kv_str str (Some (FWUPD_RESULT_KEY_DEVICE_PLUGIN K))
               (provider device) in
  let str := fwupd_pad_kv_dfl str (Some (FWUPD_RESULT_KEY_DEVICE_FLAGS K))
               (flags device) in
  let str :=
    fold_left
      (fun str checksum =>
         let checksum_display := fwupd_checksum_format_for_display checksum in
         fwupd_pad_kv_str str (Some (FWUPD_RESULT_KEY_DEVICE_CHECKSUM K))
           checksum_display)
      (checksums device) str in
  let str := fwupd_pad_kv_str str (Some (FWUPD_RESULT_KEY_DEVICE_VENDOR K))
               (vendor device) in
  let str := fwupd_pad_kv_str str (Some (FWUPD_RESULT_KEY_DEVICE_VERSION K))
               (version device) in
  let str := fwupd_pad_kv_str str
               (Some (FWUPD_RESULT_KEY_DEVICE_VERSION_LOWEST K))
               (version_lowest device) in
  let str := fwupd_pad_kv_str str
               (Some (FWUPD_RESULT_KEY_DEVICE_VERSION_BOOTLOADER K))
               (version_bootloader device) in
  let str :=
    if (flashes_left device <? 2)%N
    then fwupd_pad_kv_int str (Some (FWUPD_RESULT_KEY_DEVICE_FLASHES_LEFT K))
           (flashes_left device)
    else str in
  let str := fwupd_pad_kv_unx str (Some (FWUPD_RESULT_KEY_DEVICE_CREATED K))
               (created device) in
  let str := fwupd_pad_kv_unx str (Some (FWUPD_RESULT_KEY_DEVICE_MODIFIED K))
               (modified device) in
  str.

(** [fwupd_device_to_string]. *)
Definition fwupd_device_to_string (device : FwupdDevice) : string :=
  g_string_free (fwupd_device_to_string_lines device).

End Formatter.
End Codec.

(** * Vocabulary of the properties *)

(** ** Call sequences on the two list fields *)

Inductive AddCall : Type :=
| AddGuid (guid : string)
| AddChecksum (checksum : string).

Definition run_add_call (device : FwupdDevice) (call : AddCall) : FwupdDevice :=
  match call with
  | AddGuid guid => fwupd_device_add_guid device guid
  | AddChecksum checksum => fwupd_device_add_checksum device checksum
  end.

Definition run_add_calls (device : FwupdDevice) (calls : list AddCall)
  : FwupdDevice :=
  fold_left run_add_call calls device.

Fixpoint guid_args (calls : list AddCall) : list string :=
  match calls with
  | [] => []
  | AddGuid guid :: calls' => guid :: guid_args calls'
  | AddChecksum _ :: calls' => guid_args calls'
  end.

Fixpoint checksum_args (calls : list AddCall) : list string :=
  match calls with
  | [] => []
  | AddGuid _ :: calls' => checksum_args calls'
  | AddChecksum checksum :: calls' => checksum :: checksum_args calls'
  end.

(** The distinct values of a sequence, each at its first occurrence: the head
    stays, and is struck from what follows. *)
Fixpoint first_seen (values : list string) : list string :=
  match values with
  | [] => []
  | v :: values' =>
      v :: filter (fun w => negb (String.eqb w v)) (first_seen values')
  end.

(** ** Round trips *)

(** No comma among the characters of a string. *)
Fixpoint no_comma (s : string) : Prop :=
  match s with
  | EmptyString => True
  | String c s' => c <> ","%char /\ no_comma s'
  end.

(** The record as the wire carries it: [id], [appstream_id], [summary] and
    [homepage] have no key-value pair and come back unset. *)
Definition carried_fields (device : FwupdDevice) : FwupdDevice :=
  mkFwupdDevice None (created device) (modified device) (flags device)
    None (guids device) (name device) None
    (description device) (vendor device) None (provider device)
    (version device) (version_lowest device) (version_bootloader device)
    (checksums device) (flashes_left device).

(** Every optional string that a function of the file can set is non-NULL.
    [homepage] and [appstream_id] have no setter and no reader, so they are
    NULL in every record the functions build. *)
Definition optional_strings_set (device : FwupdDevice) : Prop :=
  id device <> None /\ name device <> None /\ summary device <> None /\
  description device <> None /\ vendor device <> None /\
  provider device <> None /\ version device <> None /\
  version_lowest device <> None /\ version_bootloader device <> None.

(** ** Fields, their keys and their wire types *)

Inductive DeviceField : Type :=
| FieldId | FieldCreated | FieldModified | FieldFlags | FieldAppstreamId
| FieldGuids | FieldName | FieldSummary | FieldDescription | FieldVendor
| FieldHomepage | FieldProvider | FieldVersion | FieldVersionLowest
| FieldVersionBootloader | FieldChecksums | FieldFlashesLeft.

(** A field holds its "unset" value: NULL, zero or the empty list. *)
Definition field_unset (field : DeviceField) (device : FwupdDevice) : Prop :=
  match field with
  | FieldId => id device = None
  | FieldCreated => created device = 0%N
  | FieldModified => modified device = 0%N
  | FieldFlags => flags device = 0%N
  | FieldAppstreamId => appstream_id device = None
  | FieldGuids => guids device = []
  | FieldName => name device = None
  | FieldSummary => summary device = None
  | FieldDescription => description device = None
  | FieldVendor => vendor device = None
  | FieldHomepage => homepage device = None
  | FieldProvider => provider device = None
  | FieldVersion => version device = None
  | FieldVersionLowest => version_lowest device = None
  | FieldVersionBootloader => version_bootloader device = None
  | FieldChecksums => checksums device = []
  | FieldFlashesLeft => flashes_left device = 0%N
  end.

(** The key under which the codec carries a field, if it carries it. *)
Definition field_key (K : FwupdResultKeys) (field : DeviceField)
  : option string :=
  match field with
  | FieldGuids => Some (FWUPD_RESULT_KEY_GUID K)
  | FieldName => Some (FWUPD_RESULT_KEY_DEVICE_NAME K)
  | FieldVendor => Some (FWUPD_RESULT_KEY_DEVICE_VENDOR K)
  | FieldFlags => Some (FWUPD_RESULT_KEY_DEVICE_FLAGS K)
  | FieldCreated => Some (FWUPD_RESULT_KEY_DEVICE_CREATED K)
  | FieldModified => Some (FWUPD_RESULT_KEY_DEVICE_MODIFIED K)
  | FieldDescription => Some (FWUPD_RESULT_KEY_DEVICE_DESCRIPTION K)
  | FieldChecksums => Some (FWUPD_RESULT_KEY_DEVICE_CHECKSUM K)
  | FieldProvider => Some (FWUPD_RESULT_KEY_DEVICE_PLUGIN K)
  | FieldVersion => Some (FWUPD_RESULT_KEY_DEVICE_VERSION K)
  | FieldVersionLowest => Some (FWUPD_RESULT_KEY_DEVICE_VERSION_LOWEST K)
  | FieldVersionBootloader =>
      Some (FWUPD_RESULT_KEY_DEVICE_VERSION_BOOTLOADER K)
  | FieldFlashesLeft => Some (FWUPD_RESULT_KEY_DEVICE_FLASHES_LEFT K)
  | FieldId | FieldAppstreamId | FieldSummary | FieldHomepage => None
  end.

(** A value has the variant type the codec uses for the field: unsigned 64
    for [flags], [created], [modified]; unsigned 32 for [flashes_left]; a
    string for the others. *)
Definition well_typed_for (field : DeviceField) (value : GVariant) : Prop :=
  match field with
  | FieldFlags | FieldCreated | FieldModified => exists n, value = GVUint64 n
  | FieldFlashesLeft => exists n, value = GVUint32 n
  | _ => exists s, value = GVString s
  end.

(** What reading a value under a field's key into a fresh record leaves in
    the field (spec 4.3): a scalar field holds the value, an array holds the
    distinct comma-separated tokens of the string in first-seen order. *)
Definition field_reads (field : DeviceField) (value : GVariant)
  (device : FwupdDevice) : Prop :=
  match field, value with
  | FieldFlags, GVUint64 n => flags device = n
  | FieldCreated, GVUint64 n => created device = n
  | FieldModified, GVUint64 n => modified device = n
  | FieldFlashesLeft, GVUint32 n => flashes_left device = n
  | FieldGuids, GVString s =>
      guids device = first_seen (g_strsplit s "," (-1))
  | FieldChecksums, GVString s =>
      checksums device = first_seen (g_strsplit s "," (-1))
  | FieldName, GVString s => name device = Some s
  | FieldDescription, GVString s => description device = Some s
  | FieldVendor, GVString s => vendor device = Some s
  | FieldProvider, GVString s => provider device = Some s
  | FieldVersion, GVString s => version device = Some s
  | FieldVersionLowest, GVString s => version_lowest device = Some s
  | FieldVersionBootloader, GVString s => version_bootloader device = Some s
  | _, _ => False
  end.

(** Two records hold the same in every field but [id]. *)
Definition agree_except_id (a b : FwupdDevice) : Prop :=
  created a = created b /\ modified a = modified b /\ flags a = flags b /\
  appstream_id a = appstream_id b /\ guids a = guids b /\ name a = name b /\
  summary a = summary b /\ description a = description b /\
  vendor a = vendor b /\ homepage a = homepage b /\
  provider a = provider b /\ version a = version b /\
  version_lowest a = version_lowest b /\
  version_bootloader a = version_bootloader b /\
  checksums a = checksums b /\ flashes_left a = flashes_left b.

(** ** Lines of the formatted text *)

(** The text of one line in the words of the spec (4.4): two spaces, the key
    and a colon, then spaces up to the value column, which starts 24
    characters into the line, but at least one space, then the value and a
    newline. *)
Definition line_text (key value : string) : string :=
  "  " ++ key ++ ":"
  ++ string_of_list_ascii (repeat " "%char (Nat.max 1 (21 - length key)))
  ++ value ++ String (ascii_of_nat 10) "".

(** The formatted text contains the line: it is some prefix, the characters
    of the line as the spec words them, and some suffix. *)
Definition text_has_line (text : string) (line : PadLine) : Prop :=
  exists before after,
    text = before ++ line_text (line_key line) (line_value line) ++ after.

(** The lines of a buffer that stand under a key, in their order. *)
Definition lines_under (key : string) (str : GStringLines) : GStringLines :=
  filter (fun line => String.eqb (line_key line) key) str.

(** ** Auxiliary views used in the proofs *)

(** What [fwupd_device_add_guid] does to the array alone. *)
Definition add_unique (l : list string) (x : string) : list string :=
  if existsb (fun y => String.eqb x y) l then l else (l ++ [x])%list.

(** The record with one of its arrays replaced. *)
Definition with_guids (device : FwupdDevice) (guids_ : list string)
  : FwupdDevice :=
  mkFwupdDevice (id device) (created device) (modified device) (flags device)
    (appstream_id device) guids_ (name device) (summary device)
    (description device) (vendor device) (homepage device) (provider device)
    (version device) (version_lowest device) (version_bootloader device)
    (checksums device) (flashes_left device).

Definition with_checksums (device : FwupdDevice) (checksums_ : list string)
  : FwupdDevice :=
  mkFwupdDevice (id device) (created device) (modified device) (flags device)
    (appstream_id device) (guids device) (name device) (summary device)
    (description device) (vendor device) (homepage device) (provider device)
    (version device) (version_lowest device) (version_bootloader device)
    checksums_ (flashes_left device).

(** The pair, if any, that one [if] block of the serializer adds. *)
Definition list_entry (key : string) (array : list string) : GVariantDict :=
  if (0 <? List.length array)%nat
  then [(key, GVString (comma_joined array))] else [].

Definition string_entry (key : string) (value : option string) : GVariantDict :=
  match value with
  | Some s => [(key, GVString s)]
  | None => []
  end.

Definition uint64_entry (key : string) (value : N) : GVariantDict :=
  if (0 <? value)%N then [(key, GVUint64 value)] else [].

Definition uint32_entry (key : string) (value : N) : GVariantDict :=
  if (0 <? value)%N then [(key, GVUint32 value)] else [].

(** A list field that the serializer reads back unchanged: no duplicates (as
    the adds leave it), no comma inside an element, not the single empty
    string, and no more elements than [g_strsplit] cuts tokens. *)
Definition array_round_trips (array : list string) : Prop :=
  NoDup array /\ Forall no_comma array /\ array <> [""] /\
  (Z.of_nat (List.length array) <= G_MAXINT)%Z.

(** A record built from a fresh one with the accessors only: every optional
    string that has a setter is set, the arrays are comma-free. *)
Definition populated_device : FwupdDevice :=
  let device := fwupd_device_new in
  let device := fwupd_device_set_id device (Some "USB:foo") in
  let device := fwupd_device_set_summary device (Some "A colorimeter") in
  let device := fwupd_device_set_name device (Some "ColorHug2") in
  let device := fwupd_device_set_vendor device (Some "Hughski") in
  let device := fwupd_device_set_description device (Some "<p>Sensor</p>") in
  let device := fwupd_device_set_provider device (Some "colorhug") in
  let device := fwupd_device_set_version device (Some "1.2.3") in
  let device := fwupd_device_set_version_lowest device (Some "1.0.0") in
  let device := fwupd_device_set_version_bootloader device (Some "0.9") in
  let device :=
    fwupd_device_add_guid device "2082b5e0-7a64-478a-b1b2-e3404fab6dad" in
  let device := fwupd_device_add_checksum device "beefdead" in
  let device := fwupd_device_set_flags device 9 in
  let device := fwupd_device_set_created device 1500000000 in
  let device := fwupd_device_set_modified device 1500000600 in
  fwupd_device_set_flashes_left device 5.

(** The text [fwupd_pad_kv_dfl] builds in [tmp] before it writes the line. *)
Definition flag_names_text (fwupd_device_flag_to_string : N -> option string)
  (device_flags : N) : string :=
  let tmp :=
    fold_left
      (fun tmp i =>
         if (N.land device_flags (N.shiftl 1 i) =? 0)%N then tmp
         else tmp ++ printf_s (fwupd_device_flag_to_string (N.shiftl 1 i))
                  ++ "|")
      flag_bit_positions "" in
  if (length tmp =? 0)%nat
  then g_string_append tmp (fwupd_device_flag_to_string 0%N)
  else g_string_truncate tmp (length tmp - 1).

(** Modelled from the spec: samples of the two other external helpers of the
    formatter (fwupd-common.c and GLib's date formatting are missing): the
    display form of a checksum is taken to be the checksum itself, and every
    unix time is shown as one fixed date. *)
Definition sample_checksum_format_for_display (checksum : string)
  : option string :=
  Some checksum.

Definition sample_unix_utc_date (value : N) : option string :=
  Some "2017-07-14".

(** ** Vocabulary of the further properties *)

(** [l1] is [l2] with some elements left out, the order kept. *)
Inductive Subseq {A : Type} : list A -> list A -> Prop :=
| Subseq_nil : Subseq [] []
| Subseq_skip (x : A) (l1 l2 : list A) : Subseq l1 l2 -> Subseq l1 (x :: l2)
| Subseq_keep (x : A) (l1 l2 : list A) :
    Subseq l1 l2 -> Subseq (x :: l1) (x :: l2).

(** Every pair of a mapping either has a key the codec does not know or a
    value of the wire type of the field that the key carries. *)
Definition dict_well_typed (K : FwupdResultKeys) (dict : GVariantDict) : Prop :=
  Forall
    (fun entry =>
       forall field,
         field_key K field = Some (fst entry) ->
         well_typed_for field (snd entry))
    dict.

(** The pairs of a mapping whose key is one of the codec keys. *)
Definition known_pairs (K : FwupdResultKeys) (dict : GVariantDict)
  : GVariantDict :=
  filter
    (fun entry => existsb (fun key => String.eqb (fst entry) key) (codec_keys K))
    dict.

(** The bit positions, in ascending order, at which a 64-bit flags value has
    a set bit. *)
Definition set_bit_positions (device_flags : N) : list N :=
  filter (fun i => N.testbit device_flags i) flag_bit_positions.

(** What [fwupd_device_from_key_value] makes of a list field that is read
    back from its own serialized string: nothing for the empty array (no pair
    is written), else the distinct tokens of the joined string. *)
Definition reread_array (array : list string) : list string :=
  match array with
  | [] => []
  | _ => first_seen (g_strsplit (comma_joined array) "," (-1))
  end.

(** A field that holds a single value, as opposed to the two arrays. *)
Definition scalar_field (field : DeviceField) : Prop :=
  field <> FieldGuids /\ field <> FieldChecksums.

(** Call sequences on the flags. *)
Inductive FlagCall : Type :=
| AddFlag (flag : N)
| RemoveFlag (flag : N).

Definition flag_call_mask (call : FlagCall) : N :=
  match call with
  | AddFlag flag => flag
  | RemoveFlag flag => flag
  end.

Definition run_flag_call (device : FwupdDevice) (call : FlagCall) : FwupdDevice :=
  match call with
  | AddFlag flag => fwupd_device_add_flag device flag
  | RemoveFlag flag => fwupd_device_remove_flag device flag
  end.

Definition run_flag_calls (device : FwupdDevice) (calls : list FlagCall)
  : FwupdDevice :=
  fold_left run_flag_call calls device.

(** * Proofs *)

(** ** Strings *)

Lemma string_app_nil_r (s : string) : s ++ "" = s.
Proof. induction s as [|c s IH]; simpl; [reflexivity | now rewrite IH]. Qed.

Lemma string_app_assoc (s t u : string) : (s ++ t) ++ u = s ++ t ++ u.
Proof. induction s as [|c s IH]; simpl; [reflexivity | now rewrite IH]. Qed.

Lemma string_length_app (s t : string) :
  length (s ++ t) = length s + length t.
Proof. induction s as [|c s IH]; simpl; [reflexivity | now rewrite IH]. Qed.

Lemma substring_prefix (s t : string) : substring 0 (length s) (s ++ t) = s.
Proof.
  induction s as [|c s IH]; simpl.
  - now destruct t.
  - now rewrite IH.
Qed.

(** Dropping the last character of [s ++ ","] gives [s] back. *)
Lemma g_string_truncate_last (s : string) (c : ascii) :
  let str := s ++ String c "" in
  g_string_truncate str (length str - 1) = s.
Proof.
  cbv zeta. unfold g_string_truncate.
  rewrite string_length_app. simpl length.
  replace (Nat.min (length s + 1 - 1) (length s + 1)) with (length s) by lia.
  apply substring_prefix.
Qed.

Lemma append_printf_comma_app (array : list string) (str : string) :
  array <> [] ->
  append_printf_comma str array = str ++ String.concat "," array ++ ",".
Proof.
  revert str. induction array as [|x array IH]; intros str Hne.
  - now contradiction Hne.
  - destruct array as [|y array].
    + reflexivity.
    + change (append_printf_comma str (x :: y :: array))
        with (append_printf_comma (str ++ x ++ ",") (y :: array)).
      rewrite IH by discriminate.
      change (String.concat "," (x :: y :: array))
        with (x ++ "," ++ String.concat "," (y :: array)).
      now rewrite !string_app_assoc.
Qed.

(** The serializer's string for a non-empty list is the comma-separated
    join, without a trailing comma. *)
Lemma comma_joined_concat (array : list string) :
  array <> [] -> comma_joined array = String.concat "," array.
Proof.
  intros Hne. unfold comma_joined.
  rewrite append_printf_comma_app by assumption. simpl append at 1.
  assert (Hlen : (0 <? length (String.concat "," array ++ ","))%nat = true).
  { apply Nat.ltb_lt. rewrite string_length_app. simpl. lia. }
  rewrite Hlen. apply g_string_truncate_last.
Qed.

Lemma comma_joined_singleton (x : string) : comma_joined [x] = x.
Proof. now rewrite comma_joined_concat. Qed.

(** ** Splitting the joined string *)

Lemma strsplit_tokens_not_nil (delimiter : ascii) (remainder : string)
  (max_tokens : Z) :
  strsplit_tokens delimiter max_tokens remainder <> [].
Proof.
  revert max_tokens.
  induction remainder as [|c rest IH]; intros max_tokens; simpl.
  - discriminate.
  - destruct (Ascii.eqb c delimiter && negb (max_tokens - 1 =? 0)%Z)%bool.
    + discriminate.
    + destruct (strsplit_tokens delimiter max_tokens rest); discriminate.
Qed.

(** Characters that are not commas stay in the current token. *)
Lemma strsplit_tokens_no_comma (x rest : string) (max_tokens : Z) :
  no_comma x ->
  strsplit_tokens "," max_tokens (x ++ rest) =
  match strsplit_tokens "," max_tokens rest with
  | tok :: toks => (x ++ tok) :: toks
  | [] => []
  end.
Proof.
  induction x as [|c x IH]; intros Hx.
  - simpl. now destruct (strsplit_tokens "," max_tokens rest).
  - destruct Hx as [Hc Hx]. simpl.
    apply Ascii.eqb_neq in Hc. rewrite Hc. simpl.
    rewrite IH by assumption.
    destruct (strsplit_tokens "," max_tokens rest) eqn:Htoks.
    + now apply strsplit_tokens_not_nil in Htoks.
    + reflexivity.
Qed.

Lemma strsplit_tokens_concat (array : list string) :
  forall (x : string) (max_tokens : Z),
    Forall no_comma (x :: array) ->
    (Z.of_nat (List.length array) < max_tokens)%Z ->
    strsplit_tokens "," max_tokens (String.concat "," (x :: array)) =
    x :: array.
Proof.
  induction array as [|y array IH]; intros x max_tokens Hall Hlen.
  - simpl String.concat. rewrite <- (string_app_nil_r x) at 1.
    rewrite strsplit_tokens_no_comma by now inversion Hall.
    simpl. now rewrite string_app_nil_r.
  - change (String.concat "," (x :: y :: array))
      with (x ++ String "," (String.concat "," (y :: array))).
    inversion Hall as [|? ? Hx Hrest]; subst.
    rewrite strsplit_tokens_no_comma by assumption.
    cbn [strsplit_tokens].
    rewrite Ascii.eqb_refl.
    assert (Hbudget : (max_tokens - 1 =? 0)%Z = false).
    { apply Z.eqb_neq. simpl List.length in Hlen. lia. }
    rewrite Hbudget. cbn [andb negb].
    rewrite IH; [ | assumption | simpl List.length in Hlen; lia ].
    now rewrite string_app_nil_r.
Qed.

Lemma concat_comma_empty (array : list string) :
  String.concat "," array = "" -> array = [] \/ array = [""].
Proof.
  destruct array as [|x [|y array]]; simpl; intros H.
  - now left.
  - right. now subst.
  - destruct x; discriminate.
Qed.

(** Splitting what the serializer joined gives the list back. *)
Lemma g_strsplit_comma_joined (array : list string) :
  array <> [] -> array <> [""] ->
  Forall no_comma array ->
  (Z.of_nat (List.length array) <= G_MAXINT)%Z ->
  g_strsplit (comma_joined array) "," (-1) = array.
Proof.
  intros Hne Hne' Hall Hlen.
  rewrite comma_joined_concat by assumption.
  unfold g_strsplit. change (-1 <? 1)%Z with true. cbv iota.
  destruct (String.concat "," array) eqn:Hjoin.
  - apply concat_comma_empty in Hjoin. tauto.
  - rewrite <- Hjoin. destruct array as [|x array]; [congruence|].
    apply strsplit_tokens_concat; [assumption|].
    simpl List.length in Hlen. lia.
Qed.



(** ** The dedup-checking adds *)

Lemma guids_add_guid (device : FwupdDevice) (guid : string) :
  fwupd_device_add_guid device guid =
  with_guids device (add_unique (guids device) guid).
Proof.
  unfold fwupd_device_add_guid, fwupd_device_has_guid, add_unique.
  destruct (existsb _ (guids device)); [now destruct device | reflexivity].
Qed.

Lemma existsb_eqb_sym (l : list string) (x : string) :
  existsb (fun y => String.eqb y x) l = existsb (fun y => String.eqb x y) l.
Proof.
  induction l as [|y l IH]; simpl; [reflexivity|].
  now rewrite IH, String.eqb_sym.
Qed.

Lemma checksums_add_checksum (device : FwupdDevice) (checksum : string) :
  fwupd_device_add_checksum device checksum =
  with_checksums device (add_unique (checksums device) checksum).
Proof.
  unfold fwupd_device_add_checksum, add_unique.
  rewrite existsb_eqb_sym.
  destruct (existsb _ (checksums device)); [now destruct device | reflexivity].
Qed.

(** A mixed call sequence acts on each array through its own calls only. *)
Lemma run_add_calls_arrays (calls : list AddCall) (device : FwupdDevice) :
  run_add_calls device calls =
  with_checksums
    (with_guids device (fold_left add_unique (guid_args calls) (guids device)))
    (fold_left add_unique (checksum_args calls) (checksums device)).
Proof.
  unfold run_add_calls. revert device.
  induction calls as [|[guid|checksum] calls IH]; intros device; simpl.
  - now destruct device.
  - rewrite IH, guids_add_guid. reflexivity.
  - rewrite IH, checksums_add_checksum. reflexivity.
Qed.

Lemma filter_absorb {A : Type} (p q : A -> bool) (l : list A) :
  (forall y, p y = true -> q y = true) ->
  filter p (filter q l) = filter p l.
Proof.
  intros Hpq. induction l as [|y l IH]; simpl; [reflexivity|].
  destruct (q y) eqn:Hq, (p y) eqn:Hp; simpl; rewrite ?Hp, ?IH; try reflexivity.
  apply Hpq in Hp. congruence.
Qed.

Lemma filter_split {A : Type} (p q r : A -> bool) (l : list A) :
  (forall y, r y = (q y && p y)%bool) ->
  filter r l = filter p (filter q l).
Proof.
  intros Hr. induction l as [|y l IH]; simpl; [reflexivity|].
  rewrite Hr. destruct (q y); simpl; [destruct (p y)|]; now rewrite IH.
Qed.

(** Folding the add over a sequence appends, to what was there, the first
    occurrences of the values that were not. *)
Lemma fold_add_unique (values acc : list string) :
  fold_left add_unique values acc =
  (acc ++ filter (fun x => negb (existsb (fun y => String.eqb x y) acc))
            (first_seen values))%list.
Proof.
  revert acc. induction values as [|v values IH]; intros acc; simpl.
  - now rewrite app_nil_r.
  - rewrite IH. unfold add_unique.
    destruct (existsb (fun y => v =? y) acc) eqn:Hmem; simpl.
    + f_equal. symmetry. apply filter_absorb.
      intros y Hy. apply negb_true_iff, String.eqb_neq. intros ->.
      rewrite Hmem in Hy. discriminate.
    + rewrite <- app_assoc. simpl. do 2 f_equal.
      apply filter_split. intros y.
      rewrite existsb_app. simpl. rewrite orb_false_r, negb_orb.
      apply andb_comm.
Qed.

Lemma first_seen_In (values : list string) (x : string) :
  In x (first_seen values) <-> In x values.
Proof.
  induction values as [|v values IH]; simpl; [tauto|].
  rewrite filter_In, IH, negb_true_iff, String.eqb_neq.
  destruct (string_dec v x) as [->|Hne]; [tauto|].
  split; [tauto|]. intros [H|H]; [tauto|]. right. split; congruence.
Qed.

Lemma first_seen_NoDup (values : list string) : NoDup (first_seen values).
Proof.
  induction values as [|v values IH]; simpl; constructor.
  - rewrite filter_In, String.eqb_refl. simpl. intros [_ H]. discriminate.
  - now apply NoDup_filter.
Qed.

Lemma guid_args_In (calls : list AddCall) (guid : string) :
  In guid (guid_args calls) <-> In (AddGuid guid) calls.
Proof.
  induction calls as [|[g|c] calls IH]; simpl; [tauto| |].
  - rewrite IH. split; (intros [H|H]; [left; congruence | now right]).
  - rewrite IH. split; [now right|]. intros [H|H]; [discriminate|assumption].
Qed.

Lemma checksum_args_In (calls : list AddCall) (checksum : string) :
  In checksum (checksum_args calls) <-> In (AddChecksum checksum) calls.
Proof.
  induction calls as [|[g|c] calls IH]; simpl; [tauto| |].
  - rewrite IH. split; [now right|]. intros [H|H]; [discriminate|assumption].
  - rewrite IH. split; (intros [H|H]; [left; congruence | now right]).
Qed.

(** In a duplicate-free list every value occurs once or not at all. *)
Lemma NoDup_count (l : list string) (x : string) :
  NoDup l ->
  (In x l -> count_occ string_dec l x = 1) /\
  (~ In x l -> count_occ string_dec l x = 0).
Proof.
  intros Hnd. split.
  - now apply NoDup_count_occ'.
  - now apply count_occ_not_In.
Qed.

(** Adds keep a duplicate-free array duplicate-free. *)
Lemma add_unique_NoDup (l : list string) (x : string) :
  NoDup l -> NoDup (add_unique l x).
Proof.
  intros Hnd. unfold add_unique.
  destruct (existsb (fun y => x =? y) l) eqn:Hmem; [assumption|].
  apply NoDup_app; [assumption | repeat constructor; intros [] | ].
  intros y Hy [E|[]]. subst y.
  assert (existsb (fun z => x =? z) l = true); [|congruence].
  apply existsb_exists. exists x. now rewrite String.eqb_refl.
Qed.

(** C3, dedup idempotence: after any sequence of [fwupd_device_add_guid] and
    [fwupd_device_add_checksum] calls on a fresh record, the guids array is
    the sequence of the distinct guid arguments in the order of their first
    occurrence, every value that was added occurs in it exactly once and no
    other value occurs; the same holds for the checksums array. *)
Theorem dedup_idempotence (calls : list AddCall) :
  let device := run_add_calls fwupd_device_new calls in
  (guids device = first_seen (guid_args calls) /\
   forall guid,
     (In (AddGuid guid) calls ->
      count_occ string_dec (guids device) guid = 1) /\
     (~ In (AddGuid guid) calls ->
      count_occ string_dec (guids device) guid = 0)) /\
  (checksums device = first_seen (checksum_args calls) /\
   forall checksum,
     (In (AddChecksum checksum) calls ->
      count_occ string_dec (checksums device) checksum = 1) /\
     (~ In (AddChecksum checksum) calls ->
      count_occ string_dec (checksums device) checksum = 0)).
Proof.
  cbv zeta. rewrite run_add_calls_arrays.
  cbn [guids checksums with_guids with_checksums fwupd_device_new].
  rewrite !fold_add_unique. cbn [app existsb negb].
  assert (Hid : forall l : list string, filter (fun _ => true) l = l).
  { induction l as [|y l IH]; simpl; congruence. }
  rewrite !Hid.
  split; (split; [reflexivity|]).
  - intros guid. rewrite <- guid_args_In, <- first_seen_In.
    apply NoDup_count, first_seen_NoDup.
  - intros checksum. rewrite <- checksum_args_In, <- first_seen_In.
    apply NoDup_count, first_seen_NoDup.
Qed.

(** ** Flag bits *)

Lemma in_range_high_bits (a j : N) :
  (a < 2 ^ 64)%N -> (64 <= j)%N -> N.testbit a j = false.
Proof.
  intros Ha Hj. rewrite <- (N.mod_small a (2 ^ 64)) by assumption.
  now apply N.mod_pow2_bits_high.
Qed.

Lemma land_single_bit (a i : N) :
  N.land a (2 ^ i) = if N.testbit a i then (2 ^ i)%N else 0%N.
Proof.
  apply N.bits_inj. intros j. rewrite N.land_spec, N.pow2_bits_eqb.
  destruct (N.eqb_spec i j) as [->|Hne].
  - rewrite andb_true_r. destruct (N.testbit a j) eqn:Hb.
    + now rewrite N.pow2_bits_true.
    + now rewrite N.bits_0.
  - rewrite andb_false_r. destruct (N.testbit a i).
    + now rewrite N.pow2_bits_false.
    + now rewrite N.bits_0.
Qed.

Lemma has_flag_single_bit (device : FwupdDevice) (i : N) :
  fwupd_device_has_flag device (2 ^ i) = N.testbit (flags device) i.
Proof.
  unfold fwupd_device_has_flag. rewrite land_single_bit.
  destruct (N.testbit (flags device) i); [|reflexivity].
  apply N.ltb_lt. assert (2 ^ i <> 0)%N by now apply N.pow_nonzero. lia.
Qed.

(** C10, flag operations: for a record whose flags fit in 64 bits and a
    single-bit flag [2 ^ i] with [i < 64], after [fwupd_device_add_flag] the
    record has the flag and every bit that was set is still set; after
    [fwupd_device_remove_flag] the record does not have the flag and every
    other bit is unchanged; [fwupd_device_has_flag] is true exactly when the
    bitwise AND of the flags with the flag is not zero. *)
Theorem flag_operations (device : FwupdDevice) (i : N) :
  flags_in_range device ->
  (i < 64)%N ->
  let flag := (2 ^ i)%N in
  (fwupd_device_has_flag (fwupd_device_add_flag device flag) flag = true /\
   forall j, N.testbit (flags device) j = true ->
             N.testbit (flags (fwupd_device_add_flag device flag)) j = true) /\
  (fwupd_device_has_flag (fwupd_device_remove_flag device flag) flag = false /\
   forall j, j <> i ->
             N.testbit (flags (fwupd_device_remove_flag device flag)) j =
             N.testbit (flags device) j) /\
  (forall any_flag,
     fwupd_device_has_flag device any_flag = true <->
     N.land (flags device) any_flag <> 0%N).
Proof.
  intros Hrange Hi flag. subst flag. repeat split.
  - rewrite has_flag_single_bit. cbn [flags fwupd_device_add_flag
      fwupd_device_set_flags].
    rewrite N.lor_spec, N.pow2_bits_true. apply orb_true_r.
  - intros j Hj. cbn [flags fwupd_device_add_flag fwupd_device_set_flags].
    rewrite N.lor_spec, Hj. reflexivity.
  - rewrite has_flag_single_bit. cbn [flags fwupd_device_remove_flag
      fwupd_device_set_flags].
    rewrite N.land_spec, N.lnot_spec_low, N.pow2_bits_true by assumption.
    apply andb_false_r.
  - intros j Hj. cbn [flags fwupd_device_remove_flag fwupd_device_set_flags].
    rewrite N.land_spec.
    destruct (N.lt_ge_cases j 64) as [Hlow|Hhigh].
    + rewrite N.lnot_spec_low, N.pow2_bits_false by auto.
      apply andb_true_r.
    + rewrite (in_range_high_bits (flags device) j) by assumption.
      reflexivity.
  - unfold fwupd_device_has_flag. rewrite N.ltb_lt. lia.
  - unfold fwupd_device_has_flag. rewrite N.ltb_lt. lia.
Qed.

(** Both operations keep the flags within 64 bits. *)
Lemma flag_operations_in_range (device : FwupdDevice) (flag : N) :
  flags_in_range device -> (flag < 2 ^ 64)%N ->
  flags_in_range (fwupd_device_add_flag device flag) /\
  flags_in_range (fwupd_device_remove_flag device flag).
Proof.
  unfold flags_in_range. intros Hd Hf.
  cbn [flags fwupd_device_add_flag fwupd_device_remove_flag
       fwupd_device_set_flags].
  assert (Hbits : forall a, (forall j, (64 <= j)%N -> N.testbit a j = false) ->
                            (a < 2 ^ 64)%N).
  { intros a Ha. destruct (N.eq_dec a 0) as [->|Hnz]; [reflexivity|].
    apply N.log2_lt_pow2; [lia|].
    destruct (N.lt_ge_cases (N.log2 a) 64) as [H|H]; [assumption|].
    apply Ha in H. rewrite N.bit_log2 in H by assumption. discriminate. }
  split; apply Hbits; intros j Hj.
  - rewrite N.lor_spec, !in_range_high_bits by assumption. reflexivity.
  - rewrite N.land_spec, in_range_high_bits by assumption. reflexivity.
Qed.

(** ** The serializer, block by block *)

Lemma let_step {A B : Type} (a a' : A) (f : A -> B) :
  a = a' -> (let x := a in f x) = f a'.
Proof. now intros ->. Qed.

Lemma if_add_entry (c : bool) (builder : GVariantDict) (key : string)
  (value : GVariant) :
  (if c then g_variant_builder_add builder key value else builder) =
  (builder ++ (if c then [(key, value)] else []))%list.
Proof. destruct c; [reflexivity | now rewrite app_nil_r]. Qed.

Lemma match_add_entry (o : option string) (builder : GVariantDict)
  (key : string) :
  match o with
  | Some s => g_variant_builder_add builder key (g_variant_new_string s)
  | None => builder
  end = (builder ++ string_entry key o)%list.
Proof. destruct o; [reflexivity | now rewrite app_nil_r]. Qed.

Section Properties.

Variable K : FwupdResultKeys.

(** The serializer appends, to the builder it is given, the entries of the
    thirteen blocks in source order. *)
Lemma to_variant_builder_entries (device : FwupdDevice) (builder : GVariantDict) :
  fwupd_device_to_variant_builder K device builder =
  (builder
   ++ list_entry (FWUPD_RESULT_KEY_GUID K) (guids device)
   ++ string_entry (FWUPD_RESULT_KEY_DEVICE_NAME K) (name device)
   ++ string_entry (FWUPD_RESULT_KEY_DEVICE_VENDOR K) (vendor device)
   ++ uint64_entry (FWUPD_RESULT_KEY_DEVICE_FLAGS K) (flags device)
   ++ uint64_entry (FWUPD_RESULT_KEY_DEVICE_CREATED K) (created device)
   ++ uint64_entry (FWUPD_RESULT_KEY_DEVICE_MODIFIED K) (modified device)
   ++ string_entry (FWUPD_RESULT_KEY_DEVICE_DESCRIPTION K) (description device)
   ++ list_entry (FWUPD_RESULT_KEY_DEVICE_CHECKSUM K) (checksums device)
   ++ string_entry (FWUPD_RESULT_KEY_DEVICE_PLUGIN K) (provider device)
   ++ string_entry (FWUPD_RESULT_KEY_DEVICE_VERSION K) (version device)
   ++ string_entry (FWUPD_RESULT_KEY_DEVICE_VERSION_LOWEST K)
        (version_lowest device)
   ++ string_entry (FWUPD_RESULT_KEY_DEVICE_VERSION_BOOTLOADER K)
        (version_bootloader device)
   ++ uint32_entry (FWUPD_RESULT_KEY_DEVICE_FLASHES_LEFT K)
        (flashes_left device))%list.
Proof.
  cbv beta delta [fwupd_device_to_variant_builder].
  do 12 (etransitivity;
         [ match goal with
           | |- (let x := ?a in @?f x) = _ =>
               eapply (let_step a _ f);
               first [apply if_add_entry | apply match_add_entry]
           end
         | cbv beta ]).
  rewrite if_add_entry.
  unfold list_entry, uint64_entry, uint32_entry, g_variant_new_string,
    g_variant_new_uint64, g_variant_new_uint32.
  rewrite <- !app_assoc. reflexivity.
Qed.


Lemma list_entry_key (k key : string) (array : list string) (value : GVariant) :
  In (key, value) (list_entry k array) -> key = k.
Proof.
  unfold list_entry. destruct (0 <? List.length array)%nat; simpl.
  - intros [H|[]]. congruence.
  - intros [].
Qed.

Lemma string_entry_key (k key : string) (o : option string) (value : GVariant) :
  In (key, value) (string_entry k o) -> key = k.
Proof.
  destruct o; simpl.
  - intros [H|[]]. congruence.
  - intros [].
Qed.

Lemma uint64_entry_key (k key : string) (n : N) (value : GVariant) :
  In (key, value) (uint64_entry k n) -> key = k.
Proof.
  unfold uint64_entry. destruct (0 <? n)%N; simpl.
  - intros [H|[]]. congruence.
  - intros [].
Qed.

Lemma uint32_entry_key (k key : string) (n : N) (value : GVariant) :
  In (key, value) (uint32_entry k n) -> key = k.
Proof.
  unfold uint32_entry. destruct (0 <? n)%N; simpl.
  - intros [H|[]]. congruence.
  - intros [].
Qed.

(** Every key the serializer writes is one of the thirteen codec keys. *)
Lemma serialize_keys (device : FwupdDevice) (key : string) (value : GVariant) :
  In (key, value) (serialize K device) -> In key (codec_keys K).
Proof.
  unfold serialize. rewrite to_variant_builder_entries.
  rewrite !in_app_iff. cbn [In codec_keys].
  intros H.
  repeat (destruct H as [H|H];
          [ first [ apply list_entry_key in H | apply string_entry_key in H
                  | apply uint64_entry_key in H | apply uint32_entry_key in H
                  | contradiction ];
            subst key; tauto | ]).
  apply uint32_entry_key in H. subst key. tauto.
Qed.

(** C9, fields without a pair: for every record, each key of the serialized
    sequence is one of the thirteen keys of guids, name, vendor, flags,
    created, modified, description, checksums, provider, version,
    version_lowest, version_bootloader and flashes_left; the sequence is the
    same whatever [id], [summary] and [homepage] (and [appstream_id]) hold;
    and, the key constants being distinct, no pair carries the device-id
    key. *)
Theorem serializer_omits_id_summary_homepage (device : FwupdDevice) :
  (forall key value,
     In (key, value) (serialize K device) -> In key (codec_keys K)) /\
  (forall id_ appstream_id_ summary_ homepage_,
     serialize K
       (mkFwupdDevice id_ (created device) (modified device) (flags device)
          appstream_id_ (guids device) (name device) summary_
          (description device) (vendor device) homepage_ (provider device)
          (version device) (version_lowest device) (version_bootloader device)
          (checksums device) (flashes_left device)) =
     serialize K device) /\
  (keys_distinct K ->
   forall value,
     ~ In (FWUPD_RESULT_KEY_DEVICE_ID K, value) (serialize K device)).
Proof.
  split; [|split].
  - intros key value. apply serialize_keys.
  - intros. unfold serialize. rewrite !to_variant_builder_entries. reflexivity.
  - intros Hdistinct value Hin. apply serialize_keys in Hin.
    now inversion Hdistinct.
Qed.

(** C2 as amended, omission rule: a fresh record serializes to the empty
    sequence; setting one of the thirteen serialized fields of a fresh record
    (a string to a non-NULL value, a number to a non-zero value, an array by
    one add) gives exactly one pair, under the key of that field; setting
    [id] or [summary] gives the empty sequence. *)
Theorem omission_rule :
  serialize K fwupd_device_new = [] /\
  (forall guid,
     serialize K (fwupd_device_add_guid fwupd_device_new guid) =
     [(FWUPD_RESULT_KEY_GUID K, GVString guid)]) /\
  (forall s,
     serialize K (fwupd_device_set_name fwupd_device_new (Some s)) =
     [(FWUPD_RESULT_KEY_DEVICE_NAME K, GVString s)]) /\
  (forall s,
     serialize K (fwupd_device_set_vendor fwupd_device_new (Some s)) =
     [(FWUPD_RESULT_KEY_DEVICE_VENDOR K, GVString s)]) /\
  (forall n, n <> 0%N ->
     serialize K (fwupd_device_set_flags fwupd_device_new n) =
     [(FWUPD_RESULT_KEY_DEVICE_FLAGS K, GVUint64 n)]) /\
  (forall n, n <> 0%N ->
     serialize K (fwupd_device_set_created fwupd_device_new n) =
     [(FWUPD_RESULT_KEY_DEVICE_CREATED K, GVUint64 n)]) /\
  (forall n, n <> 0%N ->
     serialize K (fwupd_device_set_modified fwupd_device_new n) =
     [(FWUPD_RESULT_KEY_DEVICE_MODIFIED K, GVUint64 n)]) /\
  (forall s,
     serialize K (fwupd_device_set_description fwupd_device_new (Some s)) =
     [(FWUPD_RESULT_KEY_DEVICE_DESCRIPTION K, GVString s)]) /\
  (forall checksum,
     serialize K (fwupd_device_add_checksum fwupd_device_new checksum) =
     [(FWUPD_RESULT_KEY_DEVICE_CHECKSUM K, GVString checksum)]) /\
  (forall s,
     serialize K (fwupd_device_set_provider fwupd_device_new (Some s)) =
     [(FWUPD_RESULT_KEY_DEVICE_PLUGIN K, GVString s)]) /\
  (forall s,
     serialize K (fwupd_device_set_version fwupd_device_new (Some s)) =
     [(FWUPD_RESULT_KEY_DEVICE_VERSION K, GVString s)]) /\
  (forall s,
     serialize K (fwupd_device_set_version_lowest fwupd_device_new (Some s)) =
     [(FWUPD_RESULT_KEY_DEVICE_VERSION_LOWEST K, GVString s)]) /\
  (forall s,
     serialize K
       (fwupd_device_set_version_bootloader fwupd_device_new (Some s)) =
     [(FWUPD_RESULT_KEY_DEVICE_VERSION_BOOTLOADER K, GVString s)]) /\
  (forall n, n <> 0%N ->
     serialize K (fwupd_device_set_flashes_left fwupd_device_new n) =
     [(FWUPD_RESULT_KEY_DEVICE_FLASHES_LEFT K, GVUint32 n)]) /\
  (forall id_, serialize K (fwupd_device_set_id fwupd_device_new id_) = []) /\
  (forall summary_,
     serialize K (fwupd_device_set_summary fwupd_device_new summary_) = []).
Proof.
  assert (Hpos : forall n, n <> 0%N -> (0 <? n)%N = true).
  { intros n Hn. apply N.ltb_lt. lia. }
  unfold serialize.
  repeat split; intros; rewrite to_variant_builder_entries;
    cbn [fwupd_device_new fwupd_device_add_guid fwupd_device_add_checksum
         fwupd_device_has_guid guids_ptr_array_add checksums_ptr_array_add
         fwupd_device_set_name fwupd_device_set_vendor fwupd_device_set_flags
         fwupd_device_set_created fwupd_device_set_modified
         fwupd_device_set_description fwupd_device_set_provider
         fwupd_device_set_version fwupd_device_set_version_lowest
         fwupd_device_set_version_bootloader fwupd_device_set_flashes_left
         fwupd_device_set_id fwupd_device_set_summary existsb
         id created modified flags appstream_id guids name summary description
         vendor homepage provider version version_lowest version_bootloader
         checksums flashes_left];
    unfold list_entry, uint64_entry, uint32_entry;
    cbn [string_entry app List.length Nat.ltb Nat.leb N.ltb N.compare];
    rewrite ?comma_joined_singleton, ?Hpos by assumption;
    reflexivity.
Qed.


(** ** The deserializer, key by key *)

Lemma keys_distinct_neq (i j : nat) :
  keys_distinct K -> i < 14 -> j < 14 -> i <> j ->
  nth i (FWUPD_RESULT_KEY_DEVICE_ID K :: codec_keys K) "" <>
  nth j (FWUPD_RESULT_KEY_DEVICE_ID K :: codec_keys K) "".
Proof.
  intros Hdistinct Hi Hj Hij Heq. apply Hij.
  exact (proj1 (NoDup_nth _ "") Hdistinct i j Hi Hj Heq).
Qed.

Ltac key_index k :=
  lazymatch k with
  | FWUPD_RESULT_KEY_DEVICE_ID _ => constr:(0)
  | FWUPD_RESULT_KEY_GUID _ => constr:(1)
  | FWUPD_RESULT_KEY_DEVICE_NAME _ => constr:(2)
  | FWUPD_RESULT_KEY_DEVICE_VENDOR _ => constr:(3)
  | FWUPD_RESULT_KEY_DEVICE_FLAGS _ => constr:(4)
  | FWUPD_RESULT_KEY_DEVICE_CREATED _ => constr:(5)
  | FWUPD_RESULT_KEY_DEVICE_MODIFIED _ => constr:(6)
  | FWUPD_RESULT_KEY_DEVICE_DESCRIPTION _ => constr:(7)
  | FWUPD_RESULT_KEY_DEVICE_CHECKSUM _ => constr:(8)
  | FWUPD_RESULT_KEY_DEVICE_PLUGIN _ => constr:(9)
  | FWUPD_RESULT_KEY_DEVICE_VERSION _ => constr:(10)
  | FWUPD_RESULT_KEY_DEVICE_VERSION_LOWEST _ => constr:(11)
  | FWUPD_RESULT_KEY_DEVICE_VERSION_BOOTLOADER _ => constr:(12)
  | FWUPD_RESULT_KEY_DEVICE_FLASHES_LEFT _ => constr:(13)
  end.

(** Two different key constants are different strings. *)
Ltac key_neq H :=
  lazymatch goal with
  | |- ?a <> ?b =>
      let i := key_index a in
      let j := key_index b in
      exact (keys_distinct_neq i j H ltac:(lia) ltac:(lia) ltac:(lia))
  end.

(** Runs the [g_strcmp0] chain of [fwupd_device_from_key_value] on a key
    constant. *)
Ltac dispatch_key H :=
  unfold fwupd_device_from_key_value;
  repeat match goal with
         | |- context [String.eqb ?a ?b] =>
             rewrite (proj2 (String.eqb_neq a b)) by key_neq H
         end;
  rewrite String.eqb_refl; reflexivity.

Section Dispatch.

Hypothesis Hdistinct : keys_distinct K.
Variables (device : FwupdDevice) (value : GVariant).

Lemma from_key_value_flags :
  fwupd_device_from_key_value K device (FWUPD_RESULT_KEY_DEVICE_FLAGS K) value =
  option_map (fwupd_device_set_flags device) (g_variant_get_uint64 value).
Proof. dispatch_key Hdistinct. Qed.

Lemma from_key_value_created :
  fwupd_device_from_key_value K device (FWUPD_RESULT_KEY_DEVICE_CREATED K) value =
  option_map (fwupd_device_set_created device) (g_variant_get_uint64 value).
Proof. dispatch_key Hdistinct. Qed.

Lemma from_key_value_modified :
  fwupd_device_from_key_value K device (FWUPD_RESULT_KEY_DEVICE_MODIFIED K) value =
  option_map (fwupd_device_set_modified device) (g_variant_get_uint64 value).
Proof. dispatch_key Hdistinct. Qed.

Lemma from_key_value_guid :
  fwupd_device_from_key_value K device (FWUPD_RESULT_KEY_GUID K) value =
  option_map
    (fun guids_ =>
       fold_left fwupd_device_add_guid (g_strsplit guids_ "," (-1)) device)
    (g_variant_get_string value).
Proof. dispatch_key Hdistinct. Qed.

Lemma from_key_value_name :
  fwupd_device_from_key_value K device (FWUPD_RESULT_KEY_DEVICE_NAME K) value =
  option_map (fun s => fwupd_device_set_name device (Some s))
    (g_variant_get_string value).
Proof. dispatch_key Hdistinct. Qed.

Lemma from_key_value_vendor :
  fwupd_device_from_key_value K device (FWUPD_RESULT_KEY_DEVICE_VENDOR K) value =
  option_map (fun s => fwupd_device_set_vendor device (Some s))
    (g_variant_get_string value).
Proof. dispatch_key Hdistinct. Qed.

Lemma from_key_value_description :
  fwupd_device_from_key_value K device
    (FWUPD_RESULT_KEY_DEVICE_DESCRIPTION K) value =
  option_map (fun s => fwupd_device_set_description device (Some s))
    (g_variant_get_string value).
Proof. dispatch_key Hdistinct. Qed.

Lemma from_key_value_checksum :
  fwupd_device_from_key_value K device (FWUPD_RESULT_KEY_DEVICE_CHECKSUM K) value =
  option_map
    (fun checksums_ =>
       fold_left fwupd_device_add_checksum (g_strsplit checksums_ "," (-1))
         device)
    (g_variant_get_string value).
Proof. dispatch_key Hdistinct. Qed.

Lemma from_key_value_plugin :
  fwupd_device_from_key_value K device (FWUPD_RESULT_KEY_DEVICE_PLUGIN K) value =
  option_map (fun s => fwupd_device_set_provider device (Some s))
    (g_variant_get_string value).
Proof. dispatch_key Hdistinct. Qed.

Lemma from_key_value_version :
  fwupd_device_from_key_value K device (FWUPD_RESULT_KEY_DEVICE_VERSION K) value =
  option_map (fun s => fwupd_device_set_version device (Some s))
    (g_variant_get_string value).
Proof. dispatch_key Hdistinct. Qed.

Lemma from_key_value_version_lowest :
  fwupd_device_from_key_value K device
    (FWUPD_RESULT_KEY_DEVICE_VERSION_LOWEST K) value =
  option_map (fun s => fwupd_device_set_version_lowest device (Some s))
    (g_variant_get_string value).
Proof. dispatch_key Hdistinct. Qed.

Lemma from_key_value_version_bootloader :
  fwupd_device_from_key_value K device
    (FWUPD_RESULT_KEY_DEVICE_VERSION_BOOTLOADER K) value =
  option_map (fun s => fwupd_device_set_version_bootloader device (Some s))
    (g_variant_get_string value).
Proof. dispatch_key Hdistinct. Qed.

Lemma from_key_value_flashes_left :
  fwupd_device_from_key_value K device
    (FWUPD_RESULT_KEY_DEVICE_FLASHES_LEFT K) value =
  option_map (fwupd_device_set_flashes_left device)
    (g_variant_get_uint32 value).
Proof. dispatch_key Hdistinct. Qed.

End Dispatch.

(** A key that is none of the thirteen leaves the record as it is. *)
Lemma from_key_value_unknown (device : FwupdDevice) (key : string)
  (value : GVariant) :
  ~ In key (codec_keys K) ->
  fwupd_device_from_key_value K device key value = Some device.
Proof.
  intros Hnot. unfold fwupd_device_from_key_value.
  repeat match goal with
         | |- context [String.eqb key ?b] =>
             rewrite (proj2 (String.eqb_neq key b))
               by (intros ->; apply Hnot; cbn [codec_keys In]; tauto)
         end.
  reflexivity.
Qed.

Lemma set_from_variant_iter_app (iter1 iter2 : GVariantDict)
  (device : FwupdDevice) :
  fwupd_device_set_from_variant_iter K device (iter1 ++ iter2)%list =
  match fwupd_device_set_from_variant_iter K device iter1 with
  | Some device' => fwupd_device_set_from_variant_iter K device' iter2
  | None => None
  end.
Proof.
  revert device. induction iter1 as [|[key value] iter1 IH]; intros device.
  - reflexivity.
  - simpl. destruct (fwupd_device_from_key_value K device key value);
      [apply IH | reflexivity].
Qed.


(** ** Reading back what the serializer wrote *)

Lemma filter_all_true {A : Type} (p : A -> bool) (l : list A) :
  (forall y, In y l -> p y = true) -> filter p l = l.
Proof.
  induction l as [|y l IH]; intros Hall; simpl; [reflexivity|].
  rewrite Hall by now left. f_equal. apply IH. intros z Hz. apply Hall. now right.
Qed.

Lemma first_seen_NoDup_id (values : list string) :
  NoDup values -> first_seen values = values.
Proof.
  induction 1 as [|v values Hnotin Hnd IH]; simpl; [reflexivity|].
  rewrite IH. f_equal. apply filter_all_true.
  intros y Hy. apply negb_true_iff, String.eqb_neq. congruence.
Qed.

Lemma fold_add_unique_fresh (values : list string) :
  NoDup values -> fold_left add_unique values [] = values.
Proof.
  intros Hnd. rewrite fold_add_unique. cbn [app existsb negb].
  rewrite filter_all_true by reflexivity. now apply first_seen_NoDup_id.
Qed.

Lemma fold_add_guid (values : list string) (device : FwupdDevice) :
  fold_left fwupd_device_add_guid values device =
  with_guids device (fold_left add_unique values (guids device)).
Proof.
  revert device. induction values as [|v values IH]; intros device; simpl.
  - now destruct device.
  - rewrite IH, guids_add_guid. reflexivity.
Qed.

Lemma fold_add_checksum (values : list string) (device : FwupdDevice) :
  fold_left fwupd_device_add_checksum values device =
  with_checksums device (fold_left add_unique values (checksums device)).
Proof.
  revert device. induction values as [|v values IH]; intros device; simpl.
  - now destruct device.
  - rewrite IH, checksums_add_checksum. reflexivity.
Qed.

Section Stages.

Hypothesis Hdistinct : keys_distinct K.

Lemma stage_guids (device : FwupdDevice) (array : list string) :
  guids device = [] -> array_round_trips array ->
  fwupd_device_set_from_variant_iter K device
    (list_entry (FWUPD_RESULT_KEY_GUID K) array) =
  Some (with_guids device array).
Proof.
  intros Hempty (Hnd & Hcomma & Hne & Hlen). unfold list_entry.
  destruct array as [|x array].
  - simpl. rewrite <- Hempty. now destruct device.
  - cbn [List.length Nat.ltb Nat.leb fwupd_device_set_from_variant_iter].
    rewrite from_key_value_guid by assumption.
    cbn [g_variant_get_string option_map].
    rewrite g_strsplit_comma_joined by (assumption || discriminate).
    rewrite fold_add_guid, Hempty, fold_add_unique_fresh by assumption.
    reflexivity.
Qed.

Lemma stage_checksums (device : FwupdDevice) (array : list string) :
  checksums device = [] -> array_round_trips array ->
  fwupd_device_set_from_variant_iter K device
    (list_entry (FWUPD_RESULT_KEY_DEVICE_CHECKSUM K) array) =
  Some (with_checksums device array).
Proof.
  intros Hempty (Hnd & Hcomma & Hne & Hlen). unfold list_entry.
  destruct array as [|x array].
  - simpl. rewrite <- Hempty. now destruct device.
  - cbn [List.length Nat.ltb Nat.leb fwupd_device_set_from_variant_iter].
    rewrite from_key_value_checksum by assumption.
    cbn [g_variant_get_string option_map].
    rewrite g_strsplit_comma_joined by (assumption || discriminate).
    rewrite fold_add_checksum, Hempty, fold_add_unique_fresh by assumption.
    reflexivity.
Qed.

(** A string block, read into a record whose field is still NULL. *)
Lemma stage_string (key : string)
  (set : FwupdDevice -> option string -> FwupdDevice)
  (get : FwupdDevice -> option string) :
  (forall device value,
     fwupd_device_from_key_value K device key value =
     option_map (fun s => set device (Some s)) (g_variant_get_string value)) ->
  (forall device, set device (get device) = device) ->
  forall device o,
    get device = None ->
    fwupd_device_set_from_variant_iter K device (string_entry key o) =
    Some (set device o).
Proof.
  intros Hkey Heta device [s|] Hunset; simpl.
  - now rewrite Hkey.
  - now rewrite <- Hunset, Heta.
Qed.

(** A numeric block, read into a record whose field is still zero. *)
Lemma stage_uint64 (key : string) (set : FwupdDevice -> N -> FwupdDevice)
  (get : FwupdDevice -> N) :
  (forall device value,
     fwupd_device_from_key_value K device key value =
     option_map (set device) (g_variant_get_uint64 value)) ->
  (forall device, set device (get device) = device) ->
  forall device n,
    get device = 0%N ->
    fwupd_device_set_from_variant_iter K device (uint64_entry key n) =
    Some (set device n).
Proof.
  intros Hkey Heta device n Hunset. unfold uint64_entry.
  destruct (0 <? n)%N eqn:Hpos; simpl.
  - now rewrite Hkey.
  - apply N.ltb_ge in Hpos. assert (n = 0%N) as -> by lia.
    now rewrite <- Hunset, Heta.
Qed.

Lemma stage_uint32 (key : string) (set : FwupdDevice -> N -> FwupdDevice)
  (get : FwupdDevice -> N) :
  (forall device value,
     fwupd_device_from_key_value K device key value =
     option_map (set device) (g_variant_get_uint32 value)) ->
  (forall device, set device (get device) = device) ->
  forall device n,
    get device = 0%N ->
    fwupd_device_set_from_variant_iter K device (uint32_entry key n) =
    Some (set device n).
Proof.
  intros Hkey Heta device n Hunset. unfold uint32_entry.
  destruct (0 <? n)%N eqn:Hpos; simpl.
  - now rewrite Hkey.
  - apply N.ltb_ge in Hpos. assert (n = 0%N) as -> by lia.
    now rewrite <- Hunset, Heta.
Qed.

(** The serialized sequence of [r], read into a fresh record, gives every
    carried field of [r]. *)
Lemma deserialize_serialize (r : FwupdDevice) :
  array_round_trips (guids r) -> array_round_trips (checksums r) ->
  deserialize K (serialize K r) = Some (carried_fields r).
Proof.
  intros Hguids Hchecksums. unfold deserialize, serialize.
  rewrite to_variant_builder_entries. cbn [app].
  rewrite set_from_variant_iter_app, stage_guids by (assumption || reflexivity).
  rewrite set_from_variant_iter_app,
    (stage_string _ fwupd_device_set_name name)
    by (intros; first [apply from_key_value_name; assumption
                      | now destruct device | reflexivity]).
  rewrite set_from_variant_iter_app,
    (stage_string _ fwupd_device_set_vendor vendor)
    by (intros; first [apply from_key_value_vendor; assumption
                      | now destruct device | reflexivity]).
  rewrite set_from_variant_iter_app,
    (stage_uint64 _ fwupd_device_set_flags flags)
    by (intros; first [apply from_key_value_flags; assumption
                      | now destruct device | reflexivity]).
  rewrite set_from_variant_iter_app,
    (stage_uint64 _ fwupd_device_set_created created)
    by (intros; first [apply from_key_value_created; assumption
                      | now destruct device | reflexivity]).
  rewrite set_from_variant_iter_app,
    (stage_uint64 _ fwupd_device_set_modified modified)
    by (intros; first [apply from_key_value_modified; assumption
                      | now destruct device | reflexivity]).
  rewrite set_from_variant_iter_app,
    (stage_string _ fwupd_device_set_description description)
    by (intros; first [apply from_key_value_description; assumption
                      | now destruct device | reflexivity]).
  rewrite set_from_variant_iter_app, stage_checksums
    by (assumption || reflexivity).
  rewrite set_from_variant_iter_app,
    (stage_string _ fwupd_device_set_provider provider)
    by (intros; first [apply from_key_value_plugin; assumption
                      | now destruct device | reflexivity]).
  rewrite set_from_variant_iter_app,
    (stage_string _ fwupd_device_set_version version)
    by (intros; first [apply from_key_value_version; assumption
                      | now destruct device | reflexivity]).
  rewrite set_from_variant_iter_app,
    (stage_string _ fwupd_device_set_version_lowest version_lowest)
    by (intros; first [apply from_key_value_version_lowest; assumption
                      | now destruct device | reflexivity]).
  rewrite set_from_variant_iter_app,
    (stage_string _ fwupd_device_set_version_bootloader version_bootloader)
    by (intros; first [apply from_key_value_version_bootloader; assumption
                      | now destruct device | reflexivity]).
  rewrite (stage_uint32 _ fwupd_device_set_flashes_left flashes_left)
    by (intros; first [apply from_key_value_flashes_left; assumption
                      | now destruct device | reflexivity]).
  now destruct r.
Qed.

End Stages.

(** C1 as amended, round trip: for every record whose two arrays are
    duplicate-free, have no comma in any element, are not the single empty
    string and hold at most G_MAXINT elements, and for distinct key
    constants, reading the serialized sequence back into a fresh record
    reproduces every serialized field and leaves [id], [appstream_id],
    [summary] and [homepage] unset; a field that was unset in the record is
    unset in the result; when those four fields were unset the result is the
    record itself. *)
Theorem round_trip (r : FwupdDevice) :
  keys_distinct K ->
  array_round_trips (guids r) ->
  array_round_trips (checksums r) ->
  exists r',
    deserialize K (serialize K r) = Some r' /\
    r' = carried_fields r /\
    (forall field, field_unset field r -> field_unset field r') /\
    (id r = None -> appstream_id r = None -> summary r = None ->
     homepage r = None -> r' = r).
Proof.
  intros Hdistinct Hguids Hchecksums. exists (carried_fields r).
  split; [now apply deserialize_serialize|].
  split; [reflexivity|]. split.
  - intros [] H; cbn in *; solve [assumption | reflexivity].
  - destruct r; cbn. intros. subst. reflexivity.
Qed.

(** ** Envelopes *)

(** C6, unsupported envelope shape: for every variant whose type string is
    none of ["(a{sv})"], ["a{sv}"] and ["{sa{sv}}"],
    [fwupd_device_new_from_data] returns NULL after one warning that names
    the type. *)
Theorem unsupported_envelope (data : GVariantData) :
  g_variant_get_type_string data <> "(a{sv})" ->
  g_variant_get_type_string data <> "a{sv}" ->
  g_variant_get_type_string data <> "{sa{sv}}" ->
  fwupd_device_new_from_data K data =
  Some {| returned_device := None;
          warnings := ["type " ++ g_variant_get_type_string data
                       ++ " not known"] |}.
Proof.
  intros H1 H2 H3. unfold fwupd_device_new_from_data. cbv zeta.
  apply String.eqb_neq in H1, H2, H3. now rewrite H1, H2, H3.
Qed.

(** No key handler reads or writes [id]. *)
Lemma from_key_value_set_id (device : FwupdDevice) (id_ : option string)
  (key : string) (value : GVariant) :
  fwupd_device_from_key_value K (fwupd_device_set_id device id_) key value =
  option_map (fun device' => fwupd_device_set_id device' id_)
    (fwupd_device_from_key_value K device key value).
Proof.
  unfold fwupd_device_from_key_value.
  repeat match goal with
         | |- context [String.eqb key ?b] => destruct (String.eqb key b)
         end;
    try (destruct value; reflexivity).
  - destruct value; try reflexivity. cbn [g_variant_get_string option_map].
    now rewrite !fold_add_guid.
  - destruct value; try reflexivity. cbn [g_variant_get_string option_map].
    now rewrite !fold_add_checksum.
Qed.

Lemma set_from_variant_iter_set_id (iter : GVariantDict) (device : FwupdDevice)
  (id_ : option string) :
  fwupd_device_set_from_variant_iter K (fwupd_device_set_id device id_) iter =
  option_map (fun device' => fwupd_device_set_id device' id_)
    (fwupd_device_set_from_variant_iter K device iter).
Proof.
  revert device. induction iter as [|[key value] iter IH]; intros device.
  - reflexivity.
  - simpl. rewrite from_key_value_set_id.
    destruct (fwupd_device_from_key_value K device key value); simpl;
      [apply IH | reflexivity].
Qed.

(** C4, id-carrying envelope: on a ["{sa{sv}}"] variant the inner mapping
    is read as in the bare-mapping case and the id is the outer key: where
    the bare mapping gives a record, the id-keyed one gives, with the same
    warnings, a record whose [id] is the outer key and whose other fields are
    those of the bare record, and where the bare mapping is undefined so is
    the id-keyed one; with the name key spelled ["Name"],
    [{"dev-1": {"Name": "ColorHug2"}}] gives a record with [id] equal to
    ["dev-1"], [name] equal to ["ColorHug2"] and every other field unset. *)
Theorem id_envelope :
  (forall id_ dict,
     match fwupd_device_new_from_data K (GVDict dict) with
     | Some bare =>
         exists dev bare_dev,
           returned_device bare = Some bare_dev /\
           fwupd_device_new_from_data K (GVIdDict id_ dict) =
           Some {| returned_device := Some dev; warnings := warnings bare |} /\
           id dev = Some id_ /\
           agree_except_id dev bare_dev
     | None => fwupd_device_new_from_data K (GVIdDict id_ dict) = None
     end) /\
  (keys_distinct K ->
   FWUPD_RESULT_KEY_DEVICE_NAME K = "Name" ->
   exists dev,
     fwupd_device_new_from_data K
       (GVIdDict "dev-1" [("Name", GVString "ColorHug2")]) =
     Some {| returned_device := Some dev; warnings := [] |} /\
     id dev = Some "dev-1" /\
     name dev = Some "ColorHug2" /\
     forall field,
       field <> FieldId -> field <> FieldName -> field_unset field dev).
Proof.
  split.
  - intros id_ dict.
    change (fwupd_device_new_from_data K (GVIdDict id_ dict))
      with (option_map
              (fun dev => {| returned_device := Some dev; warnings := [] |})
              (fwupd_device_set_from_variant_iter K
                 (fwupd_device_set_id fwupd_device_new (Some id_)) dict)).
    change (fwupd_device_new_from_data K (GVDict dict))
      with (option_map
              (fun dev => {| returned_device := Some dev; warnings := [] |})
              (fwupd_device_set_from_variant_iter K fwupd_device_new dict)).
    rewrite set_from_variant_iter_set_id.
    destruct (fwupd_device_set_from_variant_iter K fwupd_device_new dict)
      as [bare_dev|]; cbn [option_map returned_device warnings].
    + exists (fwupd_device_set_id bare_dev (Some id_)), bare_dev.
      split; [reflexivity|]. split; [reflexivity|]. split; [reflexivity|].
      unfold agree_except_id. repeat split.
    + reflexivity.
  - intros Hdistinct Hname.
    exists (fwupd_device_set_name
              (fwupd_device_set_id fwupd_device_new (Some "dev-1"))
              (Some "ColorHug2")).
    split.
    + change (fwupd_device_new_from_data K
                (GVIdDict "dev-1" [("Name", GVString "ColorHug2")]))
        with (option_map
                (fun dev => {| returned_device := Some dev; warnings := [] |})
                (fwupd_device_set_from_variant_iter K
                   (fwupd_device_set_id fwupd_device_new (Some "dev-1"))
                   [("Name", GVString "ColorHug2")])).
      rewrite <- Hname. cbn [fwupd_device_set_from_variant_iter].
      rewrite from_key_value_name by assumption. reflexivity.
    + split; [reflexivity|]. split; [reflexivity|].
      intros [] Hid Hnm; solve [reflexivity | now contradiction Hid
                               | now contradiction Hnm].
Qed.

Lemma fold_add_unique_nil (values : list string) :
  fold_left add_unique values [] = first_seen values.
Proof.
  rewrite fold_add_unique. cbn [app existsb negb].
  now rewrite filter_all_true by reflexivity.
Qed.

(** C5, unknown key tolerance: for distinct key constants, a mapping that
    holds one codec key with a value of the field's wire type and one key
    that is none of the codec keys, in either order, deserializes without a
    warning to the record that the recognized pair alone gives; in that
    record the recognized field holds the value read (for an array, the
    distinct comma-separated tokens) and every other field is unset. *)
Theorem unknown_key_tolerance (field : DeviceField) (key : string)
  (value : GVariant) (unknown_key : string) (unknown_value : GVariant) :
  keys_distinct K ->
  field_key K field = Some key ->
  well_typed_for field value ->
  ~ In unknown_key (codec_keys K) ->
  exists device,
    fwupd_device_new_from_data K
      (GVDict [(key, value); (unknown_key, unknown_value)]) =
    Some {| returned_device := Some device; warnings := [] |} /\
    fwupd_device_new_from_data K
      (GVDict [(unknown_key, unknown_value); (key, value)]) =
    Some {| returned_device := Some device; warnings := [] |} /\
    fwupd_device_new_from_data K (GVDict [(key, value)]) =
    Some {| returned_device := Some device; warnings := [] |} /\
    field_reads field value device /\
    forall other, other <> field -> field_unset other device.
Proof.
  intros Hdistinct Hkey Htyped Hunknown.
  assert (Hbare : forall dict,
             fwupd_device_new_from_data K (GVDict dict) =
             option_map
               (fun dev => {| returned_device := Some dev; warnings := [] |})
               (fwupd_device_set_from_variant_iter K fwupd_device_new dict))
    by reflexivity.
  destruct field; cbn in Hkey; try discriminate;
    injection Hkey as <-; destruct Htyped as [payload ->];
    eexists; rewrite !Hbare; cbn [fwupd_device_set_from_variant_iter];
    rewrite ?(from_key_value_unknown _ unknown_key) by assumption;
    first [ rewrite !from_key_value_created by assumption
          | rewrite !from_key_value_modified by assumption
          | rewrite !from_key_value_flags by assumption
          | rewrite !from_key_value_guid by assumption
          | rewrite !from_key_value_name by assumption
          | rewrite !from_key_value_description by assumption
          | rewrite !from_key_value_vendor by assumption
          | rewrite !from_key_value_plugin by assumption
          | rewrite !from_key_value_version by assumption
          | rewrite !from_key_value_version_lowest by assumption
          | rewrite !from_key_value_version_bootloader by assumption
          | rewrite !from_key_value_checksum by assumption
          | rewrite !from_key_value_flashes_left by assumption ];
    cbn [g_variant_get_string g_variant_get_uint64 g_variant_get_uint32
         option_map];
    rewrite ?(from_key_value_unknown _ unknown_key) by assumption;
    rewrite ?fold_add_guid, ?fold_add_checksum;
    (split; [reflexivity|]); (split; [reflexivity|]); (split; [reflexivity|]);
    (split;
     [ cbn [field_reads guids checksums with_guids with_checksums
            fwupd_device_new];
       first [ apply fold_add_unique_nil | reflexivity ]
     | intros []; intros Hother;
       solve [reflexivity | now contradiction Hother] ]).
Qed.

(** ** The formatter, line by line *)

Section FormatterProperties.

Variable fwupd_device_flag_to_string : N -> option string.
Variable fwupd_checksum_format_for_display : string -> option string.
Variable unix_utc_date : N -> option string.

Local Notation "'to_string_lines'" :=
  (fwupd_device_to_string_lines K fwupd_device_flag_to_string
     fwupd_checksum_format_for_display unix_utc_date).
Local Notation "'to_string'" :=
  (fwupd_device_to_string K fwupd_device_flag_to_string
     fwupd_checksum_format_for_display unix_utc_date).

Lemma In_pad_kv_str (line : PadLine) (str : GStringLines)
  (key value : option string) :
  In line (fwupd_pad_kv_str str key value) <->
  In line str \/
  (key = Some (line_key line) /\ value = Some (line_value line)).
Proof.
  unfold fwupd_pad_kv_str. destruct key as [k|], value as [v|];
    try (split; [now left | intros [H|[H1 H2]]; [assumption | discriminate]]).
  rewrite in_app_iff. cbn [In]. destruct line as [lk lv]. cbn.
  split; (intros [H|H]; [now left | right]).
  - destruct H as [H|[]]. injection H as -> ->. now split.
  - destruct H as [H1 H2]. injection H1 as ->. injection H2 as ->. now left.
Qed.

Lemma In_pad_kv_unx (line : PadLine) (str : GStringLines)
  (key : option string) (value : N) :
  In line (fwupd_pad_kv_unx unix_utc_date str key value) <->
  In line str \/
  (value <> 0%N /\ key = Some (line_key line) /\
   unix_utc_date value = Some (line_value line)).
Proof.
  unfold fwupd_pad_kv_unx. destruct (N.eqb_spec value 0) as [->|Hnz].
  - split; [now left | intros [H|[H _]]; [assumption | now contradiction H]].
  - rewrite In_pad_kv_str. tauto.
Qed.

Lemma In_pad_kv_int (line : PadLine) (str : GStringLines)
  (key : option string) (value : N) :
  In line (fwupd_pad_kv_int str key value) <->
  In line str \/
  (value <> 0%N /\ key = Some (line_key line) /\
   Some (printf_u value) = Some (line_value line)).
Proof.
  unfold fwupd_pad_kv_int. destruct (N.eqb_spec value 0) as [->|Hnz].
  - split; [now left | intros [H|[H _]]; [assumption | now contradiction H]].
  - rewrite In_pad_kv_str. tauto.
Qed.

Lemma pad_kv_dfl_text (str : GStringLines) (key : option string)
  (device_flags : N) :
  fwupd_pad_kv_dfl fwupd_device_flag_to_string str key device_flags =
  fwupd_pad_kv_str str key
    (Some (flag_names_text fwupd_device_flag_to_string device_flags)).
Proof.
  cbv beta delta [fwupd_pad_kv_dfl flag_names_text]. reflexivity.
Qed.

(** The loop over an array writes one line per element for which the value
    is not NULL. *)
Lemma In_pad_kv_str_loop (line : PadLine) (key : string)
  (display : string -> option string) (array : list string) :
  forall str,
    In line (fold_left
               (fun str element =>
                  fwupd_pad_kv_str str (Some key) (display element))
               array str) <->
    In line str \/
    (key = line_key line /\
     exists element,
       In element array /\ display element = Some (line_value line)).
Proof.
  induction array as [|x array IH]; intros str; cbn [fold_left].
  - split; [now left | intros [H|(_ & e & [] & _)]; assumption].
  - rewrite IH, In_pad_kv_str. cbn [In]. split.
    + intros [[H|[Hk Hv]]|(Hk & e & He & Hv)].
      * now left.
      * right. injection Hk as Hk. split; [assumption|]. exists x. tauto.
      * right. split; [assumption|]. exists e. tauto.
    + intros [H|(Hk & e & [->|He] & Hv)].
      * now left; left.
      * left; right. split; congruence.
      * right. split; [assumption|]. now exists e.
Qed.

(** Which lines [fwupd_device_to_string] writes: the thirteen statements of
    the function, each with the condition under which it writes. *)
Lemma to_string_lines_In (device : FwupdDevice) (line : PadLine) :
  In line (to_string_lines device) <->
  (FWUPD_RESULT_KEY_GUID K = line_key line /\
   exists guid, In guid (guids device) /\ Some guid = Some (line_value line)) \/
  (FWUPD_RESULT_KEY_DEVICE_ID K = line_key line /\
   id device = Some (line_value line)) \/
  (FWUPD_RESULT_KEY_DEVICE_DESCRIPTION K = line_key line /\
   description device = Some (line_value line)) \/
  (FWUPD_RESULT_KEY_DEVICE_PLUGIN K = line_key line /\
   provider device = Some (line_value line)) \/
  (FWUPD_RESULT_KEY_DEVICE_FLAGS K = line_key line /\
   flag_names_text fwupd_device_flag_to_string (flags device) =
   line_value line) \/
  (FWUPD_RESULT_KEY_DEVICE_CHECKSUM K = line_key line /\
   exists checksum,
     In checksum (checksums device) /\
     fwupd_checksum_format_for_display checksum = Some (line_value line)) \/
  (FWUPD_RESULT_KEY_DEVICE_VENDOR K = line_key line /\
   vendor device = Some (line_value line)) \/
  (FWUPD_RESULT_KEY_DEVICE_VERSION K = line_key line /\
   version device = Some (line_value line)) \/
  (FWUPD_RESULT_KEY_DEVICE_VERSION_LOWEST K = line_key line /\
   version_lowest device = Some (line_value line)) \/
  (FWUPD_RESULT_KEY_DEVICE_VERSION_BOOTLOADER K = line_key line /\
   version_bootloader device = Some (line_value line)) \/
  (FWUPD_RESULT_KEY_DEVICE_FLASHES_LEFT K = line_key line /\
   (flashes_left device <? 2)%N = true /\ flashes_left device <> 0%N /\
   printf_u (flashes_left device) = line_value line) \/
  (FWUPD_RESULT_KEY_DEVICE_CREATED K = line_key line /\
   created device <> 0%N /\
   unix_utc_date (created device) = Some (line_value line)) \/
  (FWUPD_RESULT_KEY_DEVICE_MODIFIED K = line_key line /\
   modified device <> 0%N /\
   unix_utc_date (modified device) = Some (line_value line)).
Proof.
  unfold fwupd_device_to_string_lines. cbv zeta.
  do 2 rewrite In_pad_kv_unx.
  assert (Hif : forall str,
             In line
               (if (flashes_left device <? 2)%N
                then fwupd_pad_kv_int str
                       (Some (FWUPD_RESULT_KEY_DEVICE_FLASHES_LEFT K))
                       (flashes_left device)
                else str) <->
             In line str \/
             (FWUPD_RESULT_KEY_DEVICE_FLASHES_LEFT K = line_key line /\
              (flashes_left device <? 2)%N = true /\
              flashes_left device <> 0%N /\
              printf_u (flashes_left device) = line_value line)).
  { intros str. destruct (flashes_left device <? 2)%N.
    - rewrite In_pad_kv_int. split; (intros [H|H]; [now left | right]).
      + destruct H as (H1 & H2 & H3). repeat split; congruence.
      + destruct H as (H1 & _ & H2 & H3). repeat split; congruence.
    - split; [now left | intros [H|(_ & H & _)]; [assumption|discriminate]]. }
  rewrite Hif. do 4 rewrite In_pad_kv_str.
  rewrite (In_pad_kv_str_loop line _ fwupd_checksum_format_for_display).
  rewrite pad_kv_dfl_text. do 4 rewrite In_pad_kv_str.
  rewrite (In_pad_kv_str_loop line _ (fun guid => Some guid)).
  cbn [In].
  cbv beta.
  assert (Hsome : forall (a b : string), Some a = Some b <-> a = b)
    by (intros a b; split; congruence).
  rewrite !Hsome. tauto.
Qed.


Lemma flag_names_text_zero :
  flag_names_text fwupd_device_flag_to_string 0 =
  g_string_append "" (fwupd_device_flag_to_string 0%N).
Proof.
  unfold flag_names_text.
  assert (Hloop : forall (positions : list N) (tmp : string),
             fold_left
               (fun tmp i =>
                  if (N.land 0 (N.shiftl 1 i) =? 0)%N then tmp
                  else tmp
                       ++ printf_s (fwupd_device_flag_to_string (N.shiftl 1 i))
                       ++ "|")
               positions tmp = tmp).
  { induction positions as [|i positions IH]; intros tmp; [reflexivity|].
    cbn [fold_left]. rewrite N.land_0_l. apply IH. }
  cbv zeta. rewrite Hloop. reflexivity.
Qed.

(** The loop of [fwupd_pad_kv_dfl] appends, for each visited position whose
    bit is set, the flag name and a bar. *)
Lemma flag_names_loop (device_flags : N) (positions : list N) :
  forall tmp,
    fold_left
      (fun tmp i =>
         if (N.land device_flags (N.shiftl 1 i) =? 0)%N then tmp
         else tmp ++ printf_s (fwupd_device_flag_to_string (N.shiftl 1 i))
                  ++ "|")
      positions tmp =
    tmp ++
    fold_right
      (fun i rest =>
         printf_s (fwupd_device_flag_to_string (N.shiftl 1 i)) ++ "|" ++ rest)
      ""
      (filter (fun i => negb (N.land device_flags (N.shiftl 1 i) =? 0)%N)
         positions).
Proof.
  induction positions as [|i positions IH]; intros tmp; cbn [fold_left filter].
  - cbn. now rewrite string_app_nil_r.
  - rewrite IH. destruct (N.land device_flags (N.shiftl 1 i) =? 0)%N;
      cbn [negb fold_right]; [reflexivity|].
    now rewrite !string_app_assoc.
Qed.

Lemma flag_names_text_bits_0_3 (name0 name3 : string) :
  fwupd_device_flag_to_string 1%N = Some name0 ->
  fwupd_device_flag_to_string 8%N = Some name3 ->
  flag_names_text fwupd_device_flag_to_string 9 = name0 ++ "|" ++ name3.
Proof.
  intros H0 H3. unfold flag_names_text. cbv zeta.
  rewrite flag_names_loop.
  replace (filter (fun i => negb (N.land 9 (N.shiftl 1 i) =? 0)%N)
             flag_bit_positions) with [0%N; 3%N] by (vm_compute; reflexivity).
  cbn [fold_right].
  change (N.shiftl 1 0) with 1%N. change (N.shiftl 1 3) with 8%N.
  rewrite H0, H3. cbn [printf_s].
  change ("" ++ name0 ++ "|" ++ name3 ++ "|" ++ "")
    with (name0 ++ "|" ++ name3 ++ "|").
  replace (name0 ++ "|" ++ name3 ++ "|") with ((name0 ++ "|" ++ name3) ++ "|")
    by now rewrite !string_app_assoc.
  rewrite string_length_app. cbn [length].
  replace (length (name0 ++ "|" ++ name3) + 1 =? 0)%nat with false
    by (symmetry; apply Nat.eqb_neq; lia).
  rewrite <- (string_length_app _ "|").
  apply g_string_truncate_last.
Qed.


(** ** The buffer as a sequence of lines *)

Lemma pad_kv_str_app (str : GStringLines) (key value : option string) :
  fwupd_pad_kv_str str key value =
  (str ++ fwupd_pad_kv_str [] key value)%list.
Proof using.
  unfold fwupd_pad_kv_str. destruct key, value; cbn [app];
    now rewrite ?app_nil_r.
Qed.

Lemma pad_kv_unx_app (str : GStringLines) (key : option string) (value : N) :
  fwupd_pad_kv_unx unix_utc_date str key value =
  (str ++ fwupd_pad_kv_unx unix_utc_date [] key value)%list.
Proof using.
  unfold fwupd_pad_kv_unx. destruct (value =? 0)%N.
  - now rewrite app_nil_r.
  - apply pad_kv_str_app.
Qed.

Lemma pad_kv_dfl_app (str : GStringLines) (key : string) (device_flags : N) :
  fwupd_pad_kv_dfl fwupd_device_flag_to_string str (Some key) device_flags =
  (str ++ [{| line_key := key;
              line_value :=
                flag_names_text fwupd_device_flag_to_string device_flags |}])
  %list.
Proof using. now rewrite pad_kv_dfl_text. Qed.

Lemma pad_kv_int_flashes (str : GStringLines) (key : string) (value : N) :
  (if (value <? 2)%N then fwupd_pad_kv_int str (Some key) value else str) =
  (str ++ (if (value =? 1)%N
           then [{| line_key := key; line_value := "1" |}] else []))%list.
Proof using.
  unfold fwupd_pad_kv_int.
  destruct (N.ltb_spec value 2) as [Hlt|Hge].
  - destruct (N.eqb_spec value 0) as [->|Hnz].
    + now rewrite app_nil_r.
    + assert (value = 1%N) as -> by lia. reflexivity.
  - destruct (N.eqb_spec value 1) as [->|Hne]; [lia|]. now rewrite app_nil_r.
Qed.

Lemma pad_kv_str_loop_app (key : string) (display : string -> option string)
  (array : list string) :
  forall str,
    fold_left
      (fun str element => fwupd_pad_kv_str str (Some key) (display element))
      array str =
    (str ++ flat_map
              (fun element => fwupd_pad_kv_str [] (Some key) (display element))
              array)%list.
Proof using.
  induction array as [|x array IH]; intros str; cbn [fold_left flat_map].
  - now rewrite app_nil_r.
  - now rewrite IH, pad_kv_str_app, app_assoc.
Qed.

(** The buffer of [fwupd_device_to_string], statement by statement. *)
Lemma to_string_lines_structure (device : FwupdDevice) :
  to_string_lines device =
  (flat_map
     (fun guid =>
        fwupd_pad_kv_str [] (Some (FWUPD_RESULT_KEY_GUID K)) (Some guid))
     (guids device)
   ++ fwupd_pad_kv_str [] (Some (FWUPD_RESULT_KEY_DEVICE_ID K)) (id device)
   ++ fwupd_pad_kv_str [] (Some (FWUPD_RESULT_KEY_DEVICE_DESCRIPTION K))
        (description device)
   ++ fwupd_pad_kv_str [] (Some (FWUPD_RESULT_KEY_DEVICE_PLUGIN K))
        (provider device)
   ++ [{| line_key := FWUPD_RESULT_KEY_DEVICE_FLAGS K;
          line_value :=
            flag_names_text fwupd_device_flag_to_string (flags device) |}]
   ++ flat_map
        (fun checksum =>
           fwupd_pad_kv_str [] (Some (FWUPD_RESULT_KEY_DEVICE_CHECKSUM K))
             (fwupd_checksum_format_for_display checksum))
        (checksums device)
   ++ fwupd_pad_kv_str [] (Some (FWUPD_RESULT_KEY_DEVICE_VENDOR K))
        (vendor device)
   ++ fwupd_pad_kv_str [] (Some (FWUPD_RESULT_KEY_DEVICE_VERSION K))
        (version device)
   ++ fwupd_pad_kv_str [] (Some (FWUPD_RESULT_KEY_DEVICE_VERSION_LOWEST K))
        (version_lowest device)
   ++ fwupd_pad_kv_str [] (Some (FWUPD_RESULT_KEY_DEVICE_VERSION_BOOTLOADER K))
        (version_bootloader device)
   ++ (if (flashes_left device =? 1)%N
       then [{| line_key := FWUPD_RESULT_KEY_DEVICE_FLASHES_LEFT K;
                line_value := "1" |}]
       else [])
   ++ fwupd_pad_kv_unx unix_utc_date [] (Some (FWUPD_RESULT_KEY_DEVICE_CREATED K))
        (created device)
   ++ fwupd_pad_kv_unx unix_utc_date []
        (Some (FWUPD_RESULT_KEY_DEVICE_MODIFIED K)) (modified device))%list.
Proof using.
  cbv beta delta [fwupd_device_to_string_lines].
  etransitivity;
    [ match goal with
      | |- (let x := ?a in @?f x) = _ => apply (let_step a [] f); reflexivity
      end
    | cbv beta ].
  do 12 (etransitivity;
         [ match goal with
           | |- (let x := ?a in @?f x) = _ =>
               eapply (let_step a _ f);
               first [ apply pad_kv_dfl_app
                     | apply pad_kv_unx_app
                     | apply pad_kv_int_flashes
                     | apply pad_kv_str_loop_app
                     | apply pad_kv_str_app ]
           end
         | cbv beta ]).
  cbv zeta. rewrite pad_kv_unx_app. cbn [app].
  rewrite <- !app_assoc. reflexivity.
Qed.

Lemma pad_spaces_repeat (count : nat) :
  pad_spaces count = string_of_list_ascii (repeat " "%char count).
Proof using.
  induction count as [|count IH]; cbn; [reflexivity | now rewrite IH].
Qed.

(** The characters [fwupd_pad_kv_str] appends are the line as the spec words
    it. *)
Lemma pad_line_text_spec (line : PadLine) :
  pad_line_text line = line_text (line_key line) (line_value line).
Proof using.
  unfold pad_line_text, line_text.
  replace (Nat.max 1 (21 - length (line_key line)))
    with (S (20 - length (line_key line))) by lia.
  rewrite pad_spaces_repeat. reflexivity.
Qed.

Lemma lines_under_app (key : string) (str1 str2 : GStringLines) :
  lines_under key (str1 ++ str2)%list =
  (lines_under key str1 ++ lines_under key str2)%list.
Proof using. apply filter_app. Qed.

Lemma lines_under_pad_other (key other : string) (value : option string) :
  other <> key ->
  lines_under key (fwupd_pad_kv_str [] (Some other) value) = [].
Proof using.
  intros Hne. destruct value as [v|]; [|reflexivity].
  cbn. apply String.eqb_neq in Hne. now rewrite Hne.
Qed.

Lemma lines_under_unx_other (key other : string) (value : N) :
  other <> key ->
  lines_under key (fwupd_pad_kv_unx unix_utc_date [] (Some other) value) = [].
Proof using.
  intros Hne. unfold fwupd_pad_kv_unx. destruct (value =? 0)%N.
  - reflexivity.
  - now apply lines_under_pad_other.
Qed.

Lemma lines_under_loop_other (key other : string)
  (display : string -> option string) (array : list string) :
  other <> key ->
  lines_under key
    (flat_map
       (fun element => fwupd_pad_kv_str [] (Some other) (display element))
       array) = [].
Proof using.
  intros Hne. induction array as [|x array IH]; [reflexivity|].
  cbn [flat_map]. now rewrite lines_under_app, IH, lines_under_pad_other.
Qed.

Lemma lines_under_one (key other value : string) :
  lines_under key [{| line_key := other; line_value := value |}] =
  if String.eqb other key
  then [{| line_key := other; line_value := value |}] else [].
Proof using. reflexivity. Qed.

Lemma concat_empty_cons (x : string) (xs : list string) :
  String.concat "" (x :: xs) = x ++ String.concat "" xs.
Proof. destruct xs; simpl; [now rewrite string_app_nil_r | reflexivity]. Qed.

Lemma concat_empty_app (xs ys : list string) :
  String.concat "" (xs ++ ys)%list = String.concat "" xs ++ String.concat "" ys.
Proof.
  induction xs as [|x xs IH].
  - reflexivity.
  - change ((x :: xs) ++ ys)%list with (x :: (xs ++ ys))%list.
    now rewrite !concat_empty_cons, IH, string_app_assoc.
Qed.

(** A line of the buffer is a piece of the returned text. *)
Lemma In_text_has_line (str : GStringLines) (line : PadLine) :
  In line str -> text_has_line (g_string_free str) line.
Proof.
  intros Hin. apply in_split in Hin. destruct Hin as (l1 & l2 & ->).
  exists (g_string_free l1), (g_string_free l2).
  unfold g_string_free. rewrite map_app, concat_empty_app. cbn [map].
  now rewrite concat_empty_cons, pad_line_text_spec.
Qed.

(** Closes a goal in which two different key constants are equal. *)
Ltac key_clash H Hdistinct :=
  lazymatch type of H with
  | ?a = ?b =>
      let i := key_index a in
      let j := key_index b in
      exact (keys_distinct_neq i j Hdistinct
               ltac:(lia) ltac:(lia) ltac:(lia) H)
  end.

(** The lines under one key, read off the structure of the buffer. *)
Ltac lines_under_structure Hdistinct :=
  rewrite to_string_lines_structure; rewrite !lines_under_app;
  rewrite ?lines_under_loop_other by key_neq Hdistinct;
  rewrite ?lines_under_pad_other by key_neq Hdistinct;
  rewrite ?lines_under_unx_other by key_neq Hdistinct.

(** C8, flashes-left cutoff: for distinct key constants, the formatter writes
    under the flashes-left key one line showing ["1"] when [flashes_left] is
    1 and no line otherwise (so none for 0, for 5 or for any value of 2 or
    more); when [flashes_left] is 1 the returned text contains the
    characters of that line: the key after two spaces, a colon, the padding,
    ["1"] and a newline. *)
Theorem flashes_left_cutoff (device : FwupdDevice) :
  keys_distinct K ->
  lines_under (FWUPD_RESULT_KEY_DEVICE_FLASHES_LEFT K)
    (to_string_lines device) =
  (if (flashes_left device =? 1)%N
   then [{| line_key := FWUPD_RESULT_KEY_DEVICE_FLASHES_LEFT K;
            line_value := "1" |}]
   else []) /\
  (forall value,
     In {| line_key := FWUPD_RESULT_KEY_DEVICE_FLASHES_LEFT K;
           line_value := value |} (to_string_lines device) <->
     flashes_left device = 1%N /\ value = "1") /\
  (flashes_left device = 1%N ->
   text_has_line (to_string device)
     {| line_key := FWUPD_RESULT_KEY_DEVICE_FLASHES_LEFT K;
        line_value := "1" |}).
Proof.
  intros Hdistinct.
  assert (Hiff : forall value,
             In {| line_key := FWUPD_RESULT_KEY_DEVICE_FLASHES_LEFT K;
                   line_value := value |} (to_string_lines device) <->
             flashes_left device = 1%N /\ value = "1").
  { intros value. rewrite to_string_lines_In. cbn [line_key line_value]. split.
    - intros H.
      repeat (destruct H as [H|H];
              [ try (destruct H as [H _]; exfalso;
                     key_clash H Hdistinct) | ]).
      + destruct H as (_ & Hlt & Hnz & Hshow). apply N.ltb_lt in Hlt.
        assert (Hone : flashes_left device = 1%N) by lia.
        rewrite Hone in Hshow. now split.
      + destruct H as [H _]. exfalso. key_clash H Hdistinct.
    - intros [Hone ->]. do 10 right. left. rewrite Hone.
      repeat split. discriminate. }
  split; [|split; [exact Hiff|]].
  - lines_under_structure Hdistinct.
    rewrite lines_under_one.
    rewrite (proj2 (String.eqb_neq _ _)) by key_neq Hdistinct.
    cbn [app]. rewrite app_nil_r.
    destruct (flashes_left device =? 1)%N; [|reflexivity].
    rewrite lines_under_one. now rewrite String.eqb_refl.
  - intros Hone. apply In_text_has_line, Hiff. now split.
Qed.

(** C7 as amended, flag formatting: for distinct key constants, a record
    whose flags are exactly bit 0 and bit 3 gets exactly one flags line,
    whose value is the names of the two flags joined by a bar; a record whose
    flags are 0 also gets exactly one flags line, whose value is the name of
    the flag value 0 (empty when the lookup has none); in both cases the
    returned text contains the characters of that line: the key after two
    spaces, a colon, the padding, the value and a newline. *)
Theorem flag_formatting (device : FwupdDevice) :
  keys_distinct K ->
  (forall name0 name3,
     flags device = 9%N ->
     fwupd_device_flag_to_string 1%N = Some name0 ->
     fwupd_device_flag_to_string 8%N = Some name3 ->
     lines_under (FWUPD_RESULT_KEY_DEVICE_FLAGS K) (to_string_lines device) =
     [{| line_key := FWUPD_RESULT_KEY_DEVICE_FLAGS K;
         line_value := name0 ++ "|" ++ name3 |}] /\
     (forall value,
        In {| line_key := FWUPD_RESULT_KEY_DEVICE_FLAGS K;
              line_value := value |} (to_string_lines device) <->
        value = name0 ++ "|" ++ name3) /\
     text_has_line (to_string device)
       {| line_key := FWUPD_RESULT_KEY_DEVICE_FLAGS K;
          line_value := name0 ++ "|" ++ name3 |}) /\
  (flags device = 0%N ->
   lines_under (FWUPD_RESULT_KEY_DEVICE_FLAGS K) (to_string_lines device) =
   [{| line_key := FWUPD_RESULT_KEY_DEVICE_FLAGS K;
       line_value := g_string_append "" (fwupd_device_flag_to_string 0%N) |}] /\
   (forall value,
      In {| line_key := FWUPD_RESULT_KEY_DEVICE_FLAGS K;
            line_value := value |} (to_string_lines device) <->
      value = g_string_append "" (fwupd_device_flag_to_string 0%N)) /\
   text_has_line (to_string device)
     {| line_key := FWUPD_RESULT_KEY_DEVICE_FLAGS K;
        line_value := g_string_append "" (fwupd_device_flag_to_string 0%N) |}).
Proof.
  intros Hdistinct.
  assert (Hiff : forall value,
             In {| line_key := FWUPD_RESULT_KEY_DEVICE_FLAGS K;
                   line_value := value |} (to_string_lines device) <->
             value = flag_names_text fwupd_device_flag_to_string
                       (flags device)).
  { intros value. rewrite to_string_lines_In. cbn [line_key line_value]. split.
    - intros H.
      repeat (destruct H as [H|H];
              [ try (destruct H as [H _]; exfalso;
                     key_clash H Hdistinct) | ]).
      + now destruct H as [_ <-].
      + destruct H as [H _]. exfalso. key_clash H Hdistinct.
    - intros ->. do 4 right. left. now split. }
  assert (Hone :
            lines_under (FWUPD_RESULT_KEY_DEVICE_FLAGS K)
              (to_string_lines device) =
            [{| line_key := FWUPD_RESULT_KEY_DEVICE_FLAGS K;
                line_value :=
                  flag_names_text fwupd_device_flag_to_string
                    (flags device) |}]).
  { lines_under_structure Hdistinct.
    rewrite lines_under_one, String.eqb_refl.
    destruct (flashes_left device =? 1)%N; [|reflexivity].
    rewrite lines_under_one.
    now rewrite (proj2 (String.eqb_neq _ _)) by key_neq Hdistinct. }
  split.
  - intros name0 name3 Hflags H0 H3.
    rewrite Hflags, (flag_names_text_bits_0_3 name0 name3) in Hiff, Hone
      by assumption.
    split; [exact Hone|].
    split; [exact Hiff|]. now apply In_text_has_line, Hiff.
  - intros Hflags. rewrite Hflags, flag_names_text_zero in Hiff, Hone.
    split; [exact Hone|].
    split; [exact Hiff|]. now apply In_text_has_line, Hiff.
Qed.

(** * Further properties of the codec *)

(** The properties of the codec do not involve the helpers of the formatter. *)
Ltac codec_only :=
  clear fwupd_device_flag_to_string fwupd_checksum_format_for_display
    unix_utc_date.

(** ** Reading back any serialized sequence *)

Lemma stage_guids_any (device : FwupdDevice) (array : list string) :
  keys_distinct K ->
  guids device = [] ->
  fwupd_device_set_from_variant_iter K device
    (list_entry (FWUPD_RESULT_KEY_GUID K) array) =
  Some (with_guids device (reread_array array)).
Proof using.
  codec_only.
  intros Hdistinct Hempty. unfold list_entry. destruct array as [|x array].
  - simpl. rewrite <- Hempty. now destruct device.
  - cbn [List.length Nat.ltb Nat.leb fwupd_device_set_from_variant_iter].
    rewrite from_key_value_guid by assumption.
    cbn [g_variant_get_string option_map reread_array].
    rewrite fold_add_guid, Hempty, fold_add_unique. cbn [app existsb negb].
    now rewrite filter_all_true by reflexivity.
Qed.

Lemma stage_checksums_any (device : FwupdDevice) (array : list string) :
  keys_distinct K ->
  checksums device = [] ->
  fwupd_device_set_from_variant_iter K device
    (list_entry (FWUPD_RESULT_KEY_DEVICE_CHECKSUM K) array) =
  Some (with_checksums device (reread_array array)).
Proof using.
  codec_only.
  intros Hdistinct Hempty. unfold list_entry. destruct array as [|x array].
  - simpl. rewrite <- Hempty. now destruct device.
  - cbn [List.length Nat.ltb Nat.leb fwupd_device_set_from_variant_iter].
    rewrite from_key_value_checksum by assumption.
    cbn [g_variant_get_string option_map reread_array].
    rewrite fold_add_checksum, Hempty, fold_add_unique. cbn [app existsb negb].
    now rewrite filter_all_true by reflexivity.
Qed.

Lemma deserialize_serialize_any (r : FwupdDevice) :
  keys_distinct K ->
  deserialize K (serialize K r) =
  Some (with_checksums
          (with_guids (carried_fields r) (reread_array (guids r)))
          (reread_array (checksums r))).
Proof using.
  codec_only.
  intros Hdistinct. unfold deserialize, serialize.
  rewrite to_variant_builder_entries. cbn [app].
  rewrite set_from_variant_iter_app, stage_guids_any
    by (assumption || reflexivity).
  rewrite set_from_variant_iter_app,
    (stage_string _ fwupd_device_set_name name)
    by (intros; first [apply from_key_value_name; assumption
                      | now destruct device | reflexivity]).
  rewrite set_from_variant_iter_app,
    (stage_string _ fwupd_device_set_vendor vendor)
    by (intros; first [apply from_key_value_vendor; assumption
                      | now destruct device | reflexivity]).
  rewrite set_from_variant_iter_app,
    (stage_uint64 _ fwupd_device_set_flags flags)
    by (intros; first [apply from_key_value_flags; assumption
                      | now destruct device | reflexivity]).
  rewrite set_from_variant_iter_app,
    (stage_uint64 _ fwupd_device_set_created created)
    by (intros; first [apply from_key_value_created; assumption
                      | now destruct device | reflexivity]).
  rewrite set_from_variant_iter_app,
    (stage_uint64 _ fwupd_device_set_modified modified)
    by (intros; first [apply from_key_value_modified; assumption
                      | now destruct device | reflexivity]).
  rewrite set_from_variant_iter_app,
    (stage_string _ fwupd_device_set_description description)
    by (intros; first [apply from_key_value_description; assumption
                      | now destruct device | reflexivity]).
  rewrite set_from_variant_iter_app, stage_checksums_any
    by (assumption || reflexivity).
  rewrite set_from_variant_iter_app,
    (stage_string _ fwupd_device_set_provider provider)
    by (intros; first [apply from_key_value_plugin; assumption
                      | now destruct device | reflexivity]).
  rewrite set_from_variant_iter_app,
    (stage_string _ fwupd_device_set_version version)
    by (intros; first [apply from_key_value_version; assumption
                      | now destruct device | reflexivity]).
  rewrite set_from_variant_iter_app,
    (stage_string _ fwupd_device_set_version_lowest version_lowest)
    by (intros; first [apply from_key_value_version_lowest; assumption
                      | now destruct device | reflexivity]).
  rewrite set_from_variant_iter_app,
    (stage_string _ fwupd_device_set_version_bootloader version_bootloader)
    by (intros; first [apply from_key_value_version_bootloader; assumption
                      | now destruct device | reflexivity]).
  rewrite (stage_uint32 _ fwupd_device_set_flashes_left flashes_left)
    by (intros; first [apply from_key_value_flashes_left; assumption
                      | now destruct device | reflexivity]).
  now destruct r.
Qed.

(** X1, scalar fields always round-trip: for distinct key constants and any
    record at all (commas, duplicates or empty strings in the arrays
    included), reading the serialized sequence back never meets a value of
    the wrong type, gives back all eleven serialized scalar fields unchanged,
    and gives for each array the distinct comma-separated tokens of its
    joined string. *)
Theorem scalar_fields_round_trip (r : FwupdDevice) :
  keys_distinct K ->
  exists r',
    deserialize K (serialize K r) = Some r' /\
    name r' = name r /\ vendor r' = vendor r /\ flags r' = flags r /\
    created r' = created r /\ modified r' = modified r /\
    description r' = description r /\ provider r' = provider r /\
    version r' = version r /\ version_lowest r' = version_lowest r /\
    version_bootloader r' = version_bootloader r /\
    flashes_left r' = flashes_left r /\
    guids r' = reread_array (guids r) /\
    checksums r' = reread_array (checksums r).
Proof using.
  codec_only.
  intros Hdistinct. eexists. split; [now apply deserialize_serialize_any|].
  repeat split.
Qed.

(** ** The sequence the serializer writes *)

Ltac subseq_one :=
  first [ apply Subseq_keep, Subseq_nil | apply Subseq_skip, Subseq_nil ].

Lemma Subseq_app {A : Type} (a b c d : list A) :
  Subseq a b -> Subseq c d -> Subseq (a ++ c)%list (b ++ d)%list.
Proof using.
  codec_only.
  intros Hab Hcd. induction Hab; cbn [app].
  - assumption.
  - now constructor.
  - now constructor.
Qed.

Lemma Subseq_In {A : Type} (a b : list A) (x : A) :
  Subseq a b -> In x a -> In x b.
Proof using.
  codec_only.
  intros Hab. induction Hab; cbn [In]; [tauto | tauto | intuition].
Qed.

Lemma Subseq_NoDup {A : Type} (a b : list A) :
  Subseq a b -> NoDup b -> NoDup a.
Proof using.
  codec_only.
  intros Hab. induction Hab; intros Hnd.
  - constructor.
  - inversion Hnd; auto.
  - inversion Hnd as [|? ? Hnotin Hnd']; subst. constructor; [|auto].
    intros Hin. apply Hnotin. now apply (Subseq_In l1 l2).
Qed.

Lemma list_entry_subseq (key : string) (array : list string) :
  Subseq (map fst (list_entry key array)) [key].
Proof using.
  unfold list_entry. destruct (0 <? List.length array)%nat; cbn; subseq_one.
Qed.

Lemma string_entry_subseq (key : string) (o : option string) :
  Subseq (map fst (string_entry key o)) [key].
Proof using. destruct o; cbn; subseq_one. Qed.

Lemma uint64_entry_subseq (key : string) (n : N) :
  Subseq (map fst (uint64_entry key n)) [key].
Proof using. unfold uint64_entry. destruct (0 <? n)%N; cbn; subseq_one. Qed.

Lemma uint32_entry_subseq (key : string) (n : N) :
  Subseq (map fst (uint32_entry key n)) [key].
Proof using. unfold uint32_entry. destruct (0 <? n)%N; cbn; subseq_one. Qed.

(** X2, key order: the keys of the serialized sequence are the thirteen
    codec keys in the serializer's fixed order with some left out, so with
    distinct key constants no key is written twice. *)
Theorem serialized_keys_in_order (device : FwupdDevice) :
  Subseq (map fst (serialize K device)) (codec_keys K) /\
  (keys_distinct K -> NoDup (map fst (serialize K device))).
Proof using.
  codec_only.
  assert (Hsub : Subseq (map fst (serialize K device)) (codec_keys K)).
  { unfold serialize. rewrite to_variant_builder_entries. cbn [app].
    rewrite !map_app.
    change (codec_keys K)
      with ([FWUPD_RESULT_KEY_GUID K]
            ++ [FWUPD_RESULT_KEY_DEVICE_NAME K]
            ++ [FWUPD_RESULT_KEY_DEVICE_VENDOR K]
            ++ [FWUPD_RESULT_KEY_DEVICE_FLAGS K]
            ++ [FWUPD_RESULT_KEY_DEVICE_CREATED K]
            ++ [FWUPD_RESULT_KEY_DEVICE_MODIFIED K]
            ++ [FWUPD_RESULT_KEY_DEVICE_DESCRIPTION K]
            ++ [FWUPD_RESULT_KEY_DEVICE_CHECKSUM K]
            ++ [FWUPD_RESULT_KEY_DEVICE_PLUGIN K]
            ++ [FWUPD_RESULT_KEY_DEVICE_VERSION K]
            ++ [FWUPD_RESULT_KEY_DEVICE_VERSION_LOWEST K]
            ++ [FWUPD_RESULT_KEY_DEVICE_VERSION_BOOTLOADER K]
            ++ [FWUPD_RESULT_KEY_DEVICE_FLASHES_LEFT K])%list.
    repeat (apply Subseq_app;
            [ first [ apply list_entry_subseq | apply string_entry_subseq
                    | apply uint64_entry_subseq | apply uint32_entry_subseq ]
            | ]).
    apply uint32_entry_subseq. }
  split; [exact Hsub|].
  intros Hdistinct. apply (Subseq_NoDup _ _ Hsub). now inversion Hdistinct.
Qed.

Lemma list_entry_value (k key : string) (array : list string)
  (value : GVariant) :
  In (key, value) (list_entry k array) ->
  key = k /\ exists s, value = GVString s.
Proof using.
  codec_only.
  unfold list_entry. destruct (0 <? List.length array)%nat; cbn; [|tauto].
  intros [H|[]]. injection H as <- <-.
  split; [reflexivity | eexists; reflexivity].
Qed.

Lemma string_entry_value (k key : string) (o : option string)
  (value : GVariant) :
  In (key, value) (string_entry k o) ->
  key = k /\ exists s, value = GVString s.
Proof using.
  codec_only.
  destruct o; cbn; [|tauto]. intros [H|[]]. injection H as <- <-.
  split; [reflexivity | eexists; reflexivity].
Qed.

Lemma uint64_entry_value (k key : string) (n : N) (value : GVariant) :
  In (key, value) (uint64_entry k n) ->
  key = k /\ exists m, value = GVUint64 m.
Proof using.
  codec_only.
  unfold uint64_entry. destruct (0 <? n)%N; cbn; [|tauto].
  intros [H|[]]. injection H as <- <-.
  split; [reflexivity | eexists; reflexivity].
Qed.

Lemma uint32_entry_value (k key : string) (n : N) (value : GVariant) :
  In (key, value) (uint32_entry k n) ->
  key = k /\ exists m, value = GVUint32 m.
Proof using.
  codec_only.
  unfold uint32_entry. destruct (0 <? n)%N; cbn; [|tauto].
  intros [H|[]]. injection H as <- <-.
  split; [reflexivity | eexists; reflexivity].
Qed.

(** X3, wire types: for distinct key constants, every pair the serializer
    writes holds a value of the variant type under which the deserializer
    reads its key: unsigned 64 for flags, created and modified, unsigned 32
    for flashes_left, a string for the rest. *)
Theorem serialized_values_well_typed (device : FwupdDevice) :
  keys_distinct K ->
  dict_well_typed K (serialize K device).
Proof using.
  codec_only.
  intros Hdistinct. unfold dict_well_typed. apply Forall_forall.
  intros [key value] Hin field Hfield. cbn [fst snd] in *.
  unfold serialize in Hin. rewrite to_variant_builder_entries in Hin.
  cbn [app] in Hin. rewrite !in_app_iff in Hin.
  repeat (destruct Hin as [Hin|Hin];
          [ first [ apply list_entry_value in Hin
                  | apply string_entry_value in Hin
                  | apply uint64_entry_value in Hin
                  | apply uint32_entry_value in Hin ];
            destruct Hin as [-> [payload ->]];
            destruct field; cbn in Hfield; try discriminate;
            try (now exists payload);
            exfalso; injection Hfield as Hfield; key_clash Hfield Hdistinct
          | ]).
  apply uint32_entry_value in Hin. destruct Hin as [-> [payload ->]].
  destruct field; cbn in Hfield; try discriminate; try (now exists payload);
    exfalso; injection Hfield as Hfield; key_clash Hfield Hdistinct.
Qed.

(** ** Reading any mapping *)

Lemma from_key_value_defined (device : FwupdDevice) (key : string)
  (value : GVariant) :
  keys_distinct K ->
  (forall field, field_key K field = Some key -> well_typed_for field value) ->
  exists device', fwupd_device_from_key_value K device key value = Some device'.
Proof using.
  intros Hdistinct Htyped.
  destruct (in_dec string_dec key (codec_keys K)) as [Hin|Hnot].
  - cbn [codec_keys In] in Hin.
    repeat (destruct Hin as [Hin|Hin]; [symmetry in Hin|]); try contradiction;
      subst key.
    + destruct (Htyped FieldGuids eq_refl) as [s ->].
      rewrite from_key_value_guid by assumption. cbn. eexists; reflexivity.
    + destruct (Htyped FieldName eq_refl) as [s ->].
      rewrite from_key_value_name by assumption. cbn. eexists; reflexivity.
    + destruct (Htyped FieldVendor eq_refl) as [s ->].
      rewrite from_key_value_vendor by assumption. cbn. eexists; reflexivity.
    + destruct (Htyped FieldFlags eq_refl) as [s ->].
      rewrite from_key_value_flags by assumption. cbn. eexists; reflexivity.
    + destruct (Htyped FieldCreated eq_refl) as [s ->].
      rewrite from_key_value_created by assumption. cbn. eexists; reflexivity.
    + destruct (Htyped FieldModified eq_refl) as [s ->].
      rewrite from_key_value_modified by assumption. cbn. eexists; reflexivity.
    + destruct (Htyped FieldDescription eq_refl) as [s ->].
      rewrite from_key_value_description by assumption. cbn. eexists; reflexivity.
    + destruct (Htyped FieldChecksums eq_refl) as [s ->].
      rewrite from_key_value_checksum by assumption. cbn. eexists; reflexivity.
    + destruct (Htyped FieldProvider eq_refl) as [s ->].
      rewrite from_key_value_plugin by assumption. cbn. eexists; reflexivity.
    + destruct (Htyped FieldVersion eq_refl) as [s ->].
      rewrite from_key_value_version by assumption. cbn. eexists; reflexivity.
    + destruct (Htyped FieldVersionLowest eq_refl) as [s ->].
      rewrite from_key_value_version_lowest by assumption. cbn. eexists; reflexivity.
    + destruct (Htyped FieldVersionBootloader eq_refl) as [s ->].
      rewrite from_key_value_version_bootloader by assumption. cbn. eexists; reflexivity.
    + destruct (Htyped FieldFlashesLeft eq_refl) as [s ->].
      rewrite from_key_value_flashes_left by assumption. cbn. eexists; reflexivity.
  - rewrite from_key_value_unknown by assumption. eexists; reflexivity.
Qed.

Lemma set_from_variant_iter_defined (dict : GVariantDict) :
  keys_distinct K -> dict_well_typed K dict ->
  forall device,
  exists device', fwupd_device_set_from_variant_iter K device dict = Some device'.
Proof using.
  intros Hdistinct Htyped.
  induction Htyped as [|[key value] dict Hentry Hrest IH]; intros device.
  - cbn. eexists; reflexivity.
  - cbn [fwupd_device_set_from_variant_iter].
    destruct (from_key_value_defined device key value Hdistinct Hentry)
      as [device' ->].
    apply IH.
Qed.

(** X4, well-typed mappings always load: for distinct key constants, a
    mapping in which every pair with a codec key holds a value of that key's
    wire type, whatever other keys it holds, is read without a warning into a
    record, in each of the three envelope shapes; the bare and the tuple
    shape give the same record, and the id-keyed shape gives a record whose
    [id] is the outer key and whose other fields are those of that record. *)
Theorem well_typed_mapping_loads (dict : GVariantDict) (id_ : string) :
  keys_distinct K ->
  dict_well_typed K dict ->
  exists dev dev_id,
    fwupd_device_new_from_data K (GVDict dict) =
    Some {| returned_device := Some dev; warnings := [] |} /\
    fwupd_device_new_from_data K (GVTupleDict dict) =
    Some {| returned_device := Some dev; warnings := [] |} /\
    fwupd_device_new_from_data K (GVIdDict id_ dict) =
    Some {| returned_device := Some dev_id; warnings := [] |} /\
    id dev_id = Some id_ /\
    agree_except_id dev_id dev.
Proof using.
  codec_only.
  intros Hdistinct Htyped.
  destruct (set_from_variant_iter_defined dict Hdistinct Htyped
              fwupd_device_new) as [dev Hdev].
  exists dev, (fwupd_device_set_id dev (Some id_)).
  change (fwupd_device_new_from_data K (GVDict dict))
    with (option_map
            (fun dev => {| returned_device := Some dev; warnings := [] |})
            (fwupd_device_set_from_variant_iter K fwupd_device_new dict)).
  change (fwupd_device_new_from_data K (GVTupleDict dict))
    with (option_map
            (fun dev => {| returned_device := Some dev; warnings := [] |})
            (fwupd_device_set_from_variant_iter K fwupd_device_new dict)).
  change (fwupd_device_new_from_data K (GVIdDict id_ dict))
    with (option_map
            (fun dev => {| returned_device := Some dev; warnings := [] |})
            (fwupd_device_set_from_variant_iter K
               (fwupd_device_set_id fwupd_device_new (Some id_)) dict)).
  rewrite set_from_variant_iter_set_id, Hdev. cbn.
  split; [reflexivity|]. split; [reflexivity|]. split; [reflexivity|].
  split; [reflexivity|]. unfold agree_except_id. repeat split.
Qed.

Lemma fold_add_unique_NoDup (values acc : list string) :
  NoDup acc -> NoDup (fold_left add_unique values acc).
Proof using.
  codec_only.
  revert acc. induction values as [|v values IH]; intros acc Hnd; cbn.
  - assumption.
  - apply IH. now apply add_unique_NoDup.
Qed.

Lemma from_key_value_NoDup (device device' : FwupdDevice) (key : string)
  (value : GVariant) :
  fwupd_device_from_key_value K device key value = Some device' ->
  NoDup (guids device) /\ NoDup (checksums device) ->
  NoDup (guids device') /\ NoDup (checksums device').
Proof using.
  codec_only.
  unfold fwupd_device_from_key_value.
  repeat match goal with
         | |- context [String.eqb key ?b] => destruct (String.eqb key b)
         end;
    destruct value; cbn [g_variant_get_string g_variant_get_uint64
                         g_variant_get_uint32 option_map];
    try discriminate; intros [= <-]; try (intros H; exact H).
  - rewrite fold_add_guid. cbn [guids checksums with_guids].
    intros [Hg Hc]. split; [now apply fold_add_unique_NoDup | assumption].
  - rewrite fold_add_checksum. cbn [guids checksums with_checksums].
    intros [Hg Hc]. split; [assumption | now apply fold_add_unique_NoDup].
Qed.

Lemma set_from_variant_iter_NoDup (dict : GVariantDict) :
  forall device device',
    fwupd_device_set_from_variant_iter K device dict = Some device' ->
    NoDup (guids device) /\ NoDup (checksums device) ->
    NoDup (guids device') /\ NoDup (checksums device').
Proof using.
  codec_only.
  induction dict as [|[key value] dict IH]; intros device device'; cbn.
  - now intros [= <-].
  - destruct (fwupd_device_from_key_value K device key value) as [d1|] eqn:H1;
      [|discriminate].
    intros Hrest Hnd. apply (IH d1 device' Hrest).
    now apply (from_key_value_NoDup device d1 key value).
Qed.

(** X5, the deserializer keeps the arrays duplicate-free: whatever variant
    [fwupd_device_new_from_data] is given (repeated keys, repeated tokens
    inside a guid or checksum string, any key constants), the record it
    returns has no guid and no checksum twice. *)
Theorem deserialized_arrays_duplicate_free (data : GVariantData)
  (result : FromDataResult) (dev : FwupdDevice) :
  fwupd_device_new_from_data K data = Some result ->
  returned_device result = Some dev ->
  NoDup (guids dev) /\ NoDup (checksums dev).
Proof using.
  assert (Hfresh : forall id_,
             NoDup (guids (fwupd_device_set_id fwupd_device_new id_)) /\
             NoDup (checksums (fwupd_device_set_id fwupd_device_new id_)))
    by (intros; split; constructor).
  assert (Hnew : NoDup (guids fwupd_device_new) /\
                 NoDup (checksums fwupd_device_new))
    by (split; constructor).
  unfold fwupd_device_new_from_data. cbv zeta.
  destruct (g_variant_get_type_string data =? "(a{sv})").
  { destruct (tuple_dict_iter data) as [iter|]; [|discriminate].
    destruct (fwupd_device_set_from_variant_iter K fwupd_device_new iter)
      as [d|] eqn:Hd; [|discriminate].
    intros [= <-] [= <-].
    exact (set_from_variant_iter_NoDup iter _ _ Hd Hnew). }
  destruct (g_variant_get_type_string data =? "a{sv}").
  { destruct (dict_iter data) as [iter|]; [|discriminate].
    destruct (fwupd_device_set_from_variant_iter K fwupd_device_new iter)
      as [d|] eqn:Hd; [|discriminate].
    intros [= <-] [= <-].
    exact (set_from_variant_iter_NoDup iter _ _ Hd Hnew). }
  destruct (g_variant_get_type_string data =? "{sa{sv}}").
  { destruct (id_dict_iter data) as [[id_ iter]|]; [|discriminate].
    destruct (fwupd_device_set_from_variant_iter K
                (fwupd_device_set_id fwupd_device_new (Some id_)) iter)
      as [d|] eqn:Hd; [|discriminate].
    intros [= <-] [= <-].
    exact (set_from_variant_iter_NoDup iter _ _ Hd (Hfresh (Some id_))). }
  intros [= <-]. discriminate.
Qed.

Lemma known_key_check (key : string) :
  existsb (fun k => String.eqb key k) (codec_keys K) = false ->
  ~ In key (codec_keys K).
Proof using.
  codec_only.
  intros Hcheck Hin.
  assert (existsb (fun k => String.eqb key k) (codec_keys K) = true);
    [|congruence].
  apply existsb_exists. exists key. now rewrite String.eqb_refl.
Qed.

(** X6, unknown keys never matter: reading a mapping gives the same outcome
    as reading it with every pair whose key is not a codec key removed,
    however many there are and wherever they stand. *)
Theorem unknown_pairs_ignored (dict : GVariantDict) (device : FwupdDevice) :
  fwupd_device_set_from_variant_iter K device dict =
  fwupd_device_set_from_variant_iter K device (known_pairs K dict).
Proof using.
  codec_only.
  revert device. induction dict as [|[key value] dict IH]; intros device.
  - reflexivity.
  - cbn [known_pairs filter fst]. fold (known_pairs K dict).
    destruct (existsb (fun k => key =? k) (codec_keys K)) eqn:Hknown.
    + cbn [fwupd_device_set_from_variant_iter].
      destruct (fwupd_device_from_key_value K device key value);
        [apply IH | reflexivity].
    + cbn [fwupd_device_set_from_variant_iter].
      rewrite from_key_value_unknown by now apply known_key_check.
      apply IH.
Qed.

(** X7, the last pair wins: for distinct key constants and a scalar field,
    two pairs under the field's key, both of its wire type, leave the record
    as the second pair alone does. *)
Theorem repeated_scalar_key_last_wins (field : DeviceField) (key : string)
  (value1 value2 : GVariant) (device : FwupdDevice) :
  keys_distinct K ->
  scalar_field field ->
  field_key K field = Some key ->
  well_typed_for field value1 ->
  well_typed_for field value2 ->
  fwupd_device_set_from_variant_iter K device [(key, value1); (key, value2)] =
  fwupd_device_set_from_variant_iter K device [(key, value2)].
Proof using.
  intros Hdistinct [Hg Hc] Hkey H1 H2.
  destruct field; cbn in Hkey; try discriminate; try congruence;
    destruct H1 as [p1 ->], H2 as [p2 ->];
    injection Hkey as <-; cbn [fwupd_device_set_from_variant_iter];
    first [ rewrite !from_key_value_created by assumption
          | rewrite !from_key_value_modified by assumption
          | rewrite !from_key_value_flags by assumption
          | rewrite !from_key_value_name by assumption
          | rewrite !from_key_value_description by assumption
          | rewrite !from_key_value_vendor by assumption
          | rewrite !from_key_value_plugin by assumption
          | rewrite !from_key_value_version by assumption
          | rewrite !from_key_value_version_lowest by assumption
          | rewrite !from_key_value_version_bootloader by assumption
          | rewrite !from_key_value_flashes_left by assumption ];
    cbn [g_variant_get_string g_variant_get_uint64 g_variant_get_uint32
         option_map];
    first [ rewrite !from_key_value_created by assumption
          | rewrite !from_key_value_modified by assumption
          | rewrite !from_key_value_flags by assumption
          | rewrite !from_key_value_name by assumption
          | rewrite !from_key_value_description by assumption
          | rewrite !from_key_value_vendor by assumption
          | rewrite !from_key_value_plugin by assumption
          | rewrite !from_key_value_version by assumption
          | rewrite !from_key_value_version_lowest by assumption
          | rewrite !from_key_value_version_bootloader by assumption
          | rewrite !from_key_value_flashes_left by assumption ];
    reflexivity.
Qed.

(** ** [fwupd_device_to_data] *)


(** X9, round trip through the variant: for distinct key constants and a
    record whose arrays read back unchanged, whatever variant
    [fwupd_device_to_data] returns is read by [fwupd_device_new_from_data]
    without a warning into the record's carried fields, and so into the
    record itself when id, appstream_id, summary and homepage are unset. *)
Theorem to_data_round_trip (r : FwupdDevice) (type_string : string)
  (data : GVariantData) :
  keys_distinct K ->
  array_round_trips (guids r) ->
  array_round_trips (checksums r) ->
  fwupd_device_to_data K r type_string = Some data ->
  fwupd_device_new_from_data K data =
  Some {| returned_device := Some (carried_fields r); warnings := [] |}.
Proof using.
  codec_only.
  intros Hdistinct Hguids Hchecksums.
  unfold fwupd_device_to_data. cbv zeta. fold (serialize K r).
  pose proof (deserialize_serialize Hdistinct r Hguids Hchecksums) as Hrt.
  unfold deserialize in Hrt.
  destruct (type_string =? "a{sv}").
  - intros [= <-].
    change (fwupd_device_new_from_data K (GVDict (serialize K r)))
      with (option_map
              (fun dev => {| returned_device := Some dev; warnings := [] |})
              (fwupd_device_set_from_variant_iter K fwupd_device_new
                 (serialize K r))).
    now rewrite Hrt.
  - destruct (type_string =? "(a{sv})"); [|discriminate].
    intros [= <-].
    change (fwupd_device_new_from_data K (GVTupleDict (serialize K r)))
      with (option_map
              (fun dev => {| returned_device := Some dev; warnings := [] |})
              (fwupd_device_set_from_variant_iter K fwupd_device_new
                 (serialize K r))).
    now rewrite Hrt.
Qed.

(** X10, the id travels in the envelope: for distinct key constants and a
    record whose arrays read back unchanged, the id-keyed envelope built from
    an id and the record's serialized sequence is read without a warning into
    a record whose [id] is that id and whose other fields are the record's
    carried fields. *)
Theorem id_keyed_round_trip (r : FwupdDevice) (id_ : string) :
  keys_distinct K ->
  array_round_trips (guids r) ->
  array_round_trips (checksums r) ->
  exists dev,
    fwupd_device_new_from_data K (GVIdDict id_ (serialize K r)) =
    Some {| returned_device := Some dev; warnings := [] |} /\
    id dev = Some id_ /\
    agree_except_id dev (carried_fields r).
Proof using.
  codec_only.
  intros Hdistinct Hguids Hchecksums.
  pose proof (deserialize_serialize Hdistinct r Hguids Hchecksums) as Hrt.
  unfold deserialize in Hrt.
  exists (fwupd_device_set_id (carried_fields r) (Some id_)).
  change (fwupd_device_new_from_data K (GVIdDict id_ (serialize K r)))
    with (option_map
            (fun dev => {| returned_device := Some dev; warnings := [] |})
            (fwupd_device_set_from_variant_iter K
               (fwupd_device_set_id fwupd_device_new (Some id_))
               (serialize K r))).
  rewrite set_from_variant_iter_set_id, Hrt.
  split; [reflexivity|]. split; [reflexivity|].
  unfold agree_except_id. repeat split.
Qed.

(** ** Guids *)

Lemma has_guid_In (device : FwupdDevice) (guid : string) :
  fwupd_device_has_guid device guid = true <-> In guid (guids device).
Proof using.
  codec_only.
  unfold fwupd_device_has_guid. rewrite existsb_exists. split.
  - intros (g & Hin & Heq). apply String.eqb_eq in Heq. now subst.
  - intros Hin. exists guid. now rewrite String.eqb_refl.
Qed.

(** X11, adding a guid: [fwupd_device_has_guid] is true exactly for the
    guids of the array; after [fwupd_device_add_guid] the guid is there,
    every guid that was there still is, no other guid has appeared, and a
    second add of the same guid changes nothing. *)
Theorem add_guid_membership (device : FwupdDevice) (guid : string) :
  (forall g, fwupd_device_has_guid device g = true <-> In g (guids device)) /\
  fwupd_device_has_guid (fwupd_device_add_guid device guid) guid = true /\
  (forall g,
     fwupd_device_has_guid (fwupd_device_add_guid device guid) g = true <->
     g = guid \/ fwupd_device_has_guid device g = true) /\
  fwupd_device_add_guid (fwupd_device_add_guid device guid) guid =
  fwupd_device_add_guid device guid.
Proof using.
  codec_only.
  assert (Hmem : forall g,
             fwupd_device_has_guid (fwupd_device_add_guid device guid) g = true
             <-> g = guid \/ fwupd_device_has_guid device g = true).
  { intros g. rewrite !has_guid_In, guids_add_guid.
    cbn [guids with_guids]. unfold add_unique.
    destruct (existsb (fun y => guid =? y) (guids device)) eqn:Hhas.
    - split; [tauto|]. intros [->|H]; [|assumption].
      now apply has_guid_In.
    - rewrite in_app_iff. cbn [In]. split; intuition. }
  split; [apply has_guid_In|]. split; [apply Hmem; now left|].
  split; [exact Hmem|].
  unfold fwupd_device_add_guid at 1.
  replace (fwupd_device_has_guid (fwupd_device_add_guid device guid) guid)
    with true; [reflexivity|].
  symmetry. apply Hmem. now left.
Qed.

(** X12, the default guid: after any sequence of add calls on a fresh
    record, [fwupd_device_get_guid_default] is the guid of the first
    [fwupd_device_add_guid] call, NULL when there was none; and once a record
    has a guid, a further add does not change the default. *)
Theorem guid_default_is_first_added :
  (forall calls,
     fwupd_device_get_guid_default (run_add_calls fwupd_device_new calls) =
     hd_error (guid_args calls)) /\
  (forall device guid,
     guids device <> [] ->
     fwupd_device_get_guid_default (fwupd_device_add_guid device guid) =
     fwupd_device_get_guid_default device).
Proof using.
  codec_only.
  split.
  - intros calls. rewrite run_add_calls_arrays.
    unfold fwupd_device_get_guid_default.
    cbn [guids checksums with_guids with_checksums fwupd_device_new].
    rewrite fold_add_unique. cbn [app existsb negb].
    rewrite filter_all_true by reflexivity.
    now destruct (guid_args calls).
  - intros device guid Hne. rewrite guids_add_guid.
    unfold fwupd_device_get_guid_default, add_unique.
    cbn [guids with_guids].
    destruct (existsb (fun y => guid =? y) (guids device)); [reflexivity|].
    destruct (guids device); [now contradiction Hne | reflexivity].
Qed.

(** ** Flags *)

Lemma set_flags_ext (device : FwupdDevice) (a b : N) :
  a = b -> fwupd_device_set_flags device a = fwupd_device_set_flags device b.
Proof using. codec_only. now intros ->. Qed.

(** X13, composing the flag operations: for a record and a flag mask within
    64 bits, adding twice is adding once, removing twice is removing once,
    removing after adding is removing, adding after removing is adding, and
    removing a mask just added to a record that had none of its bits gives
    the record back. *)
Theorem flag_operations_compose (device : FwupdDevice) (flag : N) :
  flags_in_range device ->
  (flag < 2 ^ 64)%N ->
  (fwupd_device_add_flag (fwupd_device_add_flag device flag) flag =
   fwupd_device_add_flag device flag) /\
  (fwupd_device_remove_flag (fwupd_device_remove_flag device flag) flag =
   fwupd_device_remove_flag device flag) /\
  (fwupd_device_remove_flag (fwupd_device_add_flag device flag) flag =
   fwupd_device_remove_flag device flag) /\
  (fwupd_device_add_flag (fwupd_device_remove_flag device flag) flag =
   fwupd_device_add_flag device flag) /\
  (N.land (flags device) flag = 0%N ->
   fwupd_device_remove_flag (fwupd_device_add_flag device flag) flag =
   device).
Proof using.
  codec_only.
  unfold fwupd_device_add_flag, fwupd_device_remove_flag, flags_in_range.
  cbn [flags fwupd_device_set_flags]. intros Hd Hf.
  assert (Hbits : forall j,
             N.testbit (N.lnot flag 64) j =
             if (j <? 64)%N then negb (N.testbit flag j) else false).
  { intros j. destruct (N.ltb_spec j 64) as [Hj|Hj].
    - now apply N.lnot_spec_low.
    - rewrite N.lnot_spec_high by assumption.
      now apply in_range_high_bits. }
  assert (Hhigh : forall j, (j <? 64)%N = false ->
             N.testbit (flags device) j = false).
  { intros j Hj. apply in_range_high_bits; [assumption|].
    now apply N.ltb_ge. }
  repeat split.
  - apply (set_flags_ext device). apply N.bits_inj. intros j.
    rewrite !N.lor_spec. now destruct (N.testbit (flags device) j),
      (N.testbit flag j).
  - apply (set_flags_ext device). apply N.bits_inj. intros j.
    rewrite !N.land_spec. now destruct (N.testbit (flags device) j),
      (N.testbit (N.lnot flag 64) j).
  - apply (set_flags_ext device). apply N.bits_inj. intros j.
    rewrite !N.land_spec, N.lor_spec, Hbits.
    destruct (j <? 64)%N;
      now destruct (N.testbit (flags device) j), (N.testbit flag j).
  - apply (set_flags_ext device). apply N.bits_inj. intros j.
    rewrite !N.lor_spec, N.land_spec, Hbits.
    destruct (j <? 64)%N eqn:Hj.
    + now destruct (N.testbit (flags device) j), (N.testbit flag j).
    + rewrite (Hhigh j Hj). reflexivity.
  - intros Hnone.
    replace (N.land (N.lor (flags device) flag) (N.lnot flag 64))
      with (flags device); [now destruct device|].
    apply N.bits_inj. intros j.
    rewrite N.land_spec, N.lor_spec, Hbits.
    assert (Hj0 : (N.testbit (flags device) j && N.testbit flag j)%bool = false)
      by (rewrite <- N.land_spec, Hnone; apply N.bits_0).
    destruct (j <? 64)%N eqn:Hj.
    + now destruct (N.testbit (flags device) j), (N.testbit flag j).
    + rewrite (Hhigh j Hj). now rewrite andb_false_r.
Qed.

(** X22, the flags stay a 64-bit value: any sequence of
    [fwupd_device_add_flag] and [fwupd_device_remove_flag] calls with 64-bit
    masks on a record whose flags fit in 64 bits leaves flags that fit in 64
    bits, and changes no other field. *)
Theorem flags_stay_in_range (calls : list FlagCall) :
  forall device,
    flags_in_range device ->
    Forall (fun call => (flag_call_mask call < 2 ^ 64)%N) calls ->
    flags_in_range (run_flag_calls device calls) /\
    run_flag_calls device calls =
    fwupd_device_set_flags device (flags (run_flag_calls device calls)).
Proof using.
  codec_only. unfold run_flag_calls.
  induction calls as [|call calls IH]; intros device Hrange Hmasks.
  - cbn. split; [assumption | now destruct device].
  - inversion Hmasks as [|? ? Hmask Hrest]; subst. cbn [fold_left].
    assert (Hstep : flags_in_range (run_flag_call device call)).
    { destruct call as [flag|flag]; cbn [run_flag_call flag_call_mask] in *.
      - now apply flag_operations_in_range.
      - now apply flag_operations_in_range. }
    destruct (IH (run_flag_call device call) Hstep Hrest) as [Hr Heq].
    split; [exact Hr|].
    rewrite Heq at 1. now destruct call.
Qed.

(** * Further properties of the formatter *)

(** X14, the lines and their order: the buffer of [fwupd_device_to_string]
    is, in this order, one line per guid, the id, description and plugin
    lines (each only if the string is set), the flags line (always), one
    line per checksum whose display form is not NULL, the vendor, version,
    lowest-version and bootloader-version lines (if set), a flashes-left line
    only when the value is 1, and the created and modified lines (if not 0
    and the date can be formatted). *)
Theorem to_string_line_order (device : FwupdDevice) :
  to_string_lines device =
  (flat_map
     (fun guid =>
        fwupd_pad_kv_str [] (Some (FWUPD_RESULT_KEY_GUID K)) (Some guid))
     (guids device)
   ++ fwupd_pad_kv_str [] (Some (FWUPD_RESULT_KEY_DEVICE_ID K)) (id device)
   ++ fwupd_pad_kv_str [] (Some (FWUPD_RESULT_KEY_DEVICE_DESCRIPTION K))
        (description device)
   ++ fwupd_pad_kv_str [] (Some (FWUPD_RESULT_KEY_DEVICE_PLUGIN K))
        (provider device)
   ++ [{| line_key := FWUPD_RESULT_KEY_DEVICE_FLAGS K;
          line_value :=
            flag_names_text fwupd_device_flag_to_string (flags device) |}]
   ++ flat_map
        (fun checksum =>
           fwupd_pad_kv_str [] (Some (FWUPD_RESULT_KEY_DEVICE_CHECKSUM K))
             (fwupd_checksum_format_for_display checksum))
        (checksums device)
   ++ fwupd_pad_kv_str [] (Some (FWUPD_RESULT_KEY_DEVICE_VENDOR K))
        (vendor device)
   ++ fwupd_pad_kv_str [] (Some (FWUPD_RESULT_KEY_DEVICE_VERSION K))
        (version device)
   ++ fwupd_pad_kv_str [] (Some (FWUPD_RESULT_KEY_DEVICE_VERSION_LOWEST K))
        (version_lowest device)
   ++ fwupd_pad_kv_str [] (Some (FWUPD_RESULT_KEY_DEVICE_VERSION_BOOTLOADER K))
        (version_bootloader device)
   ++ (if (flashes_left device =? 1)%N
       then [{| line_key := FWUPD_RESULT_KEY_DEVICE_FLASHES_LEFT K;
                line_value := "1" |}]
       else [])
   ++ fwupd_pad_kv_unx unix_utc_date [] (Some (FWUPD_RESULT_KEY_DEVICE_CREATED K))
        (created device)
   ++ fwupd_pad_kv_unx unix_utc_date []
        (Some (FWUPD_RESULT_KEY_DEVICE_MODIFIED K)) (modified device))%list.
Proof using.
  cbv beta delta [fwupd_device_to_string_lines].
  etransitivity;
    [ match goal with
      | |- (let x := ?a in @?f x) = _ => apply (let_step a [] f); reflexivity
      end
    | cbv beta ].
  do 12 (etransitivity;
         [ match goal with
           | |- (let x := ?a in @?f x) = _ =>
               eapply (let_step a _ f);
               first [ apply pad_kv_dfl_app
                     | apply pad_kv_unx_app
                     | apply pad_kv_int_flashes
                     | apply pad_kv_str_loop_app
                     | apply pad_kv_str_app ]
           end
         | cbv beta ]).
  cbv zeta. rewrite pad_kv_unx_app. cbn [app].
  rewrite <- !app_assoc. reflexivity.
Qed.

Lemma pad_spaces_length (count : nat) : length (pad_spaces count) = count.
Proof using. induction count as [|count IH]; cbn; [reflexivity | now rewrite IH]. Qed.

Lemma substring_skip (p s : string) (n : nat) :
  substring (length p) n (p ++ s) = substring 0 n s.
Proof using. induction p as [|c p IH]; cbn; [reflexivity | exact IH]. Qed.

(** X15, the value column: the text [fwupd_pad_kv_str] appends for a line
    is two spaces, the key, a colon, spaces up to column 24 but at least one,
    the value and one newline; so the value starts after
    [4 + max (20, strlen (key))] characters, in a fixed column for every key
    of at most 20 characters, and the newline is the last character. *)
Theorem pad_line_value_column (line : PadLine) :
  let column := 4 + Nat.max 20 (length (line_key line)) in
  pad_line_text line = line_text (line_key line) (line_value line) /\
  substring column (length (line_value line)) (pad_line_text line) =
  line_value line /\
  substring (column + length (line_value line)) 1 (pad_line_text line) =
  String (ascii_of_nat 10) "" /\
  length (pad_line_text line) = column + length (line_value line) + 1 /\
  (length (line_key line) <= 20 -> column = 24).
Proof using.
  cbv zeta. split; [apply pad_line_text_spec|].
  unfold pad_line_text.
  set (prefix := "  " ++ line_key line ++ ": "
                 ++ pad_spaces (20 - length (line_key line))).
  assert (Hprefix : length prefix = 4 + Nat.max 20 (length (line_key line))).
  { unfold prefix. rewrite !string_length_app, pad_spaces_length.
    cbn [length]. lia. }
  assert (Htext : "  " ++ line_key line ++ ": "
                  ++ pad_spaces (20 - length (line_key line))
                  ++ line_value line ++ String (ascii_of_nat 10) "" =
                  prefix ++ line_value line ++ String (ascii_of_nat 10) "").
  { unfold prefix. now rewrite !string_app_assoc. }
  rewrite Htext. split; [|split; [|split]].
  - rewrite <- Hprefix, substring_skip. apply substring_prefix.
  - rewrite <- Hprefix, <- string_length_app, <- string_app_assoc.
    rewrite substring_skip. reflexivity.
  - rewrite !string_length_app, Hprefix. cbn [length]. lia.
  - lia.
Qed.

Lemma names_fold_concat (show : N -> string) (positions : list N) :
  positions <> [] ->
  fold_right (fun i rest => show i ++ "|" ++ rest) "" positions =
  String.concat "|" (map show positions) ++ "|".
Proof using.
  destruct positions as [|i positions]; intros Hne; [now contradiction Hne|].
  clear Hne. revert i. induction positions as [|i' positions IH]; intros i.
  - reflexivity.
  - change (fold_right (fun i rest => show i ++ "|" ++ rest) ""
              (i :: i' :: positions))
      with (show i ++ "|"
            ++ fold_right (fun i rest => show i ++ "|" ++ rest) ""
                 (i' :: positions)).
    rewrite IH.
    change (String.concat "|" (map show (i :: i' :: positions)))
      with (show i ++ "|" ++ String.concat "|" (map show (i' :: positions))).
    now rewrite !string_app_assoc.
Qed.

Lemma flag_test_testbit (device_flags i : N) :
  negb (N.land device_flags (N.shiftl 1 i) =? 0)%N = N.testbit device_flags i.
Proof using.
  rewrite N.shiftl_1_l, land_single_bit.
  destruct (N.testbit device_flags i); [|reflexivity].
  apply negb_true_iff, N.eqb_neq, N.pow_nonzero. discriminate.
Qed.

Lemma set_bit_positions_In (device_flags i : N) :
  In i (set_bit_positions device_flags) <->
  (i < 64)%N /\ N.testbit device_flags i = true.
Proof using.
  unfold set_bit_positions, flag_bit_positions.
  rewrite filter_In, in_map_iff. split.
  - intros [(n & <- & Hn) Hbit]. apply in_seq in Hn. split; [lia|assumption].
  - intros [Hi Hbit]. split; [|assumption].
    exists (N.to_nat i). split; [apply N2Nat.id|]. apply in_seq. lia.
Qed.

Lemma flag_names_text_set_bits (device_flags : N) :
  device_flags <> 0%N ->
  (device_flags < 2 ^ 64)%N ->
  flag_names_text fwupd_device_flag_to_string device_flags =
  String.concat "|"
    (map (fun i => printf_s (fwupd_device_flag_to_string (2 ^ i)))
       (set_bit_positions device_flags)).
Proof using.
  intros Hnz Hrange.
  assert (Hne : set_bit_positions device_flags <> []).
  { assert (Hin : In (N.log2 device_flags) (set_bit_positions device_flags)).
    { apply set_bit_positions_In. split.
      - apply N.log2_lt_pow2; [lia | assumption].
      - now apply N.bit_log2. }
    intros Hnil. now rewrite Hnil in Hin. }
  assert (Hloop :
            fold_left
              (fun tmp i =>
                 if (N.land device_flags (N.shiftl 1 i) =? 0)%N then tmp
                 else tmp
                      ++ printf_s (fwupd_device_flag_to_string (N.shiftl 1 i))
                      ++ "|")
              flag_bit_positions "" =
            String.concat "|"
              (map (fun i => printf_s (fwupd_device_flag_to_string (2 ^ i)))
                 (set_bit_positions device_flags)) ++ "|").
  { rewrite flag_names_loop. cbn [append].
    rewrite <- (names_fold_concat
                  (fun i => printf_s (fwupd_device_flag_to_string (2 ^ i))))
      by assumption.
    unfold set_bit_positions.
    rewrite (filter_ext _ (fun i => N.testbit device_flags i))
      by (intros; apply flag_test_testbit).
    generalize (filter (fun i => N.testbit device_flags i) flag_bit_positions).
    intros bits. induction bits as [|i bits IH]; cbn [fold_right];
      [reflexivity|].
    now rewrite IH, N.shiftl_1_l. }
  remember (String.concat "|"
              (map (fun i => printf_s (fwupd_device_flag_to_string (2 ^ i)))
                 (set_bit_positions device_flags))) as names.
  unfold flag_names_text. cbv zeta. rewrite Hloop.
  rewrite string_length_app. cbn [length].
  replace (length names + 1 =? 0)%nat with false
    by (symmetry; apply Nat.eqb_neq; lia).
  rewrite <- (string_length_app _ "|").
  apply g_string_truncate_last.
Qed.


(** X16, the flags line in general: for a flags value that is not 0 and fits
    in 64 bits, [fwupd_pad_kv_dfl] appends one line whose value is the names
    of the set bits, in ascending bit order, joined by bars (a bit without a
    name shows as ["(null)"]). *)
Theorem flags_line_lists_set_bits (str : GStringLines) (key : string)
  (device_flags : N) :
  device_flags <> 0%N ->
  (device_flags < 2 ^ 64)%N ->
  fwupd_pad_kv_dfl fwupd_device_flag_to_string str (Some key) device_flags =
  (str ++ [{| line_key := key;
              line_value :=
                String.concat "|"
                  (map (fun i => printf_s (fwupd_device_flag_to_string (2 ^ i)))
                     (set_bit_positions device_flags)) |}])%list /\
  (forall i, In i (set_bit_positions device_flags) <->
             (i < 64)%N /\ N.testbit device_flags i = true).
Proof using.
  intros Hnz Hrange. split; [|intros i; apply set_bit_positions_In].
  rewrite pad_kv_dfl_app.
  now rewrite (flag_names_text_set_bits device_flags Hnz Hrange).
Qed.

(** X17, the date lines: for distinct key constants, a line under the
    created key is written exactly when [created] is not 0 and its date can
    be formatted, and it shows that date; the same holds for [modified]. *)
Theorem timestamp_lines (device : FwupdDevice) :
  keys_distinct K ->
  (forall value,
     In {| line_key := FWUPD_RESULT_KEY_DEVICE_CREATED K;
           line_value := value |} (to_string_lines device) <->
     created device <> 0%N /\ unix_utc_date (created device) = Some value) /\
  (forall value,
     In {| line_key := FWUPD_RESULT_KEY_DEVICE_MODIFIED K;
           line_value := value |} (to_string_lines device) <->
     modified device <> 0%N /\ unix_utc_date (modified device) = Some value).
Proof using.
  intros Hdistinct. split; intros value; rewrite to_string_lines_In;
    cbn [line_key line_value]; (split; [intros H | intros [Hnz Hdate]]).
  - repeat (destruct H as [H|H];
            [ try (destruct H as [H _]; exfalso; key_clash H Hdistinct) | ]).
    + tauto.
    + destruct H as [H _]. exfalso. key_clash H Hdistinct.
  - do 11 right. left. tauto.
  - repeat (destruct H as [H|H];
            [ try (destruct H as [H _]; exfalso; key_clash H Hdistinct) | ]).
    tauto.
  - do 12 right. tauto.
Qed.

(** X18, the array lines: for distinct key constants, the lines under the
    guid key show exactly the guids of the record, and the lines under the
    checksum key show exactly the display forms, where not NULL, of its
    checksums. *)
Theorem array_lines (device : FwupdDevice) :
  keys_distinct K ->
  (forall value,
     In {| line_key := FWUPD_RESULT_KEY_GUID K; line_value := value |}
       (to_string_lines device) <->
     In value (guids device)) /\
  (forall value,
     In {| line_key := FWUPD_RESULT_KEY_DEVICE_CHECKSUM K;
           line_value := value |} (to_string_lines device) <->
     exists checksum,
       In checksum (checksums device) /\
       fwupd_checksum_format_for_display checksum = Some value).
Proof using.
  intros Hdistinct. split; intros value; rewrite to_string_lines_In;
    cbn [line_key line_value]; (split; [intros H | intros Hin]).
  - destruct H as [H|H].
    + destruct H as (_ & guid & Hin & [= <-]). assumption.
    + repeat (destruct H as [H|H];
              [ destruct H as [H _]; exfalso; key_clash H Hdistinct | ]).
      destruct H as [H _]. exfalso. key_clash H Hdistinct.
  - left. split; [reflexivity|]. now exists value.
  - repeat (destruct H as [H|H];
            [ try (destruct H as [H _]; exfalso; key_clash H Hdistinct) | ]).
    + tauto.
    + destruct H as [H _]. exfalso. key_clash H Hdistinct.
  - do 5 right. left. tauto.
Qed.

(** X19, what the text never shows: every line is under one of the thirteen
    keys of guid, id, description, plugin, flags, checksum, vendor, version,
    lowest version, bootloader version, flashes left, created and modified;
    the text is the same whatever [name], [summary], [homepage] and
    [appstream_id] hold. *)
Theorem formatter_omits_name_summary_homepage (device : FwupdDevice) :
  (forall line,
     In line (to_string_lines device) ->
     In (line_key line)
       [FWUPD_RESULT_KEY_GUID K; FWUPD_RESULT_KEY_DEVICE_ID K;
        FWUPD_RESULT_KEY_DEVICE_DESCRIPTION K; FWUPD_RESULT_KEY_DEVICE_PLUGIN K;
        FWUPD_RESULT_KEY_DEVICE_FLAGS K; FWUPD_RESULT_KEY_DEVICE_CHECKSUM K;
        FWUPD_RESULT_KEY_DEVICE_VENDOR K; FWUPD_RESULT_KEY_DEVICE_VERSION K;
        FWUPD_RESULT_KEY_DEVICE_VERSION_LOWEST K;
        FWUPD_RESULT_KEY_DEVICE_VERSION_BOOTLOADER K;
        FWUPD_RESULT_KEY_DEVICE_FLASHES_LEFT K;
        FWUPD_RESULT_KEY_DEVICE_CREATED K;
        FWUPD_RESULT_KEY_DEVICE_MODIFIED K]) /\
  (forall name_ summary_ homepage_ appstream_id_,
     to_string
       (mkFwupdDevice (id device) (created device) (modified device)
          (flags device) appstream_id_ (guids device) name_ summary_
          (description device) (vendor device) homepage_ (provider device)
          (version device) (version_lowest device) (version_bootloader device)
          (checksums device) (flashes_left device)) =
     to_string device).
Proof using.
  split.
  - intros line Hin. apply to_string_lines_In in Hin. cbn [In].
    repeat (destruct Hin as [Hin|Hin];
            [ destruct Hin as [Hin _]; tauto | ]).
    try (destruct Hin as [Hin _]; tauto).
  - intros. unfold fwupd_device_to_string. now f_equal.
Qed.

(** * Further properties: encoding of the arrays, order of the pairs *)

(** X20, the array encoding: a record with at least one guid serializes
    first the guid pair, whose value is the guids joined by commas, no comma
    after the last; a record with at least one checksum serializes a checksum
    pair with the checksums joined the same way; an empty array gives no
    pair under its key. *)
Theorem array_pairs_comma_joined (device : FwupdDevice) :
  (guids device <> [] ->
   hd_error (serialize K device) =
   Some (FWUPD_RESULT_KEY_GUID K,
         GVString (String.concat "," (guids device)))) /\
  (checksums device <> [] ->
   In (FWUPD_RESULT_KEY_DEVICE_CHECKSUM K,
       GVString (String.concat "," (checksums device)))
     (serialize K device)) /\
  (guids device = [] -> checksums device = [] -> keys_distinct K ->
   forall value,
     ~ In (FWUPD_RESULT_KEY_GUID K, value) (serialize K device) /\
     ~ In (FWUPD_RESULT_KEY_DEVICE_CHECKSUM K, value) (serialize K device)).
Proof using.
  codec_only.
  unfold serialize. rewrite to_variant_builder_entries. cbn [app].
  split; [|split].
  - intros Hne. unfold list_entry at 1.
    destruct (guids device) as [|g gs] eqn:Hg; [now contradiction Hne|].
    cbn [List.length Nat.ltb Nat.leb app hd_error].
    now rewrite comma_joined_concat.
  - intros Hne. rewrite !in_app_iff. do 7 right. left.
    unfold list_entry.
    destruct (checksums device) as [|c cs] eqn:Hc; [now contradiction Hne|].
    cbn [List.length Nat.ltb Nat.leb]. left.
    now rewrite comma_joined_concat.
  - intros Hg Hc Hdistinct value. rewrite Hg, Hc.
    change (list_entry (FWUPD_RESULT_KEY_GUID K) []) with (@nil (string * GVariant)).
    change (list_entry (FWUPD_RESULT_KEY_DEVICE_CHECKSUM K) [])
      with (@nil (string * GVariant)).
    cbn [app]. rewrite !in_app_iff. cbn [In].
    split; intros H;
      repeat (destruct H as [H|H];
              [ first [ apply string_entry_key in H
                      | apply uint64_entry_key in H
                      | apply uint32_entry_key in H
                      | contradiction ];
                key_clash H Hdistinct | ]);
      try contradiction;
      apply uint32_entry_key in H; key_clash H Hdistinct.
Qed.

(** ** The order of the pairs *)

Lemma from_key_value_commute (device : FwupdDevice) (key1 key2 : string)
  (value1 value2 : GVariant) :
  key1 <> key2 ->
  match fwupd_device_from_key_value K device key1 value1 with
  | Some device' => fwupd_device_from_key_value K device' key2 value2
  | None => None
  end =
  match fwupd_device_from_key_value K device key2 value2 with
  | Some device' => fwupd_device_from_key_value K device' key1 value1
  | None => None
  end.
Proof using.
  intros Hne. unfold fwupd_device_from_key_value.
  repeat match goal with
         | |- context [String.eqb key1 ?b] =>
             destruct (String.eqb_spec key1 b)
         end;
    repeat match goal with
           | |- context [String.eqb key2 ?b] =>
               destruct (String.eqb_spec key2 b)
           end;
    try congruence;
    destruct value1, value2;
    cbn [g_variant_get_string g_variant_get_uint64 g_variant_get_uint32
         option_map];
    rewrite ?fold_add_guid, ?fold_add_checksum;
    reflexivity.
Qed.

Lemma set_from_variant_iter_keys_NoDup_tail (entry : string * GVariant)
  (dict : GVariantDict) :
  NoDup (map fst (entry :: dict)) -> NoDup (map fst dict).
Proof using. codec_only. cbn. now inversion 1. Qed.

(** X21, the order of the pairs does not matter: two mappings with the same
    pairs in different orders, no key occurring twice, are read into the same
    record (or both meet a value of the wrong type), from any starting record
    and for any key constants. *)
Theorem pair_order_irrelevant (dict dict' : GVariantDict) :
  Permutation dict dict' ->
  NoDup (map fst dict) ->
  (forall device,
     fwupd_device_set_from_variant_iter K device dict =
     fwupd_device_set_from_variant_iter K device dict') /\
  fwupd_device_new_from_data K (GVDict dict) =
  fwupd_device_new_from_data K (GVDict dict').
Proof using.
  codec_only.
  intros Hperm Hnd.
  assert (Hiter : forall device,
             fwupd_device_set_from_variant_iter K device dict =
             fwupd_device_set_from_variant_iter K device dict').
  { induction Hperm as [|[key value] l l' Hperm IH
                         |[key1 value1] [key2 value2] l
                         |l l' l'' Hperm1 IH1 Hperm2 IH2]; intros device.
    - reflexivity.
    - cbn [fwupd_device_set_from_variant_iter].
      destruct (fwupd_device_from_key_value K device key value);
        [|reflexivity].
      apply IH. now apply set_from_variant_iter_keys_NoDup_tail in Hnd.
    - cbn [fwupd_device_set_from_variant_iter].
      assert (Hne : key2 <> key1).
      { cbn in Hnd. inversion Hnd as [|? ? Hnotin _]; subst.
        intros ->. apply Hnotin. now left. }
      pose proof (from_key_value_commute device key2 key1 value2 value1 Hne)
        as Hcomm.
      destruct (fwupd_device_from_key_value K device key2 value2) as [d2|];
        destruct (fwupd_device_from_key_value K device key1 value1) as [d1|].
      + destruct (fwupd_device_from_key_value K d2 key1 value1) as [d21|];
          destruct (fwupd_device_from_key_value K d1 key2 value2) as [d12|];
          congruence.
      + now rewrite Hcomm.
      + now rewrite <- Hcomm.
      + reflexivity.
    - rewrite IH1 by assumption. apply IH2.
      apply (Permutation_NoDup (Permutation_map fst Hperm1)). assumption. }
  split; [exact Hiter|].
  change (fwupd_device_new_from_data K (GVDict dict))
    with (option_map
            (fun dev => {| returned_device := Some dev; warnings := [] |})
            (fwupd_device_set_from_variant_iter K fwupd_device_new dict)).
  change (fwupd_device_new_from_data K (GVDict dict'))
    with (option_map
            (fun dev => {| returned_device := Some dev; warnings := [] |})
            (fwupd_device_set_from_variant_iter K fwupd_device_new dict')).
  now rewrite Hiter.
Qed.

End FormatterProperties.

End Properties.

(** * The theorems at concrete inputs *)

Lemma NoDup_by_nodup (l : list string) : nodup string_dec l = l -> NoDup l.
Proof. intros <-. apply NoDup_nodup. Qed.

Lemma fwupd_result_keys_distinct : keys_distinct fwupd_result_keys.
Proof. apply NoDup_by_nodup. vm_compute. reflexivity. Qed.

Lemma no_comma_check (s : string) :
  forallb (fun c => negb (Ascii.eqb c ",")) (list_ascii_of_string s) = true ->
  no_comma s.
Proof.
  induction s as [|c s IH]; simpl; [trivial|].
  intros H. apply andb_true_iff in H. destruct H as [Hc Hs].
  split; [|now apply IH]. now apply Ascii.eqb_neq, negb_true_iff.
Qed.

Lemma populated_device_arrays :
  array_round_trips (guids populated_device) /\
  array_round_trips (checksums populated_device).
Proof.
  change (guids populated_device)
    with ["2082b5e0-7a64-478a-b1b2-e3404fab6dad"].
  change (checksums populated_device) with ["beefdead"].
  split; (split; [apply NoDup_by_nodup; reflexivity|]);
    (split; [constructor; [apply no_comma_check; reflexivity | constructor]|]);
    (split; [discriminate | vm_compute; discriminate]).
Qed.

(** C1 as stated fails: [populated_device] is built from a fresh record with
    the setters and adds only, has comma-free arrays and every optional
    string that can be set is set, and the record read back from its
    serialized sequence is not the record: [id] and [summary] come back
    NULL. *)
Lemma round_trip_counterexample :
  Forall no_comma (guids populated_device) /\
  Forall no_comma (checksums populated_device) /\
  optional_strings_set populated_device /\
  deserialize fwupd_result_keys (serialize fwupd_result_keys populated_device)
  <> Some populated_device /\
  (exists r',
     deserialize fwupd_result_keys
       (serialize fwupd_result_keys populated_device) = Some r' /\
     id populated_device = Some "USB:foo" /\ id r' = None /\
     summary populated_device = Some "A colorimeter" /\ summary r' = None).
Proof.
  split; [apply populated_device_arrays|].
  split; [apply populated_device_arrays|].
  split; [repeat split; discriminate|].
  split; [vm_compute; discriminate|].
  eexists. split; [vm_compute; reflexivity|]. repeat split.
Qed.

Lemma round_trip_witness :
  keys_distinct fwupd_result_keys /\
  array_round_trips (guids populated_device) /\
  array_round_trips (checksums populated_device) /\
  exists r',
    deserialize fwupd_result_keys (serialize fwupd_result_keys populated_device)
    = Some r' /\
    r' = carried_fields populated_device /\
    (forall field,
       field_unset field populated_device -> field_unset field r') /\
    (id populated_device = None -> appstream_id populated_device = None ->
     summary populated_device = None -> homepage populated_device = None ->
     r' = populated_device).
Proof.
  split; [exact fwupd_result_keys_distinct|].
  split; [exact (proj1 populated_device_arrays)|].
  split; [exact (proj2 populated_device_arrays)|].
  exact (round_trip fwupd_result_keys populated_device
           fwupd_result_keys_distinct (proj1 populated_device_arrays)
           (proj2 populated_device_arrays)).
Defined.

(** C2 as stated fails: setting [id] on a fresh record serializes to no pair
    at all. *)
Lemma omission_rule_counterexample :
  ~ exists key value,
      serialize fwupd_result_keys
        (fwupd_device_set_id fwupd_device_new (Some "USB:foo")) =
      [(key, value)].
Proof. intros (key & value & H). vm_compute in H. discriminate. Qed.

Lemma omission_rule_witness :
  9%N <> 0%N /\
  serialize fwupd_result_keys (fwupd_device_set_flags fwupd_device_new 9) =
  [("Flags", GVUint64 9)].
Proof.
  assert (Hn : 9%N <> 0%N) by discriminate.
  split; [exact Hn|].
  exact (proj1 (proj2 (proj2 (proj2 (proj2 (omission_rule fwupd_result_keys)))))
           9%N Hn).
Defined.

Lemma dedup_idempotence_witness :
  In (AddGuid "a") [AddGuid "a"; AddChecksum "x"; AddGuid "b"; AddGuid "a"] /\
  count_occ string_dec
    (guids (run_add_calls fwupd_device_new
              [AddGuid "a"; AddChecksum "x"; AddGuid "b"; AddGuid "a"]))
    "a" = 1.
Proof.
  assert (Hin : In (AddGuid "a")
                  [AddGuid "a"; AddChecksum "x"; AddGuid "b"; AddGuid "a"])
    by (left; reflexivity).
  split; [exact Hin|].
  exact (proj1
           (proj2
              (proj1
                 (dedup_idempotence
                    [AddGuid "a"; AddChecksum "x"; AddGuid "b"; AddGuid "a"]))
              "a") Hin).
Defined.

Lemma id_envelope_witness :
  keys_distinct fwupd_result_keys /\
  FWUPD_RESULT_KEY_DEVICE_NAME fwupd_result_keys = "Name" /\
  exists dev,
    fwupd_device_new_from_data fwupd_result_keys
      (GVIdDict "dev-1" [("Name", GVString "ColorHug2")]) =
    Some {| returned_device := Some dev; warnings := [] |} /\
    id dev = Some "dev-1" /\
    name dev = Some "ColorHug2" /\
    forall field,
      field <> FieldId -> field <> FieldName -> field_unset field dev.
Proof.
  split; [exact fwupd_result_keys_distinct|].
  split; [reflexivity|].
  exact (proj2 (id_envelope fwupd_result_keys)
           fwupd_result_keys_distinct eq_refl).
Defined.

Lemma unknown_key_tolerance_witness :
  keys_distinct fwupd_result_keys /\
  field_key fwupd_result_keys FieldVendor = Some "Vendor" /\
  well_typed_for FieldVendor (GVString "Hughski") /\
  ~ In "TrustFlags" (codec_keys fwupd_result_keys) /\
  exists device,
    fwupd_device_new_from_data fwupd_result_keys
      (GVDict [("Vendor", GVString "Hughski"); ("TrustFlags", GVUint64 1)]) =
    Some {| returned_device := Some device; warnings := [] |} /\
    fwupd_device_new_from_data fwupd_result_keys
      (GVDict [("TrustFlags", GVUint64 1); ("Vendor", GVString "Hughski")]) =
    Some {| returned_device := Some device; warnings := [] |} /\
    fwupd_device_new_from_data fwupd_result_keys
      (GVDict [("Vendor", GVString "Hughski")]) =
    Some {| returned_device := Some device; warnings := [] |} /\
    vendor device = Some "Hughski" /\
    forall other, other <> FieldVendor -> field_unset other device.
Proof.
  assert (Htyped : well_typed_for FieldVendor (GVString "Hughski"))
    by (exists "Hughski"; reflexivity).
  assert (Hunknown : ~ In "TrustFlags" (codec_keys fwupd_result_keys))
    by (cbn; intuition discriminate).
  split; [exact fwupd_result_keys_distinct|].
  split; [reflexivity|].
  split; [exact Htyped|].
  split; [exact Hunknown|].
  exact (unknown_key_tolerance fwupd_result_keys FieldVendor "Vendor"
           (GVString "Hughski") "TrustFlags" (GVUint64 1)
           fwupd_result_keys_distinct eq_refl Htyped Hunknown).
Defined.

Lemma unsupported_envelope_witness :
  g_variant_get_type_string (GVUnknown "as") <> "(a{sv})" /\
  g_variant_get_type_string (GVUnknown "as") <> "a{sv}" /\
  g_variant_get_type_string (GVUnknown "as") <> "{sa{sv}}" /\
  fwupd_device_new_from_data fwupd_result_keys (GVUnknown "as") =
  Some {| returned_device := None; warnings := ["type as not known"] |}.
Proof.
  assert (H1 : g_variant_get_type_string (GVUnknown "as") <> "(a{sv})")
    by discriminate.
  assert (H2 : g_variant_get_type_string (GVUnknown "as") <> "a{sv}")
    by discriminate.
  assert (H3 : g_variant_get_type_string (GVUnknown "as") <> "{sa{sv}}")
    by discriminate.
  split; [exact H1|]. split; [exact H2|]. split; [exact H3|].
  exact (unsupported_envelope fwupd_result_keys (GVUnknown "as") H1 H2 H3).
Defined.

(** C7 as stated fails: a fresh record has flags 0, and its formatted text
    is one flags line, showing the name of the flag value 0. *)
Lemma flag_formatting_counterexample :
  flags fwupd_device_new = 0%N /\
  In {| line_key := "Flags"; line_value := "none" |}
    (fwupd_device_to_string_lines fwupd_result_keys sample_flag_to_string
       sample_checksum_format_for_display sample_unix_utc_date
       fwupd_device_new) /\
  fwupd_device_to_string fwupd_result_keys sample_flag_to_string
    sample_checksum_format_for_display sample_unix_utc_date fwupd_device_new =
  "  Flags:                none" ++ String (ascii_of_nat 10) "".
Proof.
  split; [reflexivity|]. split; [left|]; vm_compute; reflexivity.
Qed.

Lemma flag_formatting_witness :
  keys_distinct fwupd_result_keys /\
  flags (fwupd_device_set_flags fwupd_device_new 9) = 9%N /\
  sample_flag_to_string 1 = Some "internal" /\
  sample_flag_to_string 8 = Some "require-ac" /\
  lines_under "Flags"
    (fwupd_device_to_string_lines fwupd_result_keys sample_flag_to_string
       sample_checksum_format_for_display sample_unix_utc_date
       (fwupd_device_set_flags fwupd_device_new 9)) =
  [{| line_key := "Flags"; line_value := "internal|require-ac" |}] /\
  text_has_line
    (fwupd_device_to_string fwupd_result_keys sample_flag_to_string
       sample_checksum_format_for_display sample_unix_utc_date
       (fwupd_device_set_flags fwupd_device_new 9))
    {| line_key := "Flags"; line_value := "internal|require-ac" |}.
Proof.
  split; [exact fwupd_result_keys_distinct|].
  split; [reflexivity|]. split; [reflexivity|]. split; [reflexivity|].
  pose proof (proj1
                (flag_formatting fwupd_result_keys sample_flag_to_string
                   sample_checksum_format_for_display sample_unix_utc_date
                   (fwupd_device_set_flags fwupd_device_new 9)
                   fwupd_result_keys_distinct)
                "internal" "require-ac" eq_refl eq_refl eq_refl) as H.
  split; [exact (proj1 H) | exact (proj2 (proj2 H))].
Defined.

Lemma flashes_left_cutoff_witness :
  keys_distinct fwupd_result_keys /\
  flashes_left (fwupd_device_set_flashes_left fwupd_device_new 1) = 1%N /\
  lines_under "FlashesLeft"
    (fwupd_device_to_string_lines fwupd_result_keys sample_flag_to_string
       sample_checksum_format_for_display sample_unix_utc_date
       (fwupd_device_set_flashes_left fwupd_device_new 1)) =
  [{| line_key := "FlashesLeft"; line_value := "1" |}] /\
  text_has_line
    (fwupd_device_to_string fwupd_result_keys sample_flag_to_string
       sample_checksum_format_for_display sample_unix_utc_date
       (fwupd_device_set_flashes_left fwupd_device_new 1))
    {| line_key := "FlashesLeft"; line_value := "1" |}.
Proof.
  split; [exact fwupd_result_keys_distinct|].
  split; [reflexivity|].
  pose proof (flashes_left_cutoff fwupd_result_keys sample_flag_to_string
                sample_checksum_format_for_display sample_unix_utc_date
                (fwupd_device_set_flashes_left fwupd_device_new 1)
                fwupd_result_keys_distinct) as H.
  split; [exact (proj1 H) | exact (proj2 (proj2 H) eq_refl)].
Defined.

Lemma flag_operations_witness :
  flags_in_range (fwupd_device_set_flags fwupd_device_new 5) /\
  (3 < 64)%N /\
  fwupd_device_has_flag
    (fwupd_device_add_flag (fwupd_device_set_flags fwupd_device_new 5) 8) 8 =
  true.
Proof.
  assert (Hrange : flags_in_range (fwupd_device_set_flags fwupd_device_new 5))
    by reflexivity.
  assert (Hbit : (3 < 64)%N) by reflexivity.
  split; [exact Hrange|]. split; [exact Hbit|].
  exact (proj1
           (proj1
              (flag_operations (fwupd_device_set_flags fwupd_device_new 5) 3
                 Hrange Hbit))).
Defined.

(** * The further properties at concrete inputs *)

Lemma scalar_fields_round_trip_witness :
  keys_distinct fwupd_result_keys /\
  exists r',
    deserialize fwupd_result_keys
      (serialize fwupd_result_keys
         (fwupd_device_add_guid populated_device "a,b")) = Some r' /\
    name r' = Some "ColorHug2" /\ flags r' = 9%N.
Proof.
  split; [exact fwupd_result_keys_distinct|].
  destruct (scalar_fields_round_trip fwupd_result_keys
              (fwupd_device_add_guid populated_device "a,b")
              fwupd_result_keys_distinct)
    as (r' & Hread & Hname & _ & Hflags & _).
  exists r'. split; [exact Hread|]. split; [exact Hname | exact Hflags].
Defined.

Lemma serialized_keys_in_order_witness :
  keys_distinct fwupd_result_keys /\
  NoDup (map fst (serialize fwupd_result_keys populated_device)).
Proof.
  split; [exact fwupd_result_keys_distinct|].
  exact (proj2 (serialized_keys_in_order fwupd_result_keys populated_device)
           fwupd_result_keys_distinct).
Defined.

Lemma serialized_values_well_typed_witness :
  keys_distinct fwupd_result_keys /\
  dict_well_typed fwupd_result_keys
    (serialize fwupd_result_keys populated_device).
Proof.
  split; [exact fwupd_result_keys_distinct|].
  exact (serialized_values_well_typed fwupd_result_keys populated_device
           fwupd_result_keys_distinct).
Defined.

Lemma sample_mapping_well_typed :
  dict_well_typed fwupd_result_keys
    [("Vendor", GVString "Hughski"); ("TrustFlags", GVUint64 1);
     ("FlashesLeft", GVUint32 3)].
Proof.
  unfold dict_well_typed.
  repeat constructor; cbn [fst snd]; intros []; cbn;
    try discriminate; intros _; eexists; reflexivity.
Qed.

Lemma well_typed_mapping_loads_witness :
  keys_distinct fwupd_result_keys /\
  dict_well_typed fwupd_result_keys
    [("Vendor", GVString "Hughski"); ("TrustFlags", GVUint64 1);
     ("FlashesLeft", GVUint32 3)] /\
  exists dev dev_id,
    fwupd_device_new_from_data fwupd_result_keys
      (GVDict [("Vendor", GVString "Hughski"); ("TrustFlags", GVUint64 1);
               ("FlashesLeft", GVUint32 3)]) =
    Some {| returned_device := Some dev; warnings := [] |} /\
    fwupd_device_new_from_data fwupd_result_keys
      (GVIdDict "dev-1"
         [("Vendor", GVString "Hughski"); ("TrustFlags", GVUint64 1);
          ("FlashesLeft", GVUint32 3)]) =
    Some {| returned_device := Some dev_id; warnings := [] |} /\
    id dev_id = Some "dev-1".
Proof.
  split; [exact fwupd_result_keys_distinct|].
  split; [exact sample_mapping_well_typed|].
  destruct (well_typed_mapping_loads fwupd_result_keys _ "dev-1"
              fwupd_result_keys_distinct sample_mapping_well_typed)
    as (dev & dev_id & Hbare & _ & Hid_keyed & Hid & _).
  exists dev, dev_id.
  split; [exact Hbare|]. split; [exact Hid_keyed | exact Hid].
Defined.

Lemma deserialized_arrays_duplicate_free_witness :
  fwupd_device_new_from_data fwupd_result_keys
    (GVDict [("Guid", GVString "a,a,b"); ("Guid", GVString "b,c")]) =
  Some {| returned_device := Some (with_guids fwupd_device_new ["a"; "b"; "c"]);
          warnings := [] |} /\
  NoDup (guids (with_guids fwupd_device_new ["a"; "b"; "c"])) /\
  NoDup (checksums (with_guids fwupd_device_new ["a"; "b"; "c"])).
Proof.
  assert (Hread :
            fwupd_device_new_from_data fwupd_result_keys
              (GVDict [("Guid", GVString "a,a,b"); ("Guid", GVString "b,c")]) =
            Some {| returned_device :=
                      Some (with_guids fwupd_device_new ["a"; "b"; "c"]);
                    warnings := [] |})
    by (vm_compute; reflexivity).
  split; [exact Hread|].
  exact (deserialized_arrays_duplicate_free fwupd_result_keys _ _ _ Hread
           eq_refl).
Defined.

Lemma repeated_scalar_key_last_wins_witness :
  keys_distinct fwupd_result_keys /\
  scalar_field FieldVersion /\
  field_key fwupd_result_keys FieldVersion = Some "Version" /\
  well_typed_for FieldVersion (GVString "1.2.3") /\
  well_typed_for FieldVersion (GVString "1.2.4") /\
  fwupd_device_set_from_variant_iter fwupd_result_keys fwupd_device_new
    [("Version", GVString "1.2.3"); ("Version", GVString "1.2.4")] =
  fwupd_device_set_from_variant_iter fwupd_result_keys fwupd_device_new
    [("Version", GVString "1.2.4")].
Proof.
  assert (Hscalar : scalar_field FieldVersion) by (split; discriminate).
  assert (H1 : well_typed_for FieldVersion (GVString "1.2.3"))
    by (exists "1.2.3"; reflexivity).
  assert (H2 : well_typed_for FieldVersion (GVString "1.2.4"))
    by (exists "1.2.4"; reflexivity).
  split; [exact fwupd_result_keys_distinct|].
  split; [exact Hscalar|]. split; [reflexivity|].
  split; [exact H1|]. split; [exact H2|].
  exact (repeated_scalar_key_last_wins fwupd_result_keys FieldVersion "Version"
           (GVString "1.2.3") (GVString "1.2.4") fwupd_device_new
           fwupd_result_keys_distinct Hscalar eq_refl H1 H2).
Defined.


Lemma to_data_round_trip_witness :
  keys_distinct fwupd_result_keys /\
  array_round_trips (guids populated_device) /\
  array_round_trips (checksums populated_device) /\
  fwupd_device_to_data fwupd_result_keys populated_device "(a{sv})" =
  Some (GVTupleDict (serialize fwupd_result_keys populated_device)) /\
  fwupd_device_new_from_data fwupd_result_keys
    (GVTupleDict (serialize fwupd_result_keys populated_device)) =
  Some {| returned_device := Some (carried_fields populated_device);
          warnings := [] |}.
Proof.
  assert (Hdata :
            fwupd_device_to_data fwupd_result_keys populated_device "(a{sv})" =
            Some (GVTupleDict (serialize fwupd_result_keys populated_device)))
    by reflexivity.
  split; [exact fwupd_result_keys_distinct|].
  split; [exact (proj1 populated_device_arrays)|].
  split; [exact (proj2 populated_device_arrays)|].
  split; [exact Hdata|].
  exact (to_data_round_trip fwupd_result_keys populated_device "(a{sv})" _
           fwupd_result_keys_distinct (proj1 populated_device_arrays)
           (proj2 populated_device_arrays) Hdata).
Defined.

Lemma id_keyed_round_trip_witness :
  keys_distinct fwupd_result_keys /\
  array_round_trips (guids populated_device) /\
  array_round_trips (checksums populated_device) /\
  exists dev,
    fwupd_device_new_from_data fwupd_result_keys
      (GVIdDict "USB:bar" (serialize fwupd_result_keys populated_device)) =
    Some {| returned_device := Some dev; warnings := [] |} /\
    id dev = Some "USB:bar" /\
    agree_except_id dev (carried_fields populated_device).
Proof.
  split; [exact fwupd_result_keys_distinct|].
  split; [exact (proj1 populated_device_arrays)|].
  split; [exact (proj2 populated_device_arrays)|].
  exact (id_keyed_round_trip fwupd_result_keys populated_device "USB:bar"
           fwupd_result_keys_distinct (proj1 populated_device_arrays)
           (proj2 populated_device_arrays)).
Defined.

Lemma guid_default_is_first_added_witness :
  guids populated_device <> [] /\
  fwupd_device_get_guid_default
    (fwupd_device_add_guid populated_device "another-guid") =
  fwupd_device_get_guid_default populated_device.
Proof.
  assert (Hne : guids populated_device <> []) by discriminate.
  split; [exact Hne|].
  exact (proj2 guid_default_is_first_added populated_device "another-guid" Hne).
Defined.

Lemma flag_operations_compose_witness :
  flags_in_range (fwupd_device_set_flags fwupd_device_new 5) /\
  (10 < 2 ^ 64)%N /\
  N.land (flags (fwupd_device_set_flags fwupd_device_new 5)) 10 = 0%N /\
  fwupd_device_remove_flag
    (fwupd_device_add_flag (fwupd_device_set_flags fwupd_device_new 5) 10) 10 =
  fwupd_device_set_flags fwupd_device_new 5.
Proof.
  assert (Hrange : flags_in_range (fwupd_device_set_flags fwupd_device_new 5))
    by reflexivity.
  assert (Hflag : (10 < 2 ^ 64)%N) by reflexivity.
  assert (Hnone : N.land (flags (fwupd_device_set_flags fwupd_device_new 5)) 10
                  = 0%N) by reflexivity.
  split; [exact Hrange|]. split; [exact Hflag|]. split; [exact Hnone|].
  exact (proj2 (proj2 (proj2 (proj2
           (flag_operations_compose
              (fwupd_device_set_flags fwupd_device_new 5) 10 Hrange Hflag))))
           Hnone).
Defined.

Lemma pad_line_value_column_witness :
  length (line_key {| line_key := "Version"; line_value := "1.2.3" |}) <= 20 /\
  pad_line_text {| line_key := "Version"; line_value := "1.2.3" |} =
  "  Version:              1.2.3" ++ String (ascii_of_nat 10) "" /\
  substring 24 5 (pad_line_text {| line_key := "Version";
                                   line_value := "1.2.3" |}) = "1.2.3" /\
  4 + Nat.max 20
        (length (line_key {| line_key := "Version"; line_value := "1.2.3" |}))
  = 24.
Proof.
  assert (Hshort : length (line_key {| line_key := "Version";
                                       line_value := "1.2.3" |}) <= 20)
    by (cbn; lia).
  pose proof (pad_line_value_column
                {| line_key := "Version"; line_value := "1.2.3" |}) as H.
  cbv zeta in H.
  split; [exact Hshort|].
  split; [exact (proj1 H)|].
  split; [exact (proj1 (proj2 H))|].
  exact (proj2 (proj2 (proj2 (proj2 H))) Hshort).
Defined.

Lemma flags_line_lists_set_bits_witness :
  7%N <> 0%N /\ (7 < 2 ^ 64)%N /\
  fwupd_pad_kv_dfl sample_flag_to_string [] (Some "Flags") 7 =
  [{| line_key := "Flags";
      line_value :=
        String.concat "|"
          (map (fun i => printf_s (sample_flag_to_string (2 ^ i)))
             (set_bit_positions 7)) |}].
Proof.
  assert (Hnz : 7%N <> 0%N) by discriminate.
  assert (Hrange : (7 < 2 ^ 64)%N) by reflexivity.
  split; [exact Hnz|]. split; [exact Hrange|].
  exact (proj1 (flags_line_lists_set_bits sample_flag_to_string [] "Flags" 7
                  Hnz Hrange)).
Defined.

Lemma timestamp_lines_witness :
  keys_distinct fwupd_result_keys /\
  (In {| line_key := "Created"; line_value := "2017-07-14" |}
     (fwupd_device_to_string_lines fwupd_result_keys sample_flag_to_string
        sample_checksum_format_for_display sample_unix_utc_date
        populated_device) <->
   created populated_device <> 0%N /\
   sample_unix_utc_date (created populated_device) = Some "2017-07-14").
Proof.
  split; [exact fwupd_result_keys_distinct|].
  exact (proj1 (timestamp_lines fwupd_result_keys sample_flag_to_string
                  sample_checksum_format_for_display sample_unix_utc_date
                  populated_device fwupd_result_keys_distinct)
           "2017-07-14").
Defined.

Lemma array_lines_witness :
  keys_distinct fwupd_result_keys /\
  (In {| line_key := "Guid";
         line_value := "2082b5e0-7a64-478a-b1b2-e3404fab6dad" |}
     (fwupd_device_to_string_lines fwupd_result_keys sample_flag_to_string
        sample_checksum_format_for_display sample_unix_utc_date
        populated_device) <->
   In "2082b5e0-7a64-478a-b1b2-e3404fab6dad" (guids populated_device)).
Proof.
  split; [exact fwupd_result_keys_distinct|].
  exact (proj1 (array_lines fwupd_result_keys sample_flag_to_string
                  sample_checksum_format_for_display sample_unix_utc_date
                  populated_device fwupd_result_keys_distinct)
           "2082b5e0-7a64-478a-b1b2-e3404fab6dad").
Defined.

Lemma array_pairs_comma_joined_witness :
  guids (fwupd_device_add_guid populated_device "second-guid") <> [] /\
  hd_error
    (serialize fwupd_result_keys
       (fwupd_device_add_guid populated_device "second-guid")) =
  Some ("Guid",
        GVString
          (String.concat ","
             (guids (fwupd_device_add_guid populated_device "second-guid")))).
Proof.
  assert (Hne : guids (fwupd_device_add_guid populated_device "second-guid")
                <> []) by discriminate.
  split; [exact Hne|].
  exact (proj1 (array_pairs_comma_joined fwupd_result_keys
                  (fwupd_device_add_guid populated_device "second-guid"))
           Hne).
Defined.

Lemma pair_order_irrelevant_witness :
  Permutation
    [("Vendor", GVString "Hughski"); ("Guid", GVString "a,b");
     ("Flags", GVUint64 9)]
    [("Flags", GVUint64 9); ("Vendor", GVString "Hughski");
     ("Guid", GVString "a,b")] /\
  NoDup (map fst [("Vendor", GVString "Hughski"); ("Guid", GVString "a,b");
                  ("Flags", GVUint64 9)]) /\
  fwupd_device_new_from_data fwupd_result_keys
    (GVDict [("Vendor", GVString "Hughski"); ("Guid", GVString "a,b");
             ("Flags", GVUint64 9)]) =
  fwupd_device_new_from_data fwupd_result_keys
    (GVDict [("Flags", GVUint64 9); ("Vendor", GVString "Hughski");
             ("Guid", GVString "a,b")]).
Proof.
  assert (Hperm :
            Permutation
              [("Vendor", GVString "Hughski"); ("Guid", GVString "a,b");
               ("Flags", GVUint64 9)]
              [("Flags", GVUint64 9); ("Vendor", GVString "Hughski");
               ("Guid", GVString "a,b")]).
  { apply Permutation_sym.
    apply (Permutation_cons_app
             [("Vendor", GVString "Hughski"); ("Guid", GVString "a,b")] []).
    rewrite app_nil_r. apply Permutation_refl. }
  assert (Hnd : NoDup (map fst [("Vendor", GVString "Hughski");
                                ("Guid", GVString "a,b");
                                ("Flags", GVUint64 9)]))
    by (apply NoDup_by_nodup; reflexivity).
  split; [exact Hperm|]. split; [exact Hnd|].
  exact (proj2 (pair_order_irrelevant fwupd_result_keys _ _ Hperm Hnd)).
Defined.

Lemma flags_stay_in_range_witness :
  flags_in_range (fwupd_device_set_flags populated_device 5) /\
  Forall (fun call => (flag_call_mask call < 2 ^ 64)%N)
    [AddFlag 8; RemoveFlag 1; AddFlag 18446744073709551615] /\
  flags_in_range
    (run_flag_calls (fwupd_device_set_flags populated_device 5)
       [AddFlag 8; RemoveFlag 1; AddFlag 18446744073709551615]).
Proof.
  assert (Hrange : flags_in_range (fwupd_device_set_flags populated_device 5))
    by reflexivity.
  assert (Hmasks : Forall (fun call => (flag_call_mask call < 2 ^ 64)%N)
                     [AddFlag 8; RemoveFlag 1; AddFlag 18446744073709551615])
    by (repeat constructor).
  split; [exact Hrange|]. split; [exact Hmasks|].
  exact (proj1 (flags_stay_in_range _ _ Hrange Hmasks)).
Defined.
